(** * project-rag-system: the retrieval pipeline, embedded and verified

    A shallow embedding of the repository (pdf_processor.py,
    vector_store.py, retriever.py, llm_chain.py, main.py):

    - [PDFProcessor]: [_clean_text], [_extract_pages], [load_and_split],
      [_create_chunks] (splitting pages into chunk documents),
      [get_stats];
    - [VectorStore]: content-hash identity, idempotent [add_documents],
      thresholded [similarity_search];
    - [Retriever]: [retrieve], [_deduplicate], [_jaccard_similarity],
      [_build_context], [_extract_sources];
    - [LLMChain]: [generate_answer] and the statistics of the session;
    - [Main]: [setup_rag_pipeline] and the loop of
      [interactive_chat_loop].

    Modelling conventions.
    - A Python [str] is a [string] whose characters are the code points
      below 256; [str.lower], [str.isspace] and [str.isdigit] are the
      Unicode tables restricted to that range.
    - A Python [float] score is an exact rational ([Q]); the quotient of
      two set sizes and the comparison with [0.90] are exact.
      A quotient of two sizes below 10^15 compares with the double
      nearest to 0.90 as the exact quotient compares with 9/10.
    - A raised exception is a value of [exn]; a call that may raise returns
      a [result].  Logging is not modelled.
    - The Chroma handle [self.db] is an external collaborator.  The code
      is written against the interface [Chroma]; [Mem.chroma] is the keyed
      in-memory collection used where a claim depends on what is stored.
    - The OpenAI client, [fitz.open] and [input] are external as well:
      the client is the interface [OpenAI], with [Scripted.client] as an
      instance that records its requests; what [fitz.open] and [input]
      do is given as data.  Of what is printed the layout is left out. *)

From Stdlib Require Import ZArith QArith Ascii String.
From Stdlib Require Import DecimalString DecimalPos DecimalN.
From stdpp Require Import gmap strings list sorting.

Set Default Proof Using "Type".

(** ** Exceptions and results *)

(** The exception classes that occur in the modelled code, and the ones a
    collaborator is known to raise. *)
Inductive exc_type :=
  | RuntimeError
  | NotImplementedError   (* subclass of RuntimeError *)
  | RecursionError        (* subclass of RuntimeError *)
  | ValueError
  | IndexError
  | KeyError
  | ConnectionError
  | DuplicateIDError.

Record exn := Exc { exc_class : exc_type; exc_msg : string }.

(** [isinstance(e, RuntimeError)], the test of [except RuntimeError]. *)
Definition isinstance_RuntimeError (e : exn) : bool :=
  match exc_class e with
  | RuntimeError | NotImplementedError | RecursionError => true
  | _ => false
  end.

Inductive result (A : Type) :=
  | Ok (a : A)
  | Raised (e : exn).
Arguments Ok {A} a.
Arguments Raised {A} e.

Global Instance result_ret : MRet result := λ A a, Ok a.
Global Instance result_bind : MBind result := λ A B k r,
  match r with
  | Ok a => k a
  | Raised e => Raised e
  end.

(** ** Dict values *)

(** A value of the statistics dicts ([get_stats], [get_session_stats]):
    an [int], a [float] or a [str]. *)
Inductive pyval :=
  | VInt (n : Z)
  | VFloat (q : Q)
  | VStr (s : string).

(** [d[key]]: a [KeyError] for a key that is missing. *)
Definition dict_get {V} (d : gmap string V) (key : string) : result V :=
  match d !! key with
  | Some v => Ok v
  | None => Raised (Exc KeyError key)
  end.

(** ** Outcomes of the loading code *)

(** [FileNotFoundError] is raised by the loading code beside the
    exceptions of [exn]; an outcome is a returned value or one of the
    two. *)
Inductive outcome (A : Type) :=
  | Returned (a : A)
  | FileNotFoundError (msg : string)
  | Raises (e : exn).
Arguments Returned {A} a.
Arguments FileNotFoundError {A} msg.
Arguments Raises {A} e.

Global Instance outcome_ret : MRet outcome := λ A a, Returned a.
Global Instance outcome_bind : MBind outcome := λ A B k r,
  match r with
  | Returned a => k a
  | FileNotFoundError msg => FileNotFoundError msg
  | Raises e => Raises e
  end.

(** A call that raises exceptions of [exn] only. *)
Definition of_result {A} (r : result A) : outcome A :=
  match r with
  | Ok a => Returned a
  | Raised e => Raises e
  end.

(** ** Python strings *)

Module PyStr.

(** [c.isspace()] for a code point below 256: TAB..CR, FS..US, SPACE,
    NEL and NBSP.  This is the separator set of [str.split()]. *)
Definition is_space (c : ascii) : bool :=
  let n := N_of_ascii c in
  ((9 <=? n) && (n <=? 13) || (28 <=? n) && (n <=? 32)
   || (n =? 133) || (n =? 160))%N.

(** [c.lower()]: A-Z and the Latin-1 capitals (all of 192..222 but the
    multiplication sign) move up by 32. *)
Definition lower_char (c : ascii) : ascii :=
  let n := N_of_ascii c in
  if ((65 <=? n) && (n <=? 90)
      || (192 <=? n) && (n <=? 222) && negb (n =? 215))%N
  then ascii_of_N (n + 32) else c.

Fixpoint lower (s : string) : string :=
  match s with
  | EmptyString => EmptyString
  | String c s' => String (lower_char c) (lower s')
  end.

(** [s.split()]: the maximal runs of non-space characters, in order. *)
Fixpoint split (s : string) : list string :=
  match s with
  | EmptyString => []
  | String c s' =>
      if is_space c then split s'
      else match s' with
           | EmptyString => [String c EmptyString]
           | String c' _ =>
               if is_space c' then String c EmptyString :: split s'
               else match split s' with
                    | w :: ws => String c w :: ws
                    | [] => [String c EmptyString]
                    end
           end
  end.

Fixpoint lstrip (s : string) : string :=
  match s with
  | EmptyString => EmptyString
  | String c s' => if is_space c then lstrip s' else s
  end.

Definition rstrip (s : string) : string :=
  String.rev (lstrip (String.rev s)).

(** [s.strip()] *)
Definition strip (s : string) : string := rstrip (lstrip s).

(** [len(s)] *)
Definition len (s : string) : nat := String.length s.

(** [c.isdigit()] below 256: the decimal digits and the superscripts
    two, three and one. *)
Definition is_digit_char (c : ascii) : bool :=
  let n := N_of_ascii c in
  ((48 <=? n) && (n <=? 57) || (n =? 178) || (n =? 179) || (n =? 185))%N.

Fixpoint all_chars (p : ascii → bool) (s : string) : bool :=
  match s with
  | EmptyString => true
  | String c s' => p c && all_chars p s'
  end.

(** [s.isdigit()]: non-empty and every character a digit. *)
Definition isdigit (s : string) : bool :=
  match s with
  | EmptyString => false
  | _ => all_chars is_digit_char s
  end.

(** [int(s)] on a string of digit characters: the decimal value, and a
    [ValueError] when a character is not one of 0..9 (or [s] is empty). *)
Definition int (s : string) : result N :=
  match s with
  | EmptyString => Raised (Exc ValueError "invalid literal for int()")
  | _ =>
      match NilZero.uint_of_string s with
      | Some d => Ok (N.of_uint d)
      | None => Raised (Exc ValueError "invalid literal for int()")
      end
  end.

(** [str(n)] for a non-negative integer. *)
Definition str (n : N) : string := NilZero.string_of_uint (N.to_uint n).

(** [sep.join(parts)] *)
Fixpoint join (sep : string) (parts : list string) : string :=
  match parts with
  | [] => EmptyString
  | [p] => p
  | p :: ps => p +:+ sep +:+ join sep ps
  end.

(** [l[-1]] *)
Definition last_item {A} (l : list A) : result A :=
  match last l with
  | Some x => Ok x
  | None => Raised (Exc IndexError "list index out of range")
  end.

(** [chr(n)] as a string, for writing the characters that a literal
    cannot hold: the newline, the double quote, the Latin-1 letters. *)
Definition chr (n : N) : string := String (ascii_of_N n) EmptyString.

(** The newline character and the soft hyphen (U+00AD). *)
Definition newline : ascii := ascii_of_N 10.
Definition soft_hyphen : ascii := ascii_of_N 173.

(** [s.split(sep)] for a separator of one character: the pieces between
    the separators, the empty ones included; never an empty list. *)
Fixpoint split_on (sep : ascii) (s : string) : list string :=
  match s with
  | EmptyString => [EmptyString]
  | String c s' =>
      if Ascii.eqb c sep then EmptyString :: split_on sep s'
      else match split_on sep s' with
           | w :: ws => String c w :: ws
           | [] => [String c EmptyString]
           end
  end.

(** [s.replace(c, "")] for a string [c] of one character. *)
Fixpoint remove_char (c0 : ascii) (s : string) : string :=
  match s with
  | EmptyString => EmptyString
  | String c s' =>
      if Ascii.eqb c c0 then remove_char c0 s'
      else String c (remove_char c0 s')
  end.

(** [c * n] for a string [c] and an integer [n]: empty when [n <= 0]. *)
Fixpoint repeat_nat (c : string) (n : nat) : string :=
  match n with
  | O => EmptyString
  | S n' => c +:+ repeat_nat c n'
  end.

Definition repeat (c : string) (n : Z) : string := repeat_nat c (Z.to_nat n).

End PyStr.

(** ** Python lists and ranges *)

(** [range(start, stop, step)] as the list of its items. *)
Definition py_range (start stop step : Z) : result (list Z) :=
  if decide (step = 0)%Z
  then Raised (Exc ValueError "range() arg 3 must not be zero")
  else
    let n :=
      if decide (0 < step)%Z
      then ((stop - start + step - 1) / step)%Z
      else ((start - stop - step - 1) / (- step))%Z in
    Ok (map (λ k : nat, (start + Z.of_nat k * step)%Z) (seq 0 (Z.to_nat n))).

(** [l[i:j]] for indices that are not negative. *)
Definition slice {A} (l : list A) (i j : Z) : list A :=
  take (Z.to_nat j - Z.to_nat i) (drop (Z.to_nat i) l).

(** [sorted(l, key=key)]: the keys are computed first, one call per item;
    the sort is stable. *)
Fixpoint insert_by_key {A} (kx : N * A) (l : list (N * A)) : list (N * A) :=
  match l with
  | [] => [kx]
  | ky :: l' =>
      if (kx.1 <=? ky.1)%N then kx :: ky :: l'
      else ky :: insert_by_key kx l'
  end.

Definition sort_by_key {A} (l : list (N * A)) : list (N * A) :=
  foldr insert_by_key [] l.

Definition sorted {A} (key : A → result N) (l : list A) : result (list A) :=
  keys ← mapM key l;
  mret ((sort_by_key (zip keys l)).*2).

(** ** Documents *)

(** The metadata dict of a langchain [Document].  Each key may be absent;
    [page] is the 1-based page number written by [_create_chunks]. *)
Record Metadata := {
  md_page : option N;
  md_source : option string;
  md_chunk_index : option N;
  md_chunk_length : option N;
}.

Record Document := {
  page_content : string;
  metadata : Metadata;
}.

Global Instance Metadata_eq_dec : EqDecision Metadata.
Proof. solve_decision. Defined.
Global Instance Document_eq_dec : EqDecision Document.
Proof. solve_decision. Defined.

(** [score >= bound] on similarity scores. *)
Definition score_ge (score bound : Q) : bool := Qle_bool bound score.

(** ** The vector persistence collaborator *)

(** What [VectorStore] calls on its Chroma handle [self.db]:
    [_collection.count()], the ids of [_collection.get(include=[])],
    [add_documents(documents=, ids=)], which changes the handle, and
    [similarity_search_with_relevance_scores(query=, k=)].  Every call may
    raise. *)
Class Chroma (DB : Type) := {
  collection_count : DB → result nat;
  collection_get_ids : DB → result (list string);
  chroma_add_documents : DB → list Document → list string → result () * DB;
  similarity_search_with_relevance_scores :
    DB → string → Z → result (list (Document * Q));
}.

(** The keyed in-memory collection: one stored document per id, adding
    under a stored id replaces the entry.  What the embedding model and
    the nearest-neighbour search return is not determined by this
    repository and is a parameter ([search]), as is whether the
    collaborator rejects a batch ([add_fault]: a failing embedding call,
    the validation of the ids); a rejected batch stores nothing. *)
Module Mem.
Section Mem.
Variable search :
  gmap string Document → string → Z → result (list (Document * Q)).
Variable add_fault :
  gmap string Document → list Document → list string → option exn.

Definition upsert (coll : gmap string Document)
    (docs : list Document) (ids : list string) : gmap string Document :=
  foldl (λ m '(i, d), <[i := d]> m) coll (zip ids docs).

Global Instance chroma : Chroma (gmap string Document) := {|
  collection_count coll := Ok (size coll);
  collection_get_ids coll := Ok ((map_to_list coll).*1);
  chroma_add_documents coll docs ids :=
    match add_fault coll docs ids with
    | Some e => (Raised e, coll)
    | None => (Ok (), upsert coll docs ids)
    end;
  similarity_search_with_relevance_scores := search;
|}.
End Mem.
End Mem.

(** ** vector_store.py *)

Module VectorStore.
Section VectorStore.
Context {DB : Type} `{!Chroma DB}.
(** [hashlib.md5(content.encode("utf-8")).hexdigest()] *)
Variable md5 : string → string.

Definition _compute_doc_id (doc : Document) : string :=
  let content :=
    default "" (md_source (metadata doc)) +:+ "__" +:+ page_content doc in
  md5 content.

Definition _get_existing_ids (db : DB) : gset string :=
  match collection_get_ids db with
  | Ok ids => list_to_set ids
  | Raised _ => ∅
  end.

Definition is_empty (db : DB) : bool :=
  match collection_count db with
  | Ok count => bool_decide (count = 0)
  | Raised _ => true
  end.

Definition get_document_count (db : DB) : nat :=
  match collection_count db with
  | Ok count => count
  | Raised _ => 0
  end.

(** The body of the first loop of [add_documents]: the state is
    [(new_docs, new_ids, skipped)]. *)
Definition select_step (existing_ids : gset string)
    (st : list Document * list string * nat) (doc : Document)
    : list Document * list string * nat :=
  let '(new_docs, new_ids, skipped) := st in
  let doc_id := _compute_doc_id doc in
  if decide (doc_id ∈ existing_ids)
  then (new_docs, new_ids, S skipped)
  else (new_docs ++ [doc], new_ids ++ [doc_id], skipped).

Definition select_new (existing_ids : gset string)
    (documents : list Document) : list Document * list string * nat :=
  foldl (select_step existing_ids) ([], [], 0) documents.

(** The batch loop of [add_documents] over the items of the range; an
    exception of the collaborator leaves the loop and the function. *)
Fixpoint add_batches (db : DB) (new_docs : list Document)
    (new_ids : list string) (batch_size : Z) (starts : list Z)
    (added_count : nat) : result nat * DB :=
  match starts with
  | [] => (Ok added_count, db)
  | i :: starts' =>
      let batch_docs := slice new_docs i (i + batch_size) in
      let batch_ids := slice new_ids i (i + batch_size) in
      match chroma_add_documents db batch_docs batch_ids with
      | (Ok _, db') =>
          add_batches db' new_docs new_ids batch_size starts'
            (added_count + length batch_docs)
      | (Raised e, db') => (Raised e, db')
      end
  end.

Definition add_documents (db : DB) (documents : list Document)
    (batch_size : Z) : result nat * DB :=
  let existing_ids := _get_existing_ids db in
  let '(new_docs, new_ids, skipped) := select_new existing_ids documents in
  match new_docs with
  | [] => (Ok 0, db)
  | _ =>
      match py_range 0 (Z.of_nat (length new_docs)) batch_size with
      | Raised e => (Raised e, db)
      | Ok starts => add_batches db new_docs new_ids batch_size starts 0
      end
  end.

Definition empty_db_error : exn :=
  Exc RuntimeError
    "Die Vektordatenbank ist leer. Bitte zuerst ein PDF mit --pdf indexieren.".

Definition similarity_search (db : DB) (query : string) (k : Z)
    (min_similarity : Q) : result (list (Document * Q)) :=
  if is_empty db then Raised empty_db_error
  else
    results ← similarity_search_with_relevance_scores db query k;
    let filtered :=
      List.filter (λ '(doc, score), score_ge score min_similarity) results in
    mret filtered.

End VectorStore.

(** [batch_size: int = 32] *)
Definition default_batch_size : Z := 32.

End VectorStore.

(** ** retriever.py *)

Module Retriever.

Record RetrievalResult := {
  query : string;
  documents : list Document;
  scores : list Q;
  context : string;
  sources : list string;
}.

(** [len(self.documents) > 0] *)
Definition found_results (r : RetrievalResult) : bool :=
  bool_decide (0 < length (documents r)).

(** [max(self.scores) if self.scores else 0.0] *)
Definition top_score (r : RetrievalResult) : Q :=
  match scores r with
  | [] => 0%Q
  | s :: ss => foldl (λ m x, if Qle_bool m x then x else m) s ss
  end.

(** [set(text.lower().split())] *)
Definition word_set (text : string) : gset string :=
  list_to_set (PyStr.split (PyStr.lower text)).

Definition _jaccard_similarity (text1 text2 : string) : Q :=
  let words1 := word_set text1 in
  let words2 := word_set text2 in
  if bool_decide (words1 = ∅) || bool_decide (words2 = ∅) then 0%Q
  else
    let intersection := words1 ∩ words2 in
    let union := words1 ∪ words2 in
    (Z.of_nat (size intersection) # Pos.of_nat (size union))%Q.

(** The inner loop of [_deduplicate]: does some kept document reach the
    threshold?  The loop stops at the first one that does. *)
Definition is_duplicate (similarity_threshold : Q) (doc : Document)
    (unique_results : list (Document * Q)) : bool :=
  existsb
    (λ '(existing_doc, _),
       score_ge
         (_jaccard_similarity (page_content doc) (page_content existing_doc))
         similarity_threshold)
    unique_results.

(** The body of the outer loop of [_deduplicate]. *)
Definition dedup_step (similarity_threshold : Q)
    (unique_results : list (Document * Q)) (r : Document * Q)
    : list (Document * Q) :=
  let '(doc, score) := r in
  if is_duplicate similarity_threshold doc unique_results
  then unique_results
  else unique_results ++ [(doc, score)].

Definition _deduplicate (results : list (Document * Q))
    (similarity_threshold : Q) : list (Document * Q) :=
  match results with
  | [] | [_] => results
  | first :: rest => foldl (dedup_step similarity_threshold) [first] rest
  end.

Definition nl : string := String (ascii_of_N 10) EmptyString.

(** [f"{page}"] for [page = doc.metadata.get("page", "?")]: the decimal
    digits of a stored page number, the marker [?] without one. *)
Definition page_marker (page : option N) : string :=
  match page with
  | Some n => PyStr.str n
  | None => "?"
  end.

Definition page_str (doc : Document) : string :=
  page_marker (md_page (metadata doc)).

Definition _build_context (results : list (Document * Q)) : string :=
  let context_parts :=
    imap
      (λ i '(doc, score),
         let page := page_str doc in
         let source := default "Unbekannt" (md_source (metadata doc)) in
         "[Abschnitt " +:+ PyStr.str (N.of_nat (S i)) +:+ "] (Quelle: "
           +:+ source +:+ ", Seite " +:+ page +:+ ")" +:+ nl
           +:+ page_content doc)
      results in
  PyStr.join (nl +:+ nl +:+ "---" +:+ nl +:+ nl) context_parts.

(** [f"{source}_p{page}"] *)
Definition source_key (doc : Document) : string :=
  default "" (md_source (metadata doc)) +:+ "_p" +:+ page_str doc.

(** [f"Seite {page}"] *)
Definition source_label (doc : Document) : string :=
  "Seite " +:+ page_str doc.

(** The body of the loop of [_extract_sources]: the state is
    [(sources, seen)]. *)
Definition collect_step (st : list string * gset string)
    (r : Document * Q) : list string * gset string :=
  let '(sources, seen) := st in
  let '(doc, _) := r in
  let key := source_key doc in
  if decide (key ∈ seen) then (sources, seen)
  else (sources ++ [source_label doc], {[key]} ∪ seen).

Definition collect_sources (results : list (Document * Q))
    : list string * gset string :=
  foldl collect_step ([], ∅) results.

(** [lambda s: int(s.split()[-1]) if s.split()[-1].isdigit() else 0] *)
Definition page_sort_key (s : string) : result N :=
  tok ← PyStr.last_item (PyStr.split s);
  if PyStr.isdigit tok then PyStr.int tok else mret 0%N.

Definition _extract_sources (results : list (Document * Q))
    : result (list string) :=
  sorted page_sort_key (collect_sources results).1.

Section Retriever.
Context {DB : Type} `{!Chroma DB}.

Record Retriever := {
  vector_store : DB;
  top_k : Z;
  min_similarity : Q;
}.

(** The loop that fills [result.documents] and [result.scores]. *)
Definition store_results (deduplicated : list (Document * Q))
    : list Document * list Q :=
  foldl (λ '(docs, scs) '(doc, score), (docs ++ [doc], scs ++ [score]))
    ([], []) deduplicated.

Definition retrieve (self : Retriever) (q : string)
    : result RetrievalResult :=
  let result :=
    {| query := q; documents := []; scores := [];
       context := ""; sources := [] |} in
  match
    VectorStore.similarity_search (vector_store self) q (top_k self)
      (min_similarity self)
  with
  | Raised e => if isinstance_RuntimeError e then Ok result else Raised e
  | Ok [] => Ok result
  | Ok raw_results =>
      let deduplicated := _deduplicate raw_results (90 # 100) in
      let '(docs, scs) := store_results deduplicated in
      let ctx := _build_context deduplicated in
      srcs ← _extract_sources deduplicated;
      Ok {| query := q; documents := docs; scores := scs;
            context := ctx; sources := srcs |}
  end.

End Retriever.
Arguments Retriever DB : clear implicits.

(** [TOP_K_RESULTS] and [MIN_SIMILARITY] of config.py *)
Definition TOP_K_RESULTS : Z := 3.
Definition MIN_SIMILARITY : Q := 3 # 10.

End Retriever.

(** ** pdf_processor.py *)

Module PDFProcessor.

(** One page dict of [_extract_pages]. *)
Record Page := {
  text : string;
  page_number : N;
}.

Section PDFProcessor.
(** [self.text_splitter.split_text], the langchain splitter configured in
    [__init__]. *)
Variable split_text : string → list string.

(** The inner loop of [_create_chunks] over the chunks of one page: the
    state is [(all_documents, chunk_index)]. *)
Definition add_page_chunks (source_filename : string) (page_data : Page)
    (st : list Document * N) (page_chunks : list string)
    : list Document * N :=
  foldl
    (λ '(all_documents, chunk_index) chunk_text,
       if bool_decide (PyStr.len (PyStr.strip chunk_text) < 30)
       then (all_documents, chunk_index)
       else
         let doc :=
           {| page_content := chunk_text;
              metadata :=
                {| md_page := Some (page_number page_data);
                   md_source := Some source_filename;
                   md_chunk_index := Some chunk_index;
                   md_chunk_length := Some (N.of_nat (PyStr.len chunk_text)) |}
           |} in
         (all_documents ++ [doc], (chunk_index + 1)%N))
    st page_chunks.

Definition _create_chunks (pages : list Page) (source_filename : string)
    : list Document :=
  (foldl
     (λ st page_data,
        add_page_chunks source_filename page_data st
          (split_text (text page_data)))
     ([], 0%N) pages).1.


(** [re.sub(r"\n{3,}", "\n\n", text)]: every maximal run of three or more
    newlines becomes two newlines.  [run] counts the newlines of the run
    being read. *)
Fixpoint sub_blank_lines (run : nat) (s : string) : string :=
  match s with
  | EmptyString => PyStr.repeat_nat (PyStr.chr 10) (run `min` 2)
  | String c s' =>
      if Ascii.eqb c PyStr.newline then sub_blank_lines (S run) s'
      else PyStr.repeat_nat (PyStr.chr 10) (run `min` 2)
             +:+ String c (sub_blank_lines 0 s')
  end.

Definition _clean_text (text : string) : string :=
  let text := sub_blank_lines 0 text in
  let lines := PyStr.strip <$> PyStr.split_on PyStr.newline text in
  let text := PyStr.join (PyStr.chr 10) lines in
  let text := PyStr.remove_char PyStr.soft_hyphen text in
  PyStr.strip text.

(** What [fitz.open] does with the path: it returns the document, given
    here by [page.get_text("text")] for each of its pages, or raises
    [fitz.FileNotFoundError] or another exception ([str_e] is [str(e)]). *)
Inductive fitz_open :=
  | Opened (page_texts : list string)
  | FitzFileNotFound
  | FitzError (str_e : string).

(** A [pathlib.Path]: [str(pdf_path)] and [pdf_path.name]. *)
Record Path := {
  path_str : string;
  path_name : string;
}.

(** The body of the page loop of [_extract_pages]: the state is
    [(pages, page_num)]. *)
Definition extract_step (st : list Page * N) (raw : string)
    : list Page * N :=
  let '(pages, page_num) := st in
  if bool_decide (PyStr.len (PyStr.strip raw) < 50)
  then (pages, (page_num + 1)%N)
  else
    (pages ++ [{| text := _clean_text raw;
                  page_number := (page_num + 1)%N |}],
     (page_num + 1)%N).

Definition _extract_pages (fitz : fitz_open) (pdf_path : Path)
    : outcome (list Page) :=
  match fitz with
  | FitzFileNotFound =>
      FileNotFoundError ("PDF-Datei nicht gefunden: " +:+ path_str pdf_path)
  | FitzError str_e =>
      Raises
        (Exc RuntimeError
           ("Fehler beim " +:+ PyStr.chr 214 +:+ "ffnen der PDF: " +:+ str_e
              +:+ PyStr.chr 10 +:+ "M" +:+ PyStr.chr 246
              +:+ "gliche Ursachen: Korrupte Datei oder Passwortschutz."))
  | Opened page_texts =>
      Returned (foldl extract_step ([], 0%N) page_texts).1
  end.

Definition no_text_error (pdf_path : Path) : exn :=
  Exc RuntimeError
    ("Keine Textinhalte in '" +:+ path_name pdf_path
       +:+ "' gefunden. M" +:+ PyStr.chr 246
       +:+ "glicherweise ist die PDF gescannt (enth" +:+ PyStr.chr 228
       +:+ "lt nur Bilder). F" +:+ PyStr.chr 252
       +:+ "r gescannte PDFs w" +:+ PyStr.chr 228 +:+ "re OCR n"
       +:+ PyStr.chr 246 +:+ "tig (z.B. Tesseract).").

Definition load_and_split (fitz : fitz_open) (pdf_path : Path)
    : outcome (list Document) :=
  raw_pages ← _extract_pages fitz pdf_path;
  match raw_pages with
  | [] => Raises (no_text_error pdf_path)
  | _ => Returned (_create_chunks raw_pages (path_name pdf_path))
  end.

(** [sum(lengths)] *)
Definition sum_nat (l : list nat) : nat := foldl Nat.add 0 l.

(** [min] and [max] are taken of a list that has a first item. *)
Definition get_stats (documents : list Document) : gmap string pyval :=
  match documents with
  | [] => {[ "count" := VInt 0 ]}
  | doc :: docs =>
      let lengths := (λ d, PyStr.len (page_content d)) <$> documents in
      let pages := (λ d, default 0%N (md_page (metadata d))) <$> documents in
      let first := PyStr.len (page_content doc) in
      let others := (λ d, PyStr.len (page_content d)) <$> docs in
      {[ "count" := VInt (Z.of_nat (length documents));
         "avg_length" :=
           VFloat (Z.of_nat (sum_nat lengths) # Pos.of_nat (length lengths));
         "min_length" := VInt (Z.of_nat (foldl Nat.min first others));
         "max_length" := VInt (Z.of_nat (foldl Nat.max first others));
         "total_chars" := VInt (Z.of_nat (sum_nat lengths));
         "unique_pages" :=
           VInt (Z.of_nat (size (list_to_set pages : gset N))) ]}
  end.

End PDFProcessor.
End PDFProcessor.

(** ** The language model collaborator *)

(** The arguments of [client.chat.completions.create]. *)
Record ChatRequest := {
  req_model : string;
  req_messages : list (string * string);
  req_temperature : Q;
  req_max_tokens : Z;
}.

(** [response.usage] *)
Record Usage := {
  usage_prompt_tokens : Z;
  usage_completion_tokens : Z;
  usage_total_tokens : Z;
}.

(** What [generate_answer] reads of a response: [message.content] of each
    choice, which may be [None], and [usage], which may be [None]. *)
Record ChatCompletion := {
  choices : list (option string);
  usage : option Usage;
}.

(** A call of the client returns a response or raises.  The three
    exception classes of the openai library that [generate_answer] names
    are kept apart; [AuthenticationError] and [RateLimitError] are
    subclasses of [APIError], so [APIError] here stands for the instances
    that are neither ([str_e] is [str(e)]). *)
Inductive api_outcome :=
  | Completed (response : ChatCompletion)
  | AuthenticationError
  | RateLimitError
  | APIError (str_e : string)
  | OtherError (e : exn).

(** The client is an external collaborator with a state of its own (the
    service behind it); a call may change it. *)
Class OpenAI (C : Type) := {
  chat_completions_create : C → ChatRequest → api_outcome * C;
}.

(** A client that answers from a script, one entry per call, and records
    the requests it was sent; past the end of its script it fails. *)
Module Scripted.

Record Client := {
  script : list api_outcome;
  requests : list ChatRequest;
}.

Global Instance client : OpenAI Client := {|
  chat_completions_create c request :=
    match script c with
    | [] =>
        (OtherError (Exc ConnectionError "no answer"),
         {| script := []; requests := requests c ++ [request] |})
    | outcome :: rest =>
        (outcome, {| script := rest; requests := requests c ++ [request] |})
    end;
|}.

End Scripted.

(** ** llm_chain.py *)

Module LLMChain.

Definition SYSTEM_PROMPT : string :=
  "Du bist ein pr" +:+ PyStr.chr 228 +:+ "ziser Dokumenten-Assistent."
    +:+ PyStr.chr 10 +:+ PyStr.chr 10 +:+ "REGELN (nicht verhandelbar):"
    +:+ PyStr.chr 10
    +:+ "1. Beantworte Fragen NUR auf Basis der bereitgestellten "
    +:+ "Kontext-Abschnitte." +:+ PyStr.chr 10
    +:+ "2. Wenn die Antwort nicht im Kontext steht, sage: " +:+ PyStr.chr 34
    +:+ "Diese Information ist im Dokument nicht enthalten." +:+ PyStr.chr 34
    +:+ PyStr.chr 10
    +:+ "3. Gib am Ende deiner Antwort immer die verwendeten "
    +:+ "Abschnitte an (z.B. " +:+ PyStr.chr 34 +:+ "[Abschnitt 1, 3]"
    +:+ PyStr.chr 34 +:+ ")." +:+ PyStr.chr 10
    +:+ "4. Antworte auf Deutsch, pr" +:+ PyStr.chr 228
    +:+ "zise und strukturiert." +:+ PyStr.chr 10
    +:+ "5. Erfinde KEINE Informationen, auch wenn sie plausibel "
    +:+ "klingen." +:+ PyStr.chr 10 +:+ PyStr.chr 10 +:+ "FORMAT:"
    +:+ PyStr.chr 10
    +:+ "- Antwort: [Deine Antwort basierend auf dem Kontext]"
    +:+ PyStr.chr 10 +:+ "- Verwendet: [Abschnittsnummern]" +:+ PyStr.chr 10.

Record LLMResponse := {
  answer : string;
  sources : list string;
  prompt_tokens : Z;
  completion_tokens : Z;
  total_tokens : Z;
}.

(** The prices are the rationals the literals denote. *)
Definition estimated_cost_usd (r : LLMResponse) : Q :=
  let input_cost := (inject_Z (prompt_tokens r) / 1000 * (5 # 10000))%Q in
  let output_cost :=
    (inject_Z (completion_tokens r) / 1000 * (15 # 10000))%Q in
  (input_cost + output_cost)%Q.

(** The answer given without asking the model. *)
Definition no_results_answer : string :=
  "Ich konnte keine relevanten Informationen zu deiner "
    +:+ "Frage in dem Dokument finden. Bitte formuliere die "
    +:+ "Frage anders oder " +:+ PyStr.chr 252 +:+ "berpr" +:+ PyStr.chr 252
    +:+ "fe, ob das Thema im Dokument behandelt wird.".

Definition authentication_failed : exn :=
  Exc RuntimeError
    ("OpenAI Authentication fehlgeschlagen!" +:+ PyStr.chr 10 +:+ "Pr"
       +:+ PyStr.chr 252 +:+ "fe deinen API-Key in der .env-Datei.").

Definition rate_limit_reached : exn :=
  Exc RuntimeError
    ("OpenAI Rate-Limit erreicht!" +:+ PyStr.chr 10
       +:+ "Bitte warte kurz und versuche es erneut, oder upgraden "
       +:+ "deinen OpenAI-Plan.").

Definition api_failed (str_e : string) : exn :=
  Exc RuntimeError ("OpenAI API-Fehler: " +:+ str_e).

Definition _build_user_message (retrieval_result : Retriever.RetrievalResult)
    : string :=
  "KONTEXT AUS DEM DOKUMENT:" +:+ PyStr.chr 10
    +:+ PyStr.repeat "=" 50 +:+ PyStr.chr 10
    +:+ Retriever.context retrieval_result +:+ PyStr.chr 10
    +:+ PyStr.repeat "=" 50 +:+ PyStr.chr 10 +:+ PyStr.chr 10
    +:+ "FRAGE: " +:+ Retriever.query retrieval_result.

Section LLMChain.
Context {C : Type} `{!OpenAI C}.

Record LLMChain := {
  model : string;
  temperature : Q;
  max_tokens : Z;
  client : C;
  total_tokens_used : Z;
  total_cost_usd : Q;
}.

(** [self] after a call of the client. *)
Definition with_client (self : LLMChain) (client' : C) : LLMChain :=
  {| model := model self; temperature := temperature self;
     max_tokens := max_tokens self; client := client';
     total_tokens_used := total_tokens_used self;
     total_cost_usd := total_cost_usd self |}.

Definition generate_answer (self : LLMChain)
    (retrieval_result : Retriever.RetrievalResult)
    : result LLMResponse * LLMChain :=
  if negb (Retriever.found_results retrieval_result)
  then
    (Ok {| answer := no_results_answer; sources := [];
           prompt_tokens := 0%Z; completion_tokens := 0%Z;
           total_tokens := 0%Z |},
     self)
  else
    let user_message := _build_user_message retrieval_result in
    let request :=
      {| req_model := model self;
         req_messages := [("system", SYSTEM_PROMPT); ("user", user_message)];
         req_temperature := temperature self;
         req_max_tokens := max_tokens self |} in
    let '(outcome, client') := chat_completions_create (client self) request in
    let self := with_client self client' in
    match outcome with
    | AuthenticationError => (Raised authentication_failed, self)
    | RateLimitError => (Raised rate_limit_reached, self)
    | APIError str_e => (Raised (api_failed str_e), self)
    | OtherError e => (Raised e, self)
    | Completed response =>
        match choices response with
        | [] => (Raised (Exc IndexError "list index out of range"), self)
        | content :: _ =>
            (* [content or ""] *)
            let answer := default "" content in
            let usage := usage response in
            let llm_response :=
              {| answer := answer;
                 sources := Retriever.sources retrieval_result;
                 prompt_tokens := from_option usage_prompt_tokens 0%Z usage;
                 completion_tokens :=
                   from_option usage_completion_tokens 0%Z usage;
                 total_tokens := from_option usage_total_tokens 0%Z usage |} in
            (Ok llm_response,
             {| model := model self; temperature := temperature self;
                max_tokens := max_tokens self; client := client self;
                total_tokens_used :=
                  (total_tokens_used self + total_tokens llm_response)%Z;
                total_cost_usd :=
                  (total_cost_usd self + estimated_cost_usd llm_response)%Q |})
        end
    end.

Definition get_session_stats (self : LLMChain) : gmap string pyval :=
  {[ "total_tokens" := VInt (total_tokens_used self);
     "estimated_cost_usd" := VFloat (total_cost_usd self);
     "model" := VStr (model self) ]}.

(** [LLMChain()] with the defaults of config.py, around a client. *)
Definition new (client : C) : LLMChain :=
  {| model := "gpt-3.5-turbo"; temperature := 0%Q; max_tokens := 1024%Z;
     client := client; total_tokens_used := 0%Z; total_cost_usd := 0%Q |}.

End LLMChain.
Arguments LLMChain C : clear implicits.

End LLMChain.

(** ** main.py *)

Module Main.

(** What [input("Du: ")] does: it returns a line, or raises
    [KeyboardInterrupt], or raises an exception of [exn], which are the
    instances of [Exception] (the end of the input among them).  Ctrl+C
    is modelled where the loop waits, at the prompt. *)
Inductive input_event :=
  | Line (s : string)
  | KeyboardInterrupt
  | InputError (e : exn).

(** What the chat loop prints, without the layout: an answer, the two
    error reports, the statistics and the summary with the numbers they
    show. *)
Inductive output :=
  | PrintAnswer (llm_response : LLMChain.LLMResponse)
  | PrintError (e : exn)
  | PrintUnexpected (e : exn)
  | PrintStats (stats : gmap string pyval)
  | PrintSummary (question_count : nat) (stats : gmap string pyval)
  | PrintInterrupted.

(** [user_input.lower() in ("exit", "quit", "bye", "beenden")] *)
Definition is_exit_command (user_input : string) : bool :=
  bool_decide (PyStr.lower user_input ∈ ["exit"; "quit"; "bye"; "beenden"]).

Section Main.
Context {DB : Type} `{!Chroma DB} {C : Type} `{!OpenAI C}.
Variable md5 : string → string.
Variable split_text : string → list string.

(** What [setup_rag_pipeline] meets outside the repository: [fitz.open]
    on the path; [VectorStore()] on the persisted directory, and again
    once the directory has been removed; [OpenAI(api_key=...)]. *)
Record Environment := {
  fitz : PDFProcessor.fitz_open;
  persisted : result DB;
  emptied : result DB;
  new_client : result C;
}.

Definition setup_rag_pipeline (env : Environment)
    (pdf_path : PDFProcessor.Path) (top_k : Z) (reset_db : bool)
    : outcome (Retriever.Retriever DB * LLMChain.LLMChain C) :=
  documents ← PDFProcessor.load_and_split split_text (fitz env) pdf_path;
  let stats := PDFProcessor.get_stats documents in
  _ ← of_result (dict_get stats "avg_length");
  _ ← of_result (dict_get stats "unique_pages");
  vector_store ← of_result (persisted env);
  vector_store ←
    (if reset_db then of_result (emptied env) else Returned vector_store);
  match
    VectorStore.add_documents md5 vector_store documents
      VectorStore.default_batch_size
  with
  | (Raised e, _) => Raises e
  | (Ok added, vector_store) =>
      let total_in_db := VectorStore.get_document_count vector_store in
      let retriever :=
        {| Retriever.vector_store := vector_store;
           Retriever.top_k := top_k;
           Retriever.min_similarity := Retriever.MIN_SIMILARITY |} in
      client ← of_result (new_client env);
      Returned (retriever, LLMChain.new client)
  end.

(** The state of the loop of [interactive_chat_loop]: what has been
    printed, [question_count] and the chain. *)
Record Session := {
  printed : list output;
  question_count : nat;
  llm_chain : LLMChain.LLMChain C;
}.

(** How the loop ends on the given inputs: by [break], or still reading
    when the inputs are used up. *)
Inductive loop_end :=
  | Finished (s : Session)
  | Reading (s : Session).

Definition print (s : Session) (o : output) : Session :=
  {| printed := printed s ++ [o]; question_count := question_count s;
     llm_chain := llm_chain s |}.

(** The two [except] clauses that keep the loop running: [RuntimeError]
    first, then [Exception]. *)
Definition report (s : Session) (e : exn) : Session :=
  print s (if isinstance_RuntimeError e then PrintError e
           else PrintUnexpected e).

Definition _print_session_summary (s : Session) : Session :=
  print s
    (PrintSummary (question_count s)
       (LLMChain.get_session_stats (llm_chain s))).

(** One question: from [question_count += 1] to [_print_answer]. *)
Definition ask (retriever : Retriever.Retriever DB) (s : Session)
    (user_input : string) : Session :=
  let s :=
    {| printed := printed s; question_count := S (question_count s);
       llm_chain := llm_chain s |} in
  match Retriever.retrieve retriever user_input with
  | Raised e => report s e
  | Ok retrieval_result =>
      let '(r, llm_chain') :=
        LLMChain.generate_answer (llm_chain s) retrieval_result in
      let s :=
        {| printed := printed s; question_count := question_count s;
           llm_chain := llm_chain' |} in
      match r with
      | Raised e => report s e
      | Ok llm_response => print s (PrintAnswer llm_response)
      end
  end.

Fixpoint chat_loop (retriever : Retriever.Retriever DB) (s : Session)
    (inputs : list input_event) : loop_end :=
  match inputs with
  | [] => Reading s
  | KeyboardInterrupt :: _ =>
      Finished (print (_print_session_summary s) PrintInterrupted)
  | InputError e :: inputs' => chat_loop retriever (report s e) inputs'
  | Line line :: inputs' =>
      let user_input := PyStr.strip line in
      if bool_decide (user_input = "") then chat_loop retriever s inputs'
      else if is_exit_command user_input
      then Finished (_print_session_summary s)
      else if bool_decide (PyStr.lower user_input = "stats")
      then
        chat_loop retriever
          (print s (PrintStats (LLMChain.get_session_stats (llm_chain s))))
          inputs'
      else chat_loop retriever (ask retriever s user_input) inputs'
  end.

Definition interactive_chat_loop (retriever : Retriever.Retriever DB)
    (llm_chain : LLMChain.LLMChain C) (inputs : list input_event)
    : loop_end :=
  chat_loop retriever
    {| printed := []; question_count := 0; llm_chain := llm_chain |} inputs.

End Main.
Arguments Environment DB C : clear implicits.
Arguments Session C : clear implicits.
Arguments loop_end C : clear implicits.

End Main.

(** ** Fixtures for the examples *)

(** A stand-in for the digest: the content itself. *)
Definition plain_digest (content : string) : string := content.

(** A collaborator that accepts every batch. *)
Definition no_fault (coll : gmap string Document) (docs : list Document)
    (ids : list string) : option exn := None.

(** A collaborator that validates the ids of a batch and rejects the
    batch when one occurs twice. *)
Definition unique_ids_fault (coll : gmap string Document)
    (docs : list Document) (ids : list string) : option exn :=
  if decide (NoDup ids) then None
  else Some (Exc DuplicateIDError "Expected IDs to be unique").

(** A search that returns the first [k] of a fixed ranking. *)
Definition ranked_search (hits : list (Document * Q))
    (coll : gmap string Document) (q : string) (k : Z)
    : result (list (Document * Q)) :=
  Ok (take (Z.to_nat k) hits).

(** A search that fails. *)
Definition failing_search (e : exn) (coll : gmap string Document)
    (q : string) (k : Z) : result (list (Document * Q)) :=
  Raised e.

Definition mk_doc (content source : string) (page : N) : Document :=
  {| page_content := content;
     metadata := {| md_page := Some page; md_source := Some source;
                    md_chunk_index := None; md_chunk_length := None |} |}.

Definition cat_mat : Document := mk_doc "The cat sat on the mat." "a.pdf" 1.
Definition cat_rug : Document := mk_doc "The cat sat on the rug." "a.pdf" 1.
Definition quantum : Document := mk_doc "Quantum mechanics is hard." "a.pdf" 2.

(** An error the nearest-neighbour search of the collaborator raises when
    it cannot fill [k] results. *)
Definition hnsw_error : exn :=
  Exc RuntimeError "Cannot return the results in a contigious 2D array".

Definition backend_down : exn := Exc ConnectionError "connection refused".

Definition cat_mat_upper : Document :=
  mk_doc "the CAT sat  on the mat." "a.pdf" 2.

(** * Specification vocabulary *)

(** ** Retrieval *)

Definition empty_result (q : string) : Retriever.RetrievalResult :=
  {| Retriever.query := q; Retriever.documents := [];
     Retriever.scores := []; Retriever.context := "";
     Retriever.sources := [] |}.

(** [a] is ranked before [b]: results are sorted descending by score. *)
Definition score_desc (a b : Document * Q) : Prop := (b.2 <= a.2)%Q.

(** A chunk is kept when its stripped text has 30 characters or more. *)
Definition long_enough (chunk_text : string) : Prop :=
  30 ≤ PyStr.len (PyStr.strip chunk_text).

(** ** Citations *)

(** The (source, page) pair a result is cited by. *)
Definition citation (r : Document * Q) : string * option N :=
  (default "" (md_source (metadata r.1)), md_page (metadata r.1)).

Definition cite_key (c : string * option N) : string :=
  c.1 +:+ "_p" +:+ Retriever.page_marker c.2.

Definition cite_label (c : string * option N) : string :=
  "Seite " +:+ Retriever.page_marker c.2.

Definition page_label (p : option N) : string :=
  "Seite " +:+ Retriever.page_marker p.

Definition page_value (p : option N) : N := default 0%N p.

Definition collect_state (acc : list (string * option N))
    : list string * gset string :=
  (cite_label <$> acc, list_to_set (cite_key <$> acc)).

(** The distinct items of a list, each at its first position. *)
Fixpoint first_occurrences `{EqDecision A} (l : list A) : list A :=
  match l with
  | [] => []
  | x :: l' => x :: filter (λ y, y ≠ x) (first_occurrences l')
  end.

Definition key_le {A} (a b : N * A) : Prop := (a.1 ≤ b.1)%N.

(** A decimal digit, 0 to 9. *)
Definition is_dec_char (c : ascii) : bool :=
  let n := N_of_ascii c in ((48 <=? n) && (n <=? 57))%N.

(** A word: not empty, no separator. *)
Definition is_word (w : string) : Prop :=
  w ≠ "" ∧ PyStr.all_chars (λ c, negb (PyStr.is_space c)) w = true.

Definition not_p (c : ascii) : bool := negb (bool_decide (c = "p"%char)).

(** ** The index *)

(** The (source, text) pair a document is identified by. *)
Definition identity (doc : Document) : string * string :=
  (default "" (md_source (metadata doc)), page_content doc).

(** Each entry is stored under the id of its document. *)
Definition keyed_by_id (md5 : string → string)
    (coll : gmap string Document) : Prop :=
  ∀ i d, coll !! i = Some d → i = VectorStore._compute_doc_id md5 d.

(** The index after a sequence of [add_documents] calls on the in-memory
    collection, each with its documents and batch size, whether the calls
    return or raise. *)
Definition index_after
    (search : gmap string Document → string → Z → result (list (Document * Q)))
    (add_fault : gmap string Document → list Document → list string
                 → option exn)
    (md5 : string → string) (calls : list (list Document * Z))
    (coll : gmap string Document) : gmap string Document :=
  foldl
    (λ coll '(docs, bs),
       (VectorStore.add_documents (Chroma0 := Mem.chroma search add_fault)
          md5 coll docs bs).2)
    coll calls.

(** ** Chunks *)

(** The fragments of the pages that [_create_chunks] keeps, each with its
    page, in the order of the pages. *)
Definition kept_fragments (split_text : string → list string)
    (pages : list PDFProcessor.Page) : list (PDFProcessor.Page * string) :=
  pages ≫= λ p,
    (λ c, (p, c)) <$> filter long_enough (split_text (PDFProcessor.text p)).

(** The document made of a kept fragment. *)
Definition chunk_doc (source : string) (idx : N)
    (pc : PDFProcessor.Page * string) : Document :=
  {| page_content := pc.2;
     metadata :=
       {| md_page := Some (PDFProcessor.page_number pc.1);
          md_source := Some source;
          md_chunk_index := Some idx;
          md_chunk_length := Some (N.of_nat (PyStr.len pc.2)) |} |}.

(** ** Pages *)

(** [len(text.strip()) >= 50]: the page is read. *)
Definition readable (raw : string) : Prop := 50 ≤ PyStr.len (PyStr.strip raw).

Global Instance readable_dec raw : Decision (readable raw).
Proof. unfold readable. apply _. Defined.

Definition not_soft_hyphen (c : ascii) : bool :=
  negb (Ascii.eqb c PyStr.soft_hyphen).

(** ** Duplicates *)

(** The later result [y] is not a duplicate of the earlier result [x]:
    the Jaccard similarity of their texts is below the threshold. *)
Definition distinct_text (th : Q) (x y : Document * Q) : Prop :=
  (Retriever._jaccard_similarity (page_content y.1) (page_content x.1) < th)%Q.

(** ** Answers and sessions *)

(** A digest for the examples: the length of the content. *)
Definition length_digest (content : string) : string :=
  PyStr.str (N.of_nat (String.length content)).

(** The response that [generate_answer] gives without asking the
    model. *)
Definition no_results_response : LLMChain.LLMResponse :=
  {| LLMChain.answer := LLMChain.no_results_answer;
     LLMChain.sources := [];
     LLMChain.prompt_tokens := 0; LLMChain.completion_tokens := 0;
     LLMChain.total_tokens := 0 |}.

(** The answers among what has been printed. *)
Definition answered (out : list Main.output) : list LLMChain.LLMResponse :=
  omap (λ o, match o with Main.PrintAnswer r => Some r | _ => None end) out.

(** The sum of the token counts of responses. *)
Definition tokens_of (rs : list LLMChain.LLMResponse) : Z :=
  foldr (λ r n, (LLMChain.total_tokens r + n)%Z) 0%Z rs.

(** The input ends the chat loop: an exit command or Ctrl+C. *)
Definition ends_session (ev : Main.input_event) : Prop :=
  match ev with
  | Main.Line line => Main.is_exit_command (PyStr.strip line) = true
  | Main.KeyboardInterrupt => True
  | Main.InputError _ => False
  end.

Global Instance ends_session_dec ev : Decision (ends_session ev).
Proof. destruct ev; simpl; apply _. Defined.

(** The input is a question: a line that is not blank and not a
    command. *)
Definition is_question (ev : Main.input_event) : Prop :=
  match ev with
  | Main.Line line =>
      PyStr.strip line ≠ ""
      ∧ Main.is_exit_command (PyStr.strip line) = false
      ∧ PyStr.lower (PyStr.strip line) ≠ "stats"
  | _ => False
  end.

Global Instance is_question_dec ev : Decision (is_question ev).
Proof. destruct ev; simpl; apply _. Defined.

(** The inputs that the loop reads: those before the first one that ends
    the session. *)
Fixpoint inputs_read (inputs : list Main.input_event)
    : list Main.input_event :=
  match inputs with
  | [] => []
  | ev :: inputs' =>
      if decide (ends_session ev) then [] else ev :: inputs_read inputs'
  end.

(** The session at the end of a run of the loop. *)
Definition final_session {C} (e : Main.loop_end C) : Main.Session C :=
  match e with
  | Main.Finished s => s
  | Main.Reading s => s
  end.

(** * Verification *)

(** ** Python strings on examples *)

Example split_ex :
  PyStr.split (PyStr.lower "  The cat	sat  on the Mat. ")
  = ["the"; "cat"; "sat"; "on"; "the"; "mat."].
Proof. reflexivity. Qed.

Example strip_ex :
  PyStr.strip ("  ab c " +:+ Retriever.nl) = "ab c"
  ∧ PyStr.len (PyStr.strip "   ") = 0.
Proof. by vm_compute. Qed.

Example int_str_ex :
  PyStr.int (PyStr.str 120) = Ok 120%N
  ∧ PyStr.isdigit "12a" = false
  ∧ Retriever.page_sort_key "Seite 12" = Ok 12%N
  ∧ Retriever.page_sort_key "Seite ?" = Ok 0%N.
Proof. by vm_compute. Qed.

Example py_range_ex :
  py_range 0 70 32 = Ok [0; 32; 64]%Z
  ∧ py_range 0 64 32 = Ok [0; 32]%Z
  ∧ py_range 0 5 (-1) = Ok []
  ∧ slice [1; 2; 3; 4; 5] 2 4 = [3; 4]
  ∧ slice [1; 2; 3; 4; 5] 4 36 = [5].
Proof. by vm_compute. Qed.

(** ** Querying the index *)

Section Query.
Context {DB : Type} `{!Chroma DB}.
Implicit Types (db : DB) (q : string) (k : Z) (m : Q).

Lemma is_empty_zero db :
  collection_count db = Ok 0 → VectorStore.is_empty db = true.
Proof. unfold VectorStore.is_empty. by intros ->. Qed.

Lemma similarity_search_empty db q k m :
  VectorStore.is_empty db = true →
  VectorStore.similarity_search db q k m
  = Raised VectorStore.empty_db_error.
Proof. unfold VectorStore.similarity_search. by intros ->. Qed.

(** On an index with entries the answer is the filtered answer of the
    collaborator, and its exceptions pass through. *)
Lemma similarity_search_nonempty db q k m :
  VectorStore.is_empty db = false →
  VectorStore.similarity_search db q k m
  = match similarity_search_with_relevance_scores db q k with
    | Ok results =>
        Ok (List.filter (λ p, score_ge p.2 m) results)
    | Raised e => Raised e
    end.
Proof.
  unfold VectorStore.similarity_search. intros ->.
  destruct (similarity_search_with_relevance_scores db q k) as [rs|e];
    simpl; [|done].
  f_equal. apply List.filter_ext. by intros [d s].
Qed.

Lemma similarity_search_inv db q k m res :
  VectorStore.similarity_search db q k m = Ok res →
  VectorStore.is_empty db = false
  ∧ ∃ raw, similarity_search_with_relevance_scores db q k = Ok raw
           ∧ res = List.filter (λ p, score_ge p.2 m) raw.
Proof.
  intros Hs. destruct (VectorStore.is_empty db) eqn:He.
  - by rewrite similarity_search_empty in Hs.
  - split; [done|]. rewrite similarity_search_nonempty in Hs by done.
    destruct (similarity_search_with_relevance_scores db q k) as [raw|e];
      [|done].
    exists raw. split; [done|]. by injection Hs.
Qed.

(** C6: every pair that [similarity_search] returns has a score of at
    least [min_similarity]; the result is the answer of the collaborator
    without the pairs below the threshold, in the same order. *)
Theorem similarity_search_threshold db q k m res :
  VectorStore.similarity_search db q k m = Ok res →
  Forall (λ p, (m <= p.2)%Q) res
  ∧ ∃ raw, similarity_search_with_relevance_scores db q k = Ok raw
           ∧ res = List.filter (λ p, score_ge p.2 m) raw
           ∧ ∀ p, p ∈ raw → ¬ (m <= p.2)%Q → p ∉ res.
Proof.
  intros (_ & raw & Hraw & ->)%similarity_search_inv. split.
  - apply Forall_forall. intros p [_ Hp]%list_elem_of_In%List.filter_In.
    by apply Qle_bool_iff.
  - exists raw. split_and!; [done..|].
    intros p _ Hlt [_ Hp]%list_elem_of_In%List.filter_In.
    by apply Hlt, Qle_bool_iff.
Qed.

End Query.

Lemma similarity_search_threshold_witness :
  let db : gmap string Document := {[ "1" := cat_mat; "2" := quantum ]} in
  let hits := [(cat_mat, 8 # 10); (quantum, 1 # 10)]%Q in
  Forall (λ p, (3 # 10 <= p.2)%Q) [(cat_mat, (8 # 10)%Q)].
Proof.
  intros db hits.
  apply (similarity_search_threshold
           (Chroma0 := Mem.chroma (ranked_search hits) no_fault)
           db "cat" 2 (3 # 10)%Q).
  vm_compute. reflexivity.
Defined.

(** ** [retrieve]: outcomes and error handling *)

Lemma store_results_from (deduplicated : list (Document * Q)) docs scs :
  foldl (λ '(docs, scs) '(doc, score), (docs ++ [doc], scs ++ [score]))
    (docs, scs) deduplicated
  = (docs ++ deduplicated.*1, scs ++ deduplicated.*2).
Proof.
  revert docs scs.
  induction deduplicated as [|[d s] l IH]; intros docs scs; simpl.
  - by rewrite !app_nil_r.
  - by rewrite IH, <- !app_assoc.
Qed.

Lemma store_results_unzip (deduplicated : list (Document * Q)) :
  Retriever.store_results deduplicated
  = (deduplicated.*1, deduplicated.*2).
Proof. apply store_results_from. Qed.

Section Retrieve.
Context {DB : Type} `{!Chroma DB}.
Implicit Types (self : Retriever.Retriever DB) (q : string).

Local Abbreviation search self q :=
  (VectorStore.similarity_search (Retriever.vector_store self) q
     (Retriever.top_k self) (Retriever.min_similarity self)).

Lemma retrieve_caught self q e :
  search self q = Raised e → isinstance_RuntimeError e = true →
  Retriever.retrieve self q = Ok (empty_result q).
Proof. unfold Retriever.retrieve. by intros -> ->. Qed.

Lemma retrieve_propagates self q e :
  search self q = Raised e → isinstance_RuntimeError e = false →
  Retriever.retrieve self q = Raised e.
Proof. unfold Retriever.retrieve. by intros -> ->. Qed.

Lemma retrieve_no_results self q :
  search self q = Ok [] →
  Retriever.retrieve self q = Ok (empty_result q).
Proof. unfold Retriever.retrieve. by intros ->. Qed.

(** C1: on an index without entries [similarity_search] raises the
    empty-database [RuntimeError] for every query, [k] and threshold, and
    [retrieve] returns the empty result for the query instead of raising:
    no documents, no sources, empty context, [found_results] false. *)
Theorem retrieve_empty_index self q :
  collection_count (Retriever.vector_store self) = Ok 0 →
  (∀ q' k m,
     VectorStore.similarity_search (Retriever.vector_store self) q' k m
     = Raised VectorStore.empty_db_error)
  ∧ ∃ r, Retriever.retrieve self q = Ok r
         ∧ Retriever.found_results r = false
         ∧ Retriever.documents r = []
         ∧ Retriever.sources r = []
         ∧ Retriever.context r = "".
Proof.
  intros Hc%is_empty_zero. split.
  - intros q' k m. by apply similarity_search_empty.
  - exists (empty_result q). split; [|done].
    apply (retrieve_caught _ _ VectorStore.empty_db_error); [|done].
    by apply similarity_search_empty.
Qed.

(** C2, as the code has it: an exception of the collaborator's search
    that is not a [RuntimeError] leaves [retrieve]; one that is a
    [RuntimeError] is caught like the empty-database error and the empty
    result is returned. *)
Theorem retrieve_search_error self q e :
  VectorStore.is_empty (Retriever.vector_store self) = false →
  similarity_search_with_relevance_scores (Retriever.vector_store self) q
    (Retriever.top_k self) = Raised e →
  Retriever.retrieve self q
  = if isinstance_RuntimeError e then Ok (empty_result q) else Raised e.
Proof.
  intros Hne He.
  assert (search self q = Raised e) as Hs.
  { rewrite similarity_search_nonempty by done. by rewrite He. }
  destruct (isinstance_RuntimeError e) eqn:Hi.
  - by apply (retrieve_caught _ _ e).
  - by apply retrieve_propagates.
Qed.

End Retrieve.

Lemma retrieve_empty_index_witness :
  let self :=
    {| Retriever.vector_store := (∅ : gmap string Document);
       Retriever.top_k := Retriever.TOP_K_RESULTS;
       Retriever.min_similarity := Retriever.MIN_SIMILARITY |} in
  ∃ r,
    Retriever.retrieve
      (Chroma0 := Mem.chroma (ranked_search []) no_fault) self "Where?"
    = Ok r
    ∧ Retriever.found_results r = false.
Proof.
  intros self.
  destruct (retrieve_empty_index
              (Chroma0 := Mem.chroma (ranked_search []) no_fault)
              self "Where?" eq_refl) as (_ & r & Hr & Hf & _).
  by exists r.
Defined.

(** C2 as stated fails: the collaborator's search raises a
    [RuntimeError] on an index that holds an entry, and [retrieve] returns
    the empty result instead of raising. *)
Lemma retrieve_swallows_search_error :
  let db : gmap string Document := {[ "1" := cat_mat ]} in
  let backend := Mem.chroma (failing_search hnsw_error) no_fault in
  let self :=
    {| Retriever.vector_store := db;
       Retriever.top_k := Retriever.TOP_K_RESULTS;
       Retriever.min_similarity := Retriever.MIN_SIMILARITY |} in
  VectorStore.is_empty (Chroma0 := backend) db = false
  ∧ similarity_search_with_relevance_scores (Chroma := backend) db
      "Where did the cat sit?" Retriever.TOP_K_RESULTS
    = Raised hnsw_error
  ∧ hnsw_error ≠ VectorStore.empty_db_error
  ∧ Retriever.retrieve (Chroma0 := backend) self "Where did the cat sit?"
    = Ok (empty_result "Where did the cat sit?")
  ∧ Retriever.retrieve (Chroma0 := backend) self "Where did the cat sit?"
    ≠ Raised hnsw_error.
Proof. by vm_compute. Qed.

Lemma retrieve_search_error_witness :
  let db : gmap string Document := {[ "1" := cat_mat ]} in
  let backend := Mem.chroma (failing_search backend_down) no_fault in
  let self :=
    {| Retriever.vector_store := db;
       Retriever.top_k := Retriever.TOP_K_RESULTS;
       Retriever.min_similarity := Retriever.MIN_SIMILARITY |} in
  Retriever.retrieve (Chroma0 := backend) self "Where did the cat sit?"
  = Raised backend_down.
Proof.
  intros db backend self.
  apply (retrieve_search_error (Chroma0 := backend) self
           "Where did the cat sit?" backend_down);
    vm_compute; reflexivity.
Defined.

(** ** Chunking: the minimum length *)

Section Chunking.
Variable split_text : string → list string.

Lemma add_page_chunks_spec source page docs idx chunks :
  ∃ new,
    PDFProcessor.add_page_chunks source page (docs, idx) chunks
    = (docs ++ new, (idx + N.of_nat (length new))%N)
    ∧ page_content <$> new = filter long_enough chunks
    ∧ Forall (λ d, md_page (metadata d)
                   = Some (PDFProcessor.page_number page)) new.
Proof.
  unfold PDFProcessor.add_page_chunks.
  revert docs idx. induction chunks as [|c chunks IH]; intros docs idx.
  - exists []. simpl. rewrite app_nil_r, N.add_0_r. done.
  - simpl. case_bool_decide as Hc.
    + destruct (IH docs idx) as (new & -> & Hnew & Hp).
      exists new. split_and!; [done| |done].
      rewrite filter_cons_False; [done|]. unfold long_enough. lia.
    + set (d := {| page_content := c |}).
      destruct (IH (docs ++ [d]) (idx + 1)%N) as (new & -> & Hnew & Hp).
      exists (d :: new). split_and!.
      * rewrite <- app_assoc. simpl. f_equal. lia.
      * rewrite filter_cons_True by (unfold long_enough; lia).
        by rewrite fmap_cons, Hnew.
      * by constructor.
Qed.

Lemma create_chunks_from source pages docs idx :
  ∃ new,
    foldl
      (λ st page_data,
         PDFProcessor.add_page_chunks source page_data st
           (split_text (PDFProcessor.text page_data)))
      (docs, idx) pages
    = (docs ++ new, (idx + N.of_nat (length new))%N)
    ∧ page_content <$> new
      = filter long_enough
          (concat (map (λ p, split_text (PDFProcessor.text p)) pages)).
Proof.
  revert docs idx. induction pages as [|p pages IH]; intros docs idx.
  - exists []. simpl. by rewrite app_nil_r, N.add_0_r.
  - simpl.
    destruct (add_page_chunks_spec source p docs idx
                (split_text (PDFProcessor.text p))) as (n1 & -> & H1 & _).
    destruct (IH (docs ++ n1) (idx + N.of_nat (length n1))%N)
      as (n2 & -> & H2).
    exists (n1 ++ n2). split.
    + rewrite <- app_assoc, length_app. f_equal. lia.
    + by rewrite fmap_app, filter_app, H1, H2.
Qed.

(** C8: no document of [_create_chunks] has a stripped text shorter than
    30 characters; the texts of the documents are the fragments of the
    splitter, page after page, without the fragments whose stripped length
    is below 30. *)
Theorem create_chunks_min_length pages source :
  Forall (λ d, 30 ≤ PyStr.len (PyStr.strip (page_content d)))
    (PDFProcessor._create_chunks split_text pages source)
  ∧ page_content <$> PDFProcessor._create_chunks split_text pages source
    = filter long_enough
        (concat (map (λ p, split_text (PDFProcessor.text p)) pages)).
Proof.
  unfold PDFProcessor._create_chunks.
  destruct (create_chunks_from source pages [] 0%N) as (new & -> & Hnew).
  simpl. split; [|done].
  apply Forall_forall. intros d Hd.
  assert (page_content d ∈ page_content <$> new) as Hin
    by (by apply list_elem_of_fmap_2).
  rewrite Hnew in Hin. by apply list_elem_of_filter in Hin as [? _].
Qed.

End Chunking.

(** Fragments of a page and a footer: short fragments leave no gap in
    the chunk indices. *)
Example create_chunks_ex :
  PDFProcessor._create_chunks (λ page_text, [page_text; "- 7 -"])
    [ {| PDFProcessor.text := "A paragraph that is long enough to keep.";
         PDFProcessor.page_number := 1 |};
      {| PDFProcessor.text := "     too short to keep      ";
         PDFProcessor.page_number := 2 |};
      {| PDFProcessor.text := "  Another paragraph, long enough too. ";
         PDFProcessor.page_number := 3 |} ]
    "a.pdf"
  = [ {| page_content := "A paragraph that is long enough to keep.";
         metadata := {| md_page := Some 1%N; md_source := Some "a.pdf";
                        md_chunk_index := Some 0%N;
                        md_chunk_length := Some 40%N |} |};
      {| page_content := "  Another paragraph, long enough too. ";
         metadata := {| md_page := Some 3%N; md_source := Some "a.pdf";
                        md_chunk_index := Some 1%N;
                        md_chunk_length := Some 38%N |} |} ].
Proof. by vm_compute. Qed.

(** ** Word sets and the Jaccard similarity *)

Lemma is_space_lower_char c :
  PyStr.is_space (PyStr.lower_char c) = PyStr.is_space c.
Proof. by destruct c as [[] [] [] [] [] [] [] []]. Qed.

Lemma split_unfold c s :
  PyStr.split (String c s)
  = if PyStr.is_space c then PyStr.split s
    else match s with
         | EmptyString => [String c EmptyString]
         | String c' _ =>
             if PyStr.is_space c' then String c EmptyString :: PyStr.split s
             else match PyStr.split s with
                  | w :: ws => String c w :: ws
                  | [] => [String c EmptyString]
                  end
         end.
Proof. done. Qed.

(** Lowering a text lowers its words: no character changes side between
    separator and word. *)
Lemma split_lower s :
  PyStr.split (PyStr.lower s) = PyStr.lower <$> PyStr.split s.
Proof.
  induction s as [|c s IH]; [done|].
  cbn [PyStr.lower].
  rewrite !split_unfold, is_space_lower_char.
  destruct (PyStr.is_space c); [done|].
  destruct s as [|c' s']; [done|].
  cbn [PyStr.lower] in *.
  rewrite is_space_lower_char.
  destruct (PyStr.is_space c'); [by rewrite IH|].
  rewrite IH. by destruct (PyStr.split (String c' s')).
Qed.

Lemma word_set_empty t : Retriever.word_set t = ∅ ↔ PyStr.split t = [].
Proof.
  unfold Retriever.word_set. rewrite split_lower. split.
  - destruct (PyStr.split t) as [|w ws]; [done|]. simpl. set_solver.
  - by intros ->.
Qed.

Lemma Zpos_of_nat n : n ≠ 0 → Z.pos (Pos.of_nat n) = Z.of_nat n.
Proof. intros Hn. by rewrite <- positive_nat_Z, Nat2Pos.id. Qed.

Lemma jaccard_no_words t1 t2 :
  PyStr.split t1 = [] ∨ PyStr.split t2 = [] →
  Retriever._jaccard_similarity t1 t2 = 0%Q.
Proof.
  unfold Retriever._jaccard_similarity.
  intros [H|H]; apply word_set_empty in H; rewrite H; simpl.
  - done.
  - by rewrite orb_true_r.
Qed.

Lemma jaccard_words t1 t2 :
  PyStr.split t1 ≠ [] → PyStr.split t2 ≠ [] →
  Retriever._jaccard_similarity t1 t2
  = (Z.of_nat (size (Retriever.word_set t1 ∩ Retriever.word_set t2))
     # Pos.of_nat (size (Retriever.word_set t1 ∪ Retriever.word_set t2)))%Q.
Proof.
  unfold Retriever._jaccard_similarity. intros H1 H2.
  rewrite !bool_decide_eq_false_2; [done|..]; by rewrite word_set_empty.
Qed.

Lemma jaccard_sym t1 t2 :
  Retriever._jaccard_similarity t1 t2 = Retriever._jaccard_similarity t2 t1.
Proof.
  unfold Retriever._jaccard_similarity. rewrite orb_comm.
  by rewrite (comm_L (∩) (Retriever.word_set t1)),
       (comm_L (∪) (Retriever.word_set t1)).
Qed.

Lemma word_set_size_pos t :
  PyStr.split t ≠ [] → ∀ B, size (Retriever.word_set t ∪ B) ≠ 0.
Proof.
  intros Ht B Hz%size_empty_inv. apply Ht, word_set_empty. set_solver.
Qed.

Lemma jaccard_range t1 t2 :
  (0 <= Retriever._jaccard_similarity t1 t2 <= 1)%Q.
Proof.
  destruct (decide (PyStr.split t1 = [])) as [H1|H1].
  { by rewrite jaccard_no_words by auto. }
  destruct (decide (PyStr.split t2 = [])) as [H2|H2].
  { by rewrite jaccard_no_words by auto. }
  rewrite jaccard_words by done.
  pose proof (word_set_size_pos t1 H1 (Retriever.word_set t2)) as Hpos.
  assert (size (Retriever.word_set t1 ∩ Retriever.word_set t2)
          ≤ size (Retriever.word_set t1 ∪ Retriever.word_set t2))
    by (apply subseteq_size; intros x [Hx _]%elem_of_intersection;
        by apply elem_of_union_l).
  unfold Qle; simpl. rewrite Zpos_of_nat by done. lia.
Qed.

Lemma jaccard_same t :
  PyStr.split t ≠ [] → (Retriever._jaccard_similarity t t == 1)%Q.
Proof.
  intros Ht. rewrite jaccard_words by done.
  pose proof (word_set_size_pos t Ht (Retriever.word_set t)) as Hpos.
  rewrite (idemp_L (∩)). rewrite (idemp_L (∪)) in *.
  unfold Qeq; simpl. rewrite Zpos_of_nat by done. lia.
Qed.

Lemma is_duplicate_iff th doc kept :
  Retriever.is_duplicate th doc kept = true
  ↔ ∃ e, e ∈ kept
         ∧ (th <= Retriever._jaccard_similarity (page_content doc)
                    (page_content e.1))%Q.
Proof.
  unfold Retriever.is_duplicate. rewrite existsb_exists. split.
  - intros ([e s] & Hin%list_elem_of_In & Hge%Qle_bool_iff). eauto.
  - intros ([e s] & Hin%list_elem_of_In & Hge%Qle_bool_iff).
    exists (e, s). eauto.
Qed.

(** A text without words is a duplicate of nothing at a positive
    threshold. *)
Lemma is_duplicate_no_words th doc kept :
  (0 < th)%Q → PyStr.split (page_content doc) = [] →
  Retriever.is_duplicate th doc kept = false.
Proof.
  intros Hth Hdoc. apply not_true_is_false.
  intros (e & _ & Hge)%is_duplicate_iff.
  rewrite jaccard_no_words in Hge by auto.
  by apply Qle_not_lt in Hge.
Qed.

(** C10: the Jaccard similarity is symmetric, lies between 0 and 1, is 1
    on a text with a word compared with itself and 0 as soon as one text
    has no word; so [_deduplicate] keeps both of two equal texts that
    consist of whitespace only. *)
Theorem jaccard_similarity_properties t1 t2 :
  Retriever._jaccard_similarity t1 t2 = Retriever._jaccard_similarity t2 t1
  ∧ (0 <= Retriever._jaccard_similarity t1 t2 <= 1)%Q
  ∧ (PyStr.split t1 ≠ [] → (Retriever._jaccard_similarity t1 t1 == 1)%Q)
  ∧ (PyStr.split t1 = [] ∨ PyStr.split t2 = [] →
     Retriever._jaccard_similarity t1 t2 = 0%Q)
  ∧ (PyStr.split t1 = [] →
     ∀ d1 d2 s1 s2,
       page_content d1 = t1 → page_content d2 = t1 →
       Retriever._deduplicate [(d1, s1); (d2, s2)] (90 # 100)
       = [(d1, s1); (d2, s2)]).
Proof.
  split; [apply jaccard_sym|].
  split; [apply jaccard_range|].
  split; [apply jaccard_same|].
  split; [apply jaccard_no_words|].
  - intros Ht d1 d2 s1 s2 H1 H2.
    change (Retriever._deduplicate [(d1, s1); (d2, s2)] (90 # 100))
      with (Retriever.dedup_step (90 # 100) [(d1, s1)] (d2, s2)).
    unfold Retriever.dedup_step.
    rewrite is_duplicate_no_words; [done..|]. by rewrite H2.
Qed.

Example jaccard_cat :
  Retriever._jaccard_similarity (page_content cat_mat) (page_content cat_rug)
  = (4 # 6)%Q.
Proof. by vm_compute. Qed.

Example jaccard_blank :
  Retriever._jaccard_similarity "   " "   " = 0%Q
  ∧ Retriever._jaccard_similarity "Ab  cD" "ab Cd" = (2 # 2)%Q.
Proof. by vm_compute. Qed.

(** ** Deduplication *)

Global Instance score_desc_trans : Transitive score_desc.
Proof.
  intros a b c Hab Hbc. unfold score_desc in *.
  by apply Qle_trans with (b.2).
Qed.


Section Dedup.
Variable th : Q.

Lemma deduplicate_cons first rest :
  Retriever._deduplicate (first :: rest) th
  = foldl (Retriever.dedup_step th) [first] rest.
Proof. by destruct rest. Qed.

(** The loop only appends, and what it appends is taken in order from
    the results it visits. *)
Lemma dedup_loop_app acc l :
  ∃ tail,
    foldl (Retriever.dedup_step th) acc l = acc ++ tail
    ∧ tail `sublist_of` l.
Proof.
  revert acc. induction l as [|[d sc] l IH]; intros acc; simpl.
  - exists []. by rewrite app_nil_r.
  - destruct (Retriever.is_duplicate th d acc).
    + destruct (IH acc) as (tail & -> & Hsub).
      exists tail. split; [done|]. by apply sublist_cons.
    + destruct (IH (acc ++ [(d, sc)])) as (tail & -> & Hsub).
      exists ((d, sc) :: tail). rewrite <- app_assoc. split; [done|].
      by apply sublist_skip.
Qed.

Lemma deduplicate_sublist results :
  Retriever._deduplicate results th `sublist_of` results.
Proof.
  destruct results as [|first rest]; [done|]. rewrite deduplicate_cons.
  destruct (dedup_loop_app [first] rest) as (tail & -> & Hsub).
  by apply sublist_skip.
Qed.

Lemma deduplicate_head first rest :
  ∃ tail, Retriever._deduplicate (first :: rest) th = first :: tail.
Proof.
  rewrite deduplicate_cons.
  destruct (dedup_loop_app [first] rest) as (tail & -> & _). by exists tail.
Qed.



End Dedup.



Example deduplicate_cat :
  Retriever._deduplicate
    [(cat_mat, 9 # 10); (cat_mat_upper, 8 # 10); (quantum, 4 # 10)]%Q
    (90 # 100)
  = [(cat_mat, 9 # 10); (quantum, 4 # 10)]%Q.
Proof. by vm_compute. Qed.

(** ** Source citations *)

Lemma app_cons c s t : String c s +:+ t = String c (s +:+ t).
Proof. done. Qed.

(** *** Decimal strings *)

Lemma string_of_uint_dec d :
  PyStr.all_chars is_dec_char (NilEmpty.string_of_uint d) = true.
Proof. induction d; simpl; auto. Qed.

Lemma str_dec n : PyStr.all_chars is_dec_char (PyStr.str n) = true.
Proof.
  unfold PyStr.str, NilZero.string_of_uint.
  destruct (N.to_uint n); try done; apply (string_of_uint_dec (_ _)).
Qed.

Lemma str_nonempty n : PyStr.str n ≠ "".
Proof.
  unfold PyStr.str. destruct n as [|p]; [done|]. simpl.
  pose proof (DecimalPos.Unsigned.to_uint_nonnil p).
  by destruct (Pos.to_uint p).
Qed.

Lemma int_str n : PyStr.int (PyStr.str n) = Ok n.
Proof.
  unfold PyStr.int. pose proof (str_nonempty n) as Hne.
  assert (NilZero.uint_of_string (PyStr.str n) = Some (N.to_uint n)) as Hu.
  { apply NilZero.usu. destruct n as [|p]; [done|].
    apply DecimalPos.Unsigned.to_uint_nonnil. }
  destruct (PyStr.str n); [done|]. rewrite Hu.
  by rewrite DecimalN.Unsigned.of_to.
Qed.

Lemma str_inj n1 n2 : PyStr.str n1 = PyStr.str n2 → n1 = n2.
Proof.
  intros Heq. assert (Ok n1 = Ok n2) as [=]; [|done].
  by rewrite <- !int_str, Heq.
Qed.

Lemma all_chars_impl (p q : ascii → bool) s :
  (∀ c, p c = true → q c = true) →
  PyStr.all_chars p s = true → PyStr.all_chars q s = true.
Proof.
  intros Hpq. induction s as [|c s IH]; [done|]. simpl.
  intros [Hc Hs]%andb_true_iff. by rewrite Hpq, IH.
Qed.

Lemma isdigit_str n : PyStr.isdigit (PyStr.str n) = true.
Proof.
  unfold PyStr.isdigit. pose proof (str_nonempty n).
  pose proof (str_dec n) as Hd.
  destruct (PyStr.str n) eqn:E; [done|]. revert Hd. apply all_chars_impl.
  by intros [[] [] [] [] [] [] [] []].
Qed.

(** *** Words and labels *)

Lemma split_word w : is_word w → PyStr.split w = [w].
Proof.
  intros [Hne Hw]. induction w as [|c w IH]; [done|].
  simpl in Hw. apply andb_true_iff in Hw as [Hc%negb_true_iff Hw].
  rewrite split_unfold, Hc. destruct w as [|c' w']; [done|].
  rewrite IH by done. simpl in Hw.
  apply andb_true_iff in Hw as [Hc'%negb_true_iff _]. by rewrite Hc'.
Qed.

Lemma page_marker_word p : is_word (Retriever.page_marker p).
Proof.
  destruct p as [n|]; [|done]. split; [apply str_nonempty|].
  generalize (str_dec n). apply all_chars_impl.
  by intros [[] [] [] [] [] [] [] []].
Qed.

Lemma split_label p :
  PyStr.split (page_label p) = ["Seite"; Retriever.page_marker p].
Proof.
  pose proof (split_word _ (page_marker_word p)) as Hm.
  change (page_label p)
    with (String "S" (String "e" (String "i" (String "t" (String "e"
            (String " " (Retriever.page_marker p))))))).
  rewrite 6!split_unfold. by rewrite Hm.
Qed.

(** The sort key read back from a label is the page number, and 0 for
    the marker of a missing page. *)
Lemma page_sort_key_label p :
  Retriever.page_sort_key (page_label p) = Ok (page_value p).
Proof.
  unfold Retriever.page_sort_key. rewrite split_label. simpl.
  destruct p as [n|]; simpl; [|done].
  by rewrite isdigit_str, int_str.
Qed.

(** *** The keys of the seen set *)

Lemma page_marker_no_p p :
  PyStr.all_chars not_p (Retriever.page_marker p) = true.
Proof.
  destruct p as [n|]; [|done].
  generalize (str_dec n). apply all_chars_impl.
  by intros [[] [] [] [] [] [] [] []].
Qed.

Lemma all_chars_app p s t :
  PyStr.all_chars p (s +:+ t) = PyStr.all_chars p s && PyStr.all_chars p t.
Proof.
  induction s as [|c s IH]; [done|]. rewrite app_cons. simpl.
  by rewrite IH, andb_assoc.
Qed.

Lemma all_chars_marker s m :
  PyStr.all_chars not_p (s +:+ String "_" (String "p" m)) = false.
Proof.
  rewrite all_chars_app. simpl. by rewrite andb_false_r.
Qed.

Lemma key_inj_aux s1 s2 m1 m2 :
  PyStr.all_chars not_p m1 = true → PyStr.all_chars not_p m2 = true →
  s1 +:+ String "_" (String "p" m1) = s2 +:+ String "_" (String "p" m2) →
  s1 = s2 ∧ m1 = m2.
Proof.
  intros H1 H2. revert s2.
  induction s1 as [|c s1 IH]; intros [|c2 s2] Heq.
  - by injection Heq.
  - exfalso. rewrite app_cons in Heq. injection Heq as <- Heq.
    destruct s2 as [|c3 s3]; [done|]. rewrite app_cons in Heq.
    injection Heq as <- Heq. subst m1.
    by rewrite all_chars_marker in H1.
  - exfalso. rewrite app_cons in Heq. injection Heq as -> Heq.
    destruct s1 as [|c3 s3]; [done|]. rewrite app_cons in Heq.
    injection Heq as -> Heq. subst m2.
    by rewrite all_chars_marker in H2.
  - rewrite !app_cons in Heq. injection Heq as -> Heq.
    by destruct (IH _ Heq) as [-> ->].
Qed.

Lemma page_marker_inj p1 p2 :
  Retriever.page_marker p1 = Retriever.page_marker p2 → p1 = p2.
Proof.
  destruct p1 as [n1|], p2 as [n2|]; simpl; intros Heq; try done.
  - by apply str_inj in Heq as ->.
  - pose proof (str_dec n1) as Hd. by rewrite Heq in Hd.
  - pose proof (str_dec n2) as Hd. by rewrite <- Heq in Hd.
Qed.

Lemma source_key_inj r1 r2 :
  Retriever.source_key r1.1 = Retriever.source_key r2.1
  ↔ citation r1 = citation r2.
Proof.
  unfold Retriever.source_key, Retriever.page_str, citation. split.
  - intros Heq. apply key_inj_aux in Heq as [-> Hm];
      [|apply page_marker_no_p..].
    by apply page_marker_inj in Hm as ->.
  - by intros [= -> ->].
Qed.

(** *** First occurrences *)

Lemma elem_of_first_occurrences `{EqDecision A} (l : list A) x :
  x ∈ first_occurrences l ↔ x ∈ l.
Proof.
  induction l as [|y l IH]; [done|]. simpl.
  rewrite !elem_of_cons, list_elem_of_filter, IH.
  destruct (decide (x = y)); tauto.
Qed.

Lemma NoDup_first_occurrences `{EqDecision A} (l : list A) :
  NoDup (first_occurrences l).
Proof.
  induction l as [|y l IH]; simpl; [constructor|].
  constructor; [|by apply NoDup_filter].
  rewrite list_elem_of_filter. by intros [? _].
Qed.

Lemma first_occurrences_sublist `{EqDecision A} (l : list A) :
  first_occurrences l `sublist_of` l.
Proof.
  induction l as [|y l IH]; simpl; [done|].
  apply sublist_skip. etrans; [apply sublist_filter|done].
Qed.

Lemma cite_key_inj : Inj (=) (=) cite_key.
Proof.
  intros [s1 p1] [s2 p2] Heq. unfold cite_key in Heq. simpl in Heq.
  apply key_inj_aux in Heq as [-> Hm]; [|apply page_marker_no_p..].
  by apply page_marker_inj in Hm as ->.
Qed.

Lemma collect_loop acc results :
  foldl Retriever.collect_step (collect_state acc) results
  = collect_state
      (acc ++ filter (λ c, c ∉ acc) (first_occurrences (citation <$> results))).
Proof.
  revert acc. induction results as [|[d s] results IH]; intros acc.
  { simpl. by rewrite app_nil_r. }
  cbn [foldl fmap list_fmap first_occurrences].
  set (c := citation (d, s)).
  assert (Retriever.source_key d = cite_key c) as Hk by done.
  assert (Retriever.source_label d = cite_label c) as Hl by done.
  unfold collect_state at 1. cbn [Retriever.collect_step].
  rewrite Hk, Hl. case_decide as Hin.
  - apply elem_of_list_to_set, list_elem_of_fmap in Hin as (c' & Hc' & Hin).
    apply cite_key_inj in Hc' as <-.
    fold (collect_state acc). rewrite IH. f_equal. f_equal.
    rewrite filter_cons_False by (by intros Hn).
    rewrite list_filter_filter. apply list_filter_iff.
    intros y. split; [|by intros [? _]].
    intros Hy. split; [done|]. by intros ->.
  - assert (c ∉ acc) as Hc.
    { intros Hc. apply Hin, elem_of_list_to_set, list_elem_of_fmap. eauto. }
    replace ((cite_label <$> acc) ++ [cite_label c],
             {[cite_key c]} ∪ list_to_set (cite_key <$> acc))
      with (collect_state (acc ++ [c])).
    2:{ unfold collect_state. rewrite !fmap_app, list_to_set_app_L. simpl.
        f_equal. by rewrite (comm_L (∪)), (right_id_L ∅ (∪)). }
    rewrite IH. f_equal. rewrite <- app_assoc. f_equal.
    rewrite filter_cons_True by done. simpl. f_equal.
    rewrite list_filter_filter. apply list_filter_iff.
    intros y. rewrite elem_of_app, list_elem_of_singleton. tauto.
Qed.

Lemma filter_not_in_nil `{EqDecision A} (l : list A) :
  filter (λ y, y ∉ []) l = l.
Proof.
  induction l as [|x l IH]; [done|].
  rewrite filter_cons_True by apply not_elem_of_nil. by rewrite IH.
Qed.

Lemma collect_sources_first results :
  (Retriever.collect_sources results).1
  = cite_label <$> first_occurrences (citation <$> results).
Proof.
  unfold Retriever.collect_sources.
  change ([], ∅) with (collect_state []). rewrite collect_loop.
  by rewrite app_nil_l, filter_not_in_nil.
Qed.

(** *** The stable sort *)

Lemma insert_by_key_perm {A} (kx : N * A) l : insert_by_key kx l ≡ₚ kx :: l.
Proof.
  induction l as [|ky l IH]; [done|]. simpl.
  destruct (kx.1 <=? ky.1)%N; [done|]. by rewrite IH, Permutation_swap.
Qed.

Lemma sort_by_key_cons {A} (kx : N * A) l :
  sort_by_key (kx :: l) = insert_by_key kx (sort_by_key l).
Proof. done. Qed.

Lemma sort_by_key_perm {A} (l : list (N * A)) : sort_by_key l ≡ₚ l.
Proof.
  induction l as [|kx l IH]; [done|].
  by rewrite sort_by_key_cons, insert_by_key_perm, IH.
Qed.

Lemma insert_by_key_sorted {A} (kx : N * A) l :
  StronglySorted key_le l → StronglySorted key_le (insert_by_key kx l).
Proof.
  induction 1 as [|ky l Hs IH Hall]; simpl.
  - repeat constructor.
  - destruct (N.leb_spec kx.1 ky.1) as [Hle|Hlt].
    + constructor; [by constructor|]. constructor; [done|].
      eapply Forall_impl; [done|]. unfold key_le. intros; simpl in *. lia.
    + constructor; [done|].
      rewrite insert_by_key_perm. constructor; [|done].
      unfold key_le. lia.
Qed.

Lemma sort_by_key_sorted {A} (l : list (N * A)) :
  StronglySorted key_le (sort_by_key l).
Proof.
  induction l as [|kx l IH]; [constructor|].
  rewrite sort_by_key_cons. by apply insert_by_key_sorted.
Qed.

Lemma insert_by_key_fmap {A B} (f : A → B) kx (l : list (N * A)) :
  insert_by_key (prod_map id f kx) (prod_map id f <$> l)
  = prod_map id f <$> insert_by_key kx l.
Proof.
  destruct kx as [k x]. induction l as [|[k' y] l IH]; [done|].
  rewrite fmap_cons. simpl.
  destruct (k <=? k')%N; [done|]. rewrite fmap_cons. f_equal. apply IH.
Qed.

Lemma sort_by_key_fmap {A B} (f : A → B) (l : list (N * A)) :
  sort_by_key (prod_map id f <$> l) = prod_map id f <$> sort_by_key l.
Proof.
  induction l as [|kx l IH]; [done|].
  by rewrite fmap_cons, !sort_by_key_cons, IH, insert_by_key_fmap.
Qed.

Lemma mapM_Ok {A B} (f : A → result B) (g : A → B) l :
  (∀ x, x ∈ l → f x = Ok (g x)) → mapM f l = Ok (g <$> l).
Proof.
  induction l as [|x l IH]; intros Hf; [done|]. simpl.
  rewrite Hf by left. simpl. rewrite IH; [done|].
  intros y Hy. apply Hf. by right.
Qed.

Lemma zip_fmap_self {A B} (f : A → B) (l : list A) :
  zip (f <$> l) l = (λ x, (f x, x)) <$> l.
Proof.
  induction l as [|x l IH]; [done|]. rewrite !fmap_cons. simpl. by f_equal.
Qed.

(** Sorting by a key that never raises. *)
Lemma sorted_total {A} (key : A → result N) (val : A → N) l :
  (∀ x, x ∈ l → key x = Ok (val x)) →
  sorted key l = Ok ((sort_by_key ((λ x, (val x, x)) <$> l)).*2).
Proof.
  intros Hkey. unfold sorted. rewrite (mapM_Ok _ val) by done.
  by rewrite <- zip_fmap_self.
Qed.

Lemma sorted_by_value {A} (v : A → N) (l : list (N * A)) :
  StronglySorted key_le l → Forall (λ kp, kp.1 = v kp.2) l →
  StronglySorted (λ a b, (v a ≤ v b)%N) l.*2.
Proof.
  induction 1 as [|[k x] l Hs IH Hall]; intros Hv; [constructor|].
  apply Forall_cons in Hv as [Hk Hv]. rewrite fmap_cons.
  simpl in Hk. subst k. constructor; [by apply IH|].
  apply Forall_fmap, Forall_forall. intros [k' y] Hy. simpl.
  rewrite Forall_forall in Hall, Hv.
  specialize (Hall _ Hy). specialize (Hv _ Hy). unfold key_le in Hall.
  simpl in *. by subst k'.
Qed.

Lemma extract_sources_sorted results :
  Retriever._extract_sources results
  = Ok (page_label <$>
          (sort_by_key
             ((λ p, (page_value p, p)) <$>
                (first_occurrences (citation <$> results)).*2)).*2).
Proof.
  unfold Retriever._extract_sources. rewrite collect_sources_first.
  set (firsts := first_occurrences (citation <$> results)).
  rewrite (sorted_total _
             (λ s, match Retriever.page_sort_key s with
                   | Ok n => n
                   | Raised _ => 0%N
                   end)).
  2:{ intros s (c & -> & _)%list_elem_of_fmap.
      change (cite_label c) with (page_label c.2).
      by rewrite page_sort_key_label. }
  f_equal.
  trans ((sort_by_key
            (prod_map id page_label <$>
               ((λ p, (page_value p, p)) <$> firsts.*2))).*2).
  - do 2 f_equal. rewrite <- !list_fmap_compose. apply list_fmap_ext.
    intros _ [s p] _. simpl.
    change (cite_label (s, p)) with (page_label p).
    by rewrite page_sort_key_label.
  - rewrite sort_by_key_fmap, <- !list_fmap_compose.
    apply list_fmap_ext. by intros _ [k p] _.
Qed.

(** C7: [_extract_sources] returns one label per distinct (source, page)
    pair of the results, those pairs taken at their first occurrence; the
    labels are in ascending order of the page number, a missing page
    counting as 0.  It never raises. *)
Theorem extract_sources_spec (results : list (Document * Q)) :
  let firsts := first_occurrences (citation <$> results) in
  ∃ pages : list (option N),
    Retriever._extract_sources results = Ok (page_label <$> pages)
    ∧ pages ≡ₚ firsts.*2
    ∧ StronglySorted (λ a b, (page_value a ≤ page_value b)%N) pages
    ∧ NoDup firsts
    ∧ ∀ c, c ∈ firsts ↔ c ∈ citation <$> results.
Proof.
  intros firsts.
  set (tagged := (λ p, (page_value p, p)) <$> firsts.*2).
  exists (sort_by_key tagged).*2. split_and!.
  - apply extract_sources_sorted.
  - rewrite sort_by_key_perm. unfold tagged.
    rewrite <- list_fmap_compose. by rewrite list_fmap_id.
  - apply sorted_by_value; [apply sort_by_key_sorted|].
    rewrite sort_by_key_perm. unfold tagged.
    by apply Forall_fmap, Forall_true.
  - apply NoDup_first_occurrences.
  - apply elem_of_first_occurrences.
Qed.

Example extract_sources_ex :
  Retriever._extract_sources
    [(mk_doc "x" "a.pdf" 12, 1%Q); (mk_doc "y" "a.pdf" 3, 1%Q);
     (mk_doc "z" "b.pdf" 3, 1%Q); (mk_doc "w" "a.pdf" 12, 1%Q)]
  = Ok ["Seite 3"; "Seite 3"; "Seite 12"].
Proof. by vm_compute. Qed.

(** ** The outcomes of [retrieve] *)

Section Outcomes.
Context {DB : Type} `{!Chroma DB}.
Implicit Types (self : Retriever.Retriever DB) (q : string).

(** C9: whatever the outcome, a result that [retrieve] returns carries
    the query it was asked and as many scores as documents, the two lists
    being the two columns of one list of pairs; and [retrieve] returns a
    result unless the query of the index raised an exception that is not
    a [RuntimeError]. *)
Theorem retrieve_result_shape self q :
  (∀ r, Retriever.retrieve self q = Ok r →
     Retriever.query r = q
     ∧ length (Retriever.documents r) = length (Retriever.scores r)
     ∧ ∃ kept : list (Document * Q),
         Retriever.documents r = kept.*1 ∧ Retriever.scores r = kept.*2)
  ∧ (∀ e, Retriever.retrieve self q = Raised e →
       VectorStore.similarity_search (Retriever.vector_store self) q
         (Retriever.top_k self) (Retriever.min_similarity self)
       = Raised e
       ∧ isinstance_RuntimeError e = false).
Proof.
  unfold Retriever.retrieve.
  destruct (VectorStore.similarity_search _ _ _ _) as [[|p raw]|e].
  - split; [|done]. intros r [= <-]. split_and!; [done..|]. by exists [].
  - rewrite store_results_unzip, extract_sources_sorted. split; [|done].
    intros r [= <-]; simpl.
    split_and!; [done|by rewrite !length_fmap|eauto].
  - destruct (isinstance_RuntimeError e) eqn:He.
    + split; [|done]. intros r [= <-]. split_and!; [done..|]. by exists [].
    + split; [done|]. by intros e' [= <-].
Qed.

End Outcomes.

(** The scenario of the cat: the second hit repeats the first and is
    dropped, the third is below the threshold. *)
Example retrieve_cat :
  let hits :=
    [(cat_mat, 9 # 10); (cat_mat_upper, 8 # 10); (quantum, 1 # 10)]%Q in
  let backend := Mem.chroma (ranked_search hits) no_fault in
  let self :=
    {| Retriever.vector_store :=
         ({[ "1" := cat_mat; "2" := cat_mat_upper; "3" := quantum ]}
            : gmap string Document);
       Retriever.top_k := Retriever.TOP_K_RESULTS;
       Retriever.min_similarity := Retriever.MIN_SIMILARITY |} in
  Retriever.retrieve (Chroma0 := backend) self "Where did the cat sit?"
  = Ok {| Retriever.query := "Where did the cat sit?";
          Retriever.documents := [cat_mat];
          Retriever.scores := [(9 # 10)%Q];
          Retriever.context :=
            "[Abschnitt 1] (Quelle: a.pdf, Seite 1)" +:+ Retriever.nl
              +:+ "The cat sat on the mat.";
          Retriever.sources := ["Seite 1"] |}.
Proof. by vm_compute. Qed.

(** ** Indexing: identity and idempotence *)

Lemma slice_fmap {A B} (f : A → B) l i j :
  slice (f <$> l) i j = f <$> slice l i j.
Proof. unfold slice. by rewrite fmap_take, fmap_drop. Qed.

Lemma slice_lookup {A} (l : list A) (i len : Z) (j : nat) x :
  (0 ≤ i)%Z → (Z.of_nat j < i + len)%Z → (i ≤ Z.of_nat j)%Z →
  l !! j = Some x → x ∈ slice l i (i + len).
Proof.
  intros Hi Hj1 Hj2 Hx. unfold slice.
  apply list_elem_of_lookup. exists (j - Z.to_nat i).
  rewrite lookup_take_lt by lia. rewrite lookup_drop.
  by replace (Z.to_nat i + (j - Z.to_nat i)) with j by lia.
Qed.

Lemma py_range_cover (n bs : Z) starts (j : nat) :
  (0 < bs)%Z → (Z.of_nat j < n)%Z →
  py_range 0 n bs = Ok starts →
  ∃ i, i ∈ starts ∧ (0 ≤ i ≤ Z.of_nat j)%Z ∧ (Z.of_nat j < i + bs)%Z.
Proof.
  intros Hbs Hj. unfold py_range.
  rewrite decide_False by lia. rewrite decide_True by lia.
  intros [= <-].
  set (k := (Z.of_nat j / bs)%Z).
  assert (0 ≤ k)%Z by (apply Z.div_pos; lia).
  assert (k * bs ≤ Z.of_nat j < k * bs + bs)%Z.
  { pose proof (Z.div_mod (Z.of_nat j) bs ltac:(lia)).
    pose proof (Z.mod_pos_bound (Z.of_nat j) bs Hbs). unfold k. nia. }
  exists (k * bs)%Z. split; [|lia].
  apply list_elem_of_fmap. exists (Z.to_nat k). split; [lia|].
  apply elem_of_seq. split; [lia|]. simpl.
  assert (k + 1 ≤ (n - 0 + bs - 1) / bs)%Z
    by (apply Z.div_le_lower_bound; lia).
  lia.
Qed.

(** *** The in-memory collection under [add_documents] *)

Section Indexing.
Variable search :
  gmap string Document → string → Z → result (list (Document * Q)).
Variable add_fault :
  gmap string Document → list Document → list string → option exn.
Variable md5 : string → string.

#[local] Instance backend : Chroma (gmap string Document) :=
  Mem.chroma search add_fault.

Local Abbreviation doc_id := (VectorStore._compute_doc_id md5).
Local Abbreviation add_documents := (VectorStore.add_documents md5).

Implicit Types (coll : gmap string Document) (docs : list Document).

Lemma upsert_lookup coll pairs i d :
  foldl (λ m '(i, d), <[i := d]> m) coll pairs !! i = Some d →
  coll !! i = Some d ∨ (i, d) ∈ pairs.
Proof.
  revert coll. induction pairs as [|[i' d'] pairs IH]; intros coll; simpl.
  - by left.
  - intros [Hin|Hin]%IH.
    + destruct (decide (i' = i)) as [->|Hne].
      * rewrite lookup_insert_eq in Hin. injection Hin as ->.
        right. by left.
      * rewrite lookup_insert_ne in Hin by done. by left.
    + right. by right.
Qed.

Lemma upsert_dom coll pairs :
  dom (foldl (λ m '(i, d), <[i := d]> m) coll pairs)
  = dom coll ∪ list_to_set pairs.*1.
Proof.
  revert coll. induction pairs as [|[i' d'] pairs IH]; intros coll; simpl.
  - by rewrite (right_id_L ∅ (∪)).
  - rewrite IH, dom_insert_L.
    by rewrite (comm_L (∪) {[i']}), <- (assoc_L (∪)).
Qed.

Lemma upsert_keyed coll docs :
  keyed_by_id md5 coll →
  keyed_by_id md5 (Mem.upsert coll docs (doc_id <$> docs)).
Proof.
  intros Hk i d [Hin|Hin]%upsert_lookup; [by apply Hk|].
  rewrite zip_fmap_self in Hin.
  by apply list_elem_of_fmap in Hin as (d' & [= -> ->] & _).
Qed.

Lemma upsert_dom_ids coll docs :
  dom (Mem.upsert coll docs (doc_id <$> docs))
  = dom coll ∪ list_to_set (doc_id <$> docs).
Proof.
  unfold Mem.upsert. rewrite upsert_dom, zip_fmap_self. do 2 f_equal.
  rewrite <- list_fmap_compose. by apply list_fmap_ext.
Qed.

(** What a batch call of the collaborator does to the collection. *)
Lemma chroma_add_documents_cases coll docs r coll' :
  chroma_add_documents coll docs (doc_id <$> docs) = (r, coll') →
  (∃ e, r = Raised e ∧ coll' = coll)
  ∨ (r = Ok () ∧ coll' = Mem.upsert coll docs (doc_id <$> docs)).
Proof.
  simpl. destruct (add_fault coll docs _) as [e|]; intros [= <- <-]; eauto.
Qed.

(** The first loop: the new documents are the ones whose id is not
    stored yet, in order, and the ids are theirs. *)
Lemma select_new_from existing docs nd ni sk :
  ∃ sk',
    foldl (VectorStore.select_step md5 existing) (nd, ni, sk) docs
    = (nd ++ filter (λ d, doc_id d ∉ existing) docs,
       ni ++ (doc_id <$> filter (λ d, doc_id d ∉ existing) docs), sk').
Proof.
  revert nd ni sk. induction docs as [|d docs IH]; intros nd ni sk.
  - exists sk. simpl. by rewrite !app_nil_r.
  - cbn [foldl VectorStore.select_step]. case_decide as Hin.
    + destruct (IH nd ni (S sk)) as (sk' & ->). exists sk'.
      by rewrite filter_cons_False by (by intros Hn).
    + destruct (IH (nd ++ [d]) (ni ++ [doc_id d]) sk) as (sk' & ->).
      exists sk'. rewrite filter_cons_True by done.
      by rewrite fmap_cons, <- !app_assoc.
Qed.

Lemma select_new_spec existing docs :
  ∃ sk,
    VectorStore.select_new md5 existing docs
    = (filter (λ d, doc_id d ∉ existing) docs,
       doc_id <$> filter (λ d, doc_id d ∉ existing) docs, sk).
Proof. apply (select_new_from existing docs [] [] 0). Qed.

Lemma get_existing_ids_dom coll : VectorStore._get_existing_ids coll = dom coll.
Proof.
  unfold VectorStore._get_existing_ids. simpl.
  apply leibniz_equiv. by rewrite dom_alt.
Qed.

(** The batch loop. *)
Lemma add_batches_keyed coll docs bs starts n r coll' :
  keyed_by_id md5 coll →
  VectorStore.add_batches coll docs (doc_id <$> docs) bs starts n = (r, coll') →
  keyed_by_id md5 coll'.
Proof.
  revert coll n. induction starts as [|i starts IH]; intros coll n Hk;
    cbn [VectorStore.add_batches].
  - by intros [= _ <-].
  - rewrite slice_fmap.
    destruct (chroma_add_documents coll (slice docs i (i + bs))
                (doc_id <$> slice docs i (i + bs))) as [r1 coll1] eqn:Hadd.
    apply chroma_add_documents_cases in Hadd as [(e & -> & ->)|[-> ->]].
    + by intros [= _ <-].
    + apply IH. by apply upsert_keyed.
Qed.

Lemma add_batches_dom coll docs bs starts n m coll' :
  VectorStore.add_batches coll docs (doc_id <$> docs) bs starts n
  = (Ok m, coll') →
  dom coll ⊆ dom coll'
  ∧ ∀ i d, i ∈ starts → d ∈ slice docs i (i + bs) → doc_id d ∈ dom coll'.
Proof.
  revert coll n. induction starts as [|i starts IH]; intros coll n;
    cbn [VectorStore.add_batches].
  - intros [= _ <-]. split; [done|]. by intros i d ?%elem_of_nil.
  - rewrite slice_fmap.
    destruct (chroma_add_documents coll (slice docs i (i + bs))
                (doc_id <$> slice docs i (i + bs))) as [r1 coll1] eqn:Hadd.
    apply chroma_add_documents_cases in Hadd as [(e & -> & ->)|[-> ->]];
      [done|].
    intros [Hsub Hcov]%IH. rewrite upsert_dom_ids in Hsub. split.
    + etrans; [|done]. apply union_subseteq_l.
    + intros i' d [->|Hi']%elem_of_cons Hd; [|by eapply Hcov].
      apply Hsub, elem_of_union_r, elem_of_list_to_set.
      by apply list_elem_of_fmap_2.
Qed.

Lemma add_documents_keyed coll docs bs r coll' :
  keyed_by_id md5 coll → add_documents coll docs bs = (r, coll') →
  keyed_by_id md5 coll'.
Proof.
  intros Hk. unfold VectorStore.add_documents.
  destruct (select_new_spec (VectorStore._get_existing_ids coll) docs)
    as (sk & ->).
  destruct (filter _ docs) as [|d new] eqn:Hnew; [by intros [= _ <-]|].
  destruct (py_range _ _ _) as [starts|e]; [|by intros [= _ <-]].
  by apply add_batches_keyed.
Qed.

Lemma filter_none `(P : A → Prop) `{∀ x, Decision (P x)} (l : list A) :
  (∀ x, x ∈ l → ¬ P x) → filter P l = [].
Proof.
  induction l as [|x l IH]; intros Hl; [done|].
  rewrite filter_cons_False by (apply Hl; by left).
  apply IH. intros y Hy. apply Hl. by right.
Qed.

Lemma range_backwards n bs :
  (0 < n)%Z → (bs < 0)%Z → py_range 0 n bs = Ok [].
Proof.
  intros Hn Hbs. unfold py_range.
  rewrite decide_False by lia. rewrite decide_False by lia.
  assert ((0 - n - bs - 1) / - bs ≤ 0)%Z as Hz.
  { assert ((0 - n - bs - 1) / - bs < 1)%Z; [|lia].
    apply Z.div_lt_upper_bound; lia. }
  by replace (Z.to_nat ((0 - n - bs - 1) / - bs)) with 0 by lia.
Qed.

(** Nothing is new when every id is stored: no call to the collaborator. *)
Lemma add_documents_nothing_new coll docs bs :
  (∀ d, d ∈ docs → doc_id d ∈ dom coll) →
  add_documents coll docs bs = (Ok 0, coll).
Proof.
  intros Hall. unfold VectorStore.add_documents.
  destruct (select_new_spec (VectorStore._get_existing_ids coll) docs)
    as (sk & ->).
  rewrite get_existing_ids_dom.
  rewrite filter_none; [done|]. intros d Hd Hn. by apply Hn, Hall.
Qed.

(** A call that returns leaves every id of its documents stored, or has
    changed nothing and counted nothing. *)
Lemma add_documents_returned coll docs bs n coll1 :
  add_documents coll docs bs = (Ok n, coll1) →
  (∀ d, d ∈ docs → doc_id d ∈ dom coll1) ∨ (n = 0 ∧ coll1 = coll).
Proof.
  unfold VectorStore.add_documents.
  destruct (select_new_spec (VectorStore._get_existing_ids coll) docs)
    as (sk & ->).
  rewrite get_existing_ids_dom.
  destruct (filter (λ d, doc_id d ∉ dom coll) docs) as [|d0 new] eqn:Hnew.
  { intros [= <- <-]. by right. }
  rewrite <- Hnew. set (new_docs := filter _ docs) in *.
  assert (0 < Z.of_nat (length new_docs))%Z as Hlen
    by (rewrite Hnew, length_cons; lia).
  destruct (Z.lt_trichotomy bs 0) as [Hbs|[->|Hbs]].
  - rewrite range_backwards by done. intros [= <- <-]. by right.
  - done.
  - destruct (py_range 0 (Z.of_nat (length new_docs)) bs)
      as [starts|e] eqn:Hrange; [|done].
    intros [Hsub Hcov]%add_batches_dom. left. intros d Hd.
    destruct (decide (doc_id d ∈ dom coll)) as [Hin|Hnin]; [by apply Hsub|].
    assert (d ∈ new_docs) as Hd' by (by apply list_elem_of_filter).
    apply list_elem_of_lookup in Hd' as [j Hj].
    pose proof (lookup_lt_Some _ _ _ Hj) as Hjlt.
    destruct (py_range_cover (Z.of_nat (length new_docs)) bs starts j Hbs
                ltac:(lia) Hrange)
      as (i & Hi & Hij & Hji).
    apply (Hcov i d Hi). by apply (slice_lookup _ _ _ j); [lia..|].
Qed.

Lemma index_after_keyed calls coll :
  keyed_by_id md5 coll →
  keyed_by_id md5 (index_after search add_fault md5 calls coll).
Proof.
  revert coll. induction calls as [|[docs bs] calls IH]; intros coll Hk;
    [done|].
  apply IH. destruct (add_documents coll docs bs) as [r coll'] eqn:Hadd.
  by apply (add_documents_keyed coll docs bs r).
Qed.

Lemma doc_id_identity d1 d2 : identity d1 = identity d2 → doc_id d1 = doc_id d2.
Proof.
  unfold identity, VectorStore._compute_doc_id. by intros [= -> ->].
Qed.

Lemma NoDup_all_equal {A} (l : list A) :
  NoDup l → (∀ x y, x ∈ l → y ∈ l → x = y) → length l ≤ 1.
Proof.
  intros Hnd Heq. destruct l as [|x [|y l]]; simpl; [lia..|].
  exfalso. apply NoDup_cons in Hnd as [Hx _]. apply Hx.
  rewrite (Heq x y); [by left|by left|right; by left].
Qed.

(** C4: after any sequence of [add_documents] calls on an empty index,
    whatever their documents and batch sizes and whether they return or
    raise, at most one stored entry has a given (source, text) pair; two
    such chunks in one call are no exception. *)
Theorem index_one_entry_per_identity calls source text :
  length
    (filter (λ e, identity e.2 = (source, text))
       (map_to_list (index_after search add_fault md5 calls ∅)))
  ≤ 1.
Proof.
  assert (keyed_by_id md5 (index_after search add_fault md5 calls ∅)) as Hk
    by (by apply index_after_keyed).
  apply NoDup_all_equal.
  - apply NoDup_filter, NoDup_map_to_list.
  - intros [i1 d1] [i2 d2].
    intros [H1 Hl1%elem_of_map_to_list]%list_elem_of_filter.
    intros [H2 Hl2%elem_of_map_to_list]%list_elem_of_filter.
    simpl in *.
    assert (i1 = i2) as <-.
    { rewrite (Hk _ _ Hl1), (Hk _ _ Hl2). apply doc_id_identity. congruence. }
    congruence.
Qed.

(** C5: when a call of [add_documents] has returned, a second call with
    the same documents returns 0 and leaves the index, and so its size, as
    the first call left it. *)
Theorem add_documents_idempotent coll docs bs n coll1 :
  add_documents coll docs bs = (Ok n, coll1) →
  add_documents coll1 docs bs = (Ok 0, coll1)
  ∧ VectorStore.get_document_count (add_documents coll1 docs bs).2
    = VectorStore.get_document_count coll1.
Proof.
  intros Hfirst.
  assert (add_documents coll1 docs bs = (Ok 0, coll1)) as Hsecond.
  { destruct (add_documents_returned _ _ _ _ _ Hfirst) as [Hall|[-> ->]].
    - by apply add_documents_nothing_new.
    - done. }
  by rewrite Hsecond.
Qed.
End Indexing.

(** The first call does return when the collaborator accepts every batch
    and the batch size is not zero. *)
Lemma add_batches_accepting search coll docs ids bs starts n :
  ∃ m coll',
    VectorStore.add_batches (Chroma0 := Mem.chroma search no_fault)
      coll docs ids bs starts n
    = (Ok m, coll').
Proof.
  revert coll n. induction starts as [|i starts IH]; intros coll n.
  - by exists n, coll.
  - cbn [VectorStore.add_batches chroma_add_documents Mem.chroma no_fault].
    apply IH.
Qed.

Lemma add_documents_accepting search md5 coll docs bs :
  bs ≠ 0%Z →
  ∃ n coll1,
    VectorStore.add_documents (Chroma0 := Mem.chroma search no_fault)
      md5 coll docs bs
    = (Ok n, coll1).
Proof.
  intros Hbs. unfold VectorStore.add_documents.
  destruct (VectorStore.select_new _ _ _) as [[new_docs new_ids] skipped].
  destruct new_docs as [|d new_docs]; [by exists 0, coll|].
  unfold py_range. rewrite decide_False by done.
  apply add_batches_accepting.
Qed.

Lemma add_documents_idempotent_witness :
  let backend := Mem.chroma (ranked_search []) no_fault in
  let docs := [cat_mat; cat_rug; quantum] in
  let first :=
    VectorStore.add_documents (Chroma0 := backend) plain_digest ∅ docs
      VectorStore.default_batch_size in
  first.1 = Ok 3
  ∧ VectorStore.add_documents (Chroma0 := backend) plain_digest first.2 docs
      VectorStore.default_batch_size
    = (Ok 0, first.2).
Proof.
  intros backend docs first. split; [by vm_compute|].
  apply (add_documents_idempotent (ranked_search []) no_fault plain_digest
           ∅ docs VectorStore.default_batch_size 3 first.2).
  by vm_compute.
Defined.

(** Two chunks with the same source and text in one call: a collaborator
    that accepts the batch stores one entry; one that validates the ids
    rejects the batch and stores none. *)
Example add_documents_same_chunk_twice :
  let docs := [cat_mat; cat_mat] in
  (VectorStore.add_documents (Chroma0 := Mem.chroma (ranked_search []) no_fault)
     plain_digest ∅ docs 32).2
  = {[ "a.pdf__The cat sat on the mat." := cat_mat ]}
  ∧ VectorStore.add_documents
      (Chroma0 := Mem.chroma (ranked_search []) unique_ids_fault)
      plain_digest ∅ docs 32
    = (Raised (Exc DuplicateIDError "Expected IDs to be unique"), ∅).
Proof. by vm_compute. Qed.

(** * Further properties of the code *)

(** ** Chunks and their metadata *)

Section ChunkMetadata.
Variable split_text : string → list string.

Lemma add_page_chunks_indexed source page docs idx chunks :
  PDFProcessor.add_page_chunks source page (docs, idx) chunks
  = (docs
       ++ imap (λ i c, chunk_doc source (idx + N.of_nat i)%N (page, c))
            (filter long_enough chunks),
     (idx + N.of_nat (length (filter long_enough chunks)))%N).
Proof.
  unfold PDFProcessor.add_page_chunks.
  revert docs idx. induction chunks as [|c chunks IH]; intros docs idx.
  - simpl. by rewrite app_nil_r, N.add_0_r.
  - simpl. case_bool_decide as Hc.
    + rewrite IH, filter_cons_False; [done|]. unfold long_enough. lia.
    + rewrite IH, filter_cons_True by (unfold long_enough; lia).
      rewrite <- app_assoc. simpl. rewrite N.add_0_r. f_equal.
      * do 2 f_equal. apply imap_ext. intros i x _. simpl.
        unfold chunk_doc. simpl. do 3 f_equal. lia.
      * lia.
Qed.

Lemma create_chunks_indexed source pages docs idx :
  foldl
    (λ st page_data,
       PDFProcessor.add_page_chunks source page_data st
         (split_text (PDFProcessor.text page_data)))
    (docs, idx) pages
  = (docs
       ++ imap (λ i, chunk_doc source (idx + N.of_nat i)%N)
            (kept_fragments split_text pages),
     (idx + N.of_nat (length (kept_fragments split_text pages)))%N).
Proof.
  revert docs idx. induction pages as [|p pages IH]; intros docs idx.
  - simpl. by rewrite app_nil_r, N.add_0_r.
  - cbn [foldl]. rewrite add_page_chunks_indexed, IH.
    unfold kept_fragments. rewrite bind_cons.
    fold (kept_fragments split_text pages).
    rewrite imap_app, <- app_assoc, length_app, !length_fmap, imap_fmap.
    f_equal; [|lia]. do 2 f_equal.
    apply imap_ext. intros i x _. simpl. f_equal. lia.
Qed.

Lemma create_chunks_closed pages source :
  PDFProcessor._create_chunks split_text pages source
  = imap (λ i, chunk_doc source (N.of_nat i))
      (kept_fragments split_text pages).
Proof.
  unfold PDFProcessor._create_chunks. by rewrite create_chunks_indexed.
Qed.

Lemma elem_of_kept_fragments pages p c :
  (p, c) ∈ kept_fragments split_text pages
  ↔ p ∈ pages ∧ c ∈ split_text (PDFProcessor.text p) ∧ long_enough c.
Proof.
  unfold kept_fragments. rewrite list_elem_of_bind. split.
  - intros (p' & Hin & Hp).
    apply list_elem_of_fmap in Hin as (c' & [= -> ->] & Hc).
    apply list_elem_of_filter in Hc as [? ?]. done.
  - intros (Hp & Hc & Hl). exists p. split; [|done].
    apply list_elem_of_fmap. exists c. split; [done|].
    by apply list_elem_of_filter.
Qed.

(** X1: the document at position [i] of the list that [_create_chunks]
    returns has chunk index [i]: the indices count the kept chunks from 0
    without a gap, across the pages.  It carries the file name it was
    given, the length of its text, and the number of a page one of whose
    fragments is its text. *)
Theorem create_chunks_metadata pages source (i : nat) d :
  PDFProcessor._create_chunks split_text pages source !! i = Some d →
  md_chunk_index (metadata d) = Some (N.of_nat i)
  ∧ md_source (metadata d) = Some source
  ∧ md_chunk_length (metadata d) = Some (N.of_nat (PyStr.len (page_content d)))
  ∧ ∃ p, p ∈ pages
         ∧ md_page (metadata d) = Some (PDFProcessor.page_number p)
         ∧ page_content d ∈ split_text (PDFProcessor.text p).
Proof.
  rewrite create_chunks_closed, list_lookup_imap.
  destruct (kept_fragments split_text pages !! i) as [[p c]|] eqn:Hi;
    [|done].
  intros [= <-]. split_and!; [done..|].
  apply list_elem_of_lookup_2, elem_of_kept_fragments in Hi as (? & ? & _).
  by exists p.
Qed.

(** X2: the documents come page after page, in the order of the pages:
    the page numbers of the documents are the page numbers of the pages,
    each repeated once per fragment of the page whose stripped length is
    at least 30. *)
Theorem create_chunks_page_order pages source :
  (λ d, md_page (metadata d))
    <$> PDFProcessor._create_chunks split_text pages source
  = pages ≫= λ p,
      replicate
        (length (filter long_enough (split_text (PDFProcessor.text p))))
        (Some (PDFProcessor.page_number p)).
Proof.
  rewrite create_chunks_closed, fmap_imap.
  unfold kept_fragments. induction pages as [|p pages IH]; [done|].
  rewrite !bind_cons, imap_app, <- IH. f_equal.
  generalize (filter long_enough (split_text (PDFProcessor.text p))).
  intros l. rewrite imap_fmap. simpl.
  induction l as [|c l IHl]; [done|]. simpl. f_equal.
  by rewrite <- IHl.
Qed.

End ChunkMetadata.

Lemma create_chunks_metadata_witness :
  let split_text := λ page_text : string, [page_text; "- 7 -"] in
  let pages :=
    [ {| PDFProcessor.text := "A paragraph that is long enough to keep.";
         PDFProcessor.page_number := 4 |};
      {| PDFProcessor.text := "     too short to keep      ";
         PDFProcessor.page_number := 5 |};
      {| PDFProcessor.text := "  Another paragraph, long enough too. ";
         PDFProcessor.page_number := 6 |} ] in
  let d :=
    {| page_content := "  Another paragraph, long enough too. ";
       metadata :=
         {| md_page := Some 6%N; md_source := Some "a.pdf";
            md_chunk_index := Some 1%N; md_chunk_length := Some 38%N |} |} in
  PDFProcessor._create_chunks split_text pages "a.pdf" !! 1 = Some d
  ∧ md_chunk_index (metadata d) = Some (N.of_nat 1)
  ∧ md_source (metadata d) = Some "a.pdf"
  ∧ md_chunk_length (metadata d) = Some (N.of_nat (PyStr.len (page_content d)))
  ∧ ∃ p, p ∈ pages
         ∧ md_page (metadata d) = Some (PDFProcessor.page_number p)
         ∧ page_content d ∈ split_text (PDFProcessor.text p).
Proof.
  intros split_text pages d.
  split; [by vm_compute|].
  apply (create_chunks_metadata split_text pages "a.pdf" 1 d).
  by vm_compute.
Defined.

(** ** Cleaning the text of a page *)

Lemma app_nil_r_string (s : string) : s +:+ "" = s.
Proof. induction s as [|c s IH]; [done|]. rewrite app_cons. by f_equal. Qed.

Lemma app_assoc_string (s1 s2 s3 : string) :
  (s1 +:+ s2) +:+ s3 = s1 +:+ (s2 +:+ s3).
Proof.
  induction s1 as [|c s1 IH]; [done|]. rewrite !app_cons. by f_equal.
Qed.

Lemma length_app_string (s1 s2 : string) :
  String.length (s1 +:+ s2) = String.length s1 + String.length s2.
Proof.
  induction s1 as [|c s1 IH]; [done|]. rewrite app_cons. simpl. by f_equal.
Qed.

Lemma rev_app_append (s1 s2 : string) :
  String.rev_app s1 s2 = String.rev s1 +:+ s2.
Proof.
  unfold String.rev. revert s2.
  induction s1 as [|c s1 IH]; intros s2; [done|].
  simpl. rewrite IH, (IH (String c "")), app_assoc_string. done.
Qed.

Lemma string_rev_cons (c : ascii) (s : string) :
  String.rev (String c s) = String.rev s +:+ String c "".
Proof. unfold String.rev at 1. simpl. apply rev_app_append. Qed.

Lemma string_rev_app (s1 s2 : string) :
  String.rev (s1 +:+ s2) = String.rev s2 +:+ String.rev s1.
Proof.
  induction s1 as [|c s1 IH].
  - by rewrite app_nil_r_string.
  - rewrite app_cons, !string_rev_cons, IH, app_assoc_string. done.
Qed.

Lemma string_rev_involutive (s : string) : String.rev (String.rev s) = s.
Proof.
  induction s as [|c s IH]; [done|].
  rewrite string_rev_cons, string_rev_app, IH. done.
Qed.

Lemma string_length_rev (s : string) : String.length (String.rev s) = String.length s.
Proof.
  induction s as [|c s IH]; [done|].
  rewrite string_rev_cons, length_app_string, IH. simpl. lia.
Qed.

Lemma all_chars_rev p (s : string) :
  PyStr.all_chars p (String.rev s) = PyStr.all_chars p s.
Proof.
  induction s as [|c s IH]; [done|].
  rewrite string_rev_cons, all_chars_app, IH. simpl.
  rewrite andb_true_r. apply andb_comm.
Qed.

Lemma lstrip_length (s : string) :
  String.length (PyStr.lstrip s) ≤ String.length s.
Proof.
  induction s as [|c s IH]; [done|]. simpl.
  destruct (PyStr.is_space c); simpl; lia.
Qed.

Lemma lstrip_all_chars p (s : string) :
  PyStr.all_chars p s = true → PyStr.all_chars p (PyStr.lstrip s) = true.
Proof.
  induction s as [|c s IH]; [done|]. simpl.
  intros [? ?]%andb_true_iff.
  destruct (PyStr.is_space c); [by apply IH|]. simpl. by apply andb_true_iff.
Qed.

Lemma lstrip_idemp (s : string) :
  PyStr.lstrip (PyStr.lstrip s) = PyStr.lstrip s.
Proof.
  induction s as [|c s IH]; [done|]. simpl.
  destruct (PyStr.is_space c) eqn:Hc; [done|]. simpl. by rewrite Hc.
Qed.

Lemma lstrip_app_word (s : string) c rest :
  PyStr.is_space c = false →
  PyStr.lstrip (s +:+ String c rest) = PyStr.lstrip s +:+ String c rest.
Proof.
  intros Hc. induction s as [|a s IH].
  - simpl. by rewrite Hc.
  - rewrite app_cons. simpl. destruct (PyStr.is_space a); [done|].
    by rewrite app_cons.
Qed.

Lemma strip_length (s : string) : PyStr.len (PyStr.strip s) ≤ PyStr.len s.
Proof.
  unfold PyStr.len, PyStr.strip, PyStr.rstrip.
  rewrite string_length_rev.
  etransitivity; [apply lstrip_length|]. rewrite string_length_rev.
  apply lstrip_length.
Qed.

Lemma strip_all_chars p (s : string) :
  PyStr.all_chars p s = true → PyStr.all_chars p (PyStr.strip s) = true.
Proof.
  intros Hs. unfold PyStr.strip, PyStr.rstrip.
  rewrite all_chars_rev. apply lstrip_all_chars.
  rewrite all_chars_rev. by apply lstrip_all_chars.
Qed.

Lemma rstrip_idemp (s : string) :
  PyStr.rstrip (PyStr.rstrip s) = PyStr.rstrip s.
Proof. unfold PyStr.rstrip. by rewrite string_rev_involutive, lstrip_idemp. Qed.

Lemma lstrip_rstrip (s : string) :
  PyStr.lstrip s = s → PyStr.lstrip (PyStr.rstrip s) = PyStr.rstrip s.
Proof.
  destruct s as [|c s]; [done|]. simpl.
  destruct (PyStr.is_space c) eqn:Hc.
  - intros Heq. pose proof (lstrip_length s) as Hle.
    rewrite Heq in Hle. simpl in Hle. lia.
  - intros _. unfold PyStr.rstrip.
    rewrite string_rev_cons, lstrip_app_word, string_rev_app by done.
    change (String.rev (String c "")) with (String c "").
    rewrite app_cons. simpl. by rewrite Hc.
Qed.

Lemma strip_idemp (s : string) : PyStr.strip (PyStr.strip s) = PyStr.strip s.
Proof.
  unfold PyStr.strip.
  rewrite (lstrip_rstrip (PyStr.lstrip s)) by apply lstrip_idemp.
  apply rstrip_idemp.
Qed.

Lemma remove_char_length c0 (s : string) :
  String.length (PyStr.remove_char c0 s) ≤ String.length s.
Proof.
  induction s as [|c s IH]; [done|]. simpl.
  destruct (Ascii.eqb c c0); simpl; lia.
Qed.

Lemma remove_char_gone c0 (s : string) :
  PyStr.all_chars (λ c, negb (Ascii.eqb c c0)) (PyStr.remove_char c0 s) = true.
Proof.
  induction s as [|c s IH]; [done|]. simpl.
  destruct (Ascii.eqb c c0) eqn:Hc; [done|]. simpl. by rewrite Hc.
Qed.

Lemma split_on_nonempty sep (s : string) : PyStr.split_on sep s ≠ [].
Proof.
  destruct s as [|c s]; [done|]. simpl.
  destruct (Ascii.eqb c sep); [done|].
  by destruct (PyStr.split_on sep s).
Qed.

Lemma join_cons_cons sep p q (ps : list string) :
  PyStr.join sep (p :: q :: ps) = p +:+ sep +:+ PyStr.join sep (q :: ps).
Proof. done. Qed.

(** Splitting at the newlines and joining with newlines gives the text
    back. *)
Lemma join_split_on (s : string) :
  PyStr.join (PyStr.chr 10) (PyStr.split_on PyStr.newline s) = s.
Proof.
  induction s as [|c s IH]; [done|]. simpl.
  pose proof (split_on_nonempty PyStr.newline s) as Hne.
  destruct (Ascii.eqb c PyStr.newline) eqn:Hc.
  - apply Ascii.eqb_eq in Hc as ->.
    destruct (PyStr.split_on PyStr.newline s) as [|w ws]; [done|].
    rewrite join_cons_cons, IH. done.
  - destruct (PyStr.split_on PyStr.newline s) as [|w [|w' ws]]; [done|..].
    + simpl in *. by rewrite IH.
    + rewrite join_cons_cons in *. rewrite app_cons. by rewrite IH.
Qed.

Lemma join_fmap_length sep (f : string → string) (ps : list string) :
  (∀ p, String.length (f p) ≤ String.length p) →
  String.length (PyStr.join sep (f <$> ps))
  ≤ String.length (PyStr.join sep ps).
Proof.
  intros Hf. induction ps as [|p [|q ps] IH]; [done|apply Hf|].
  rewrite !fmap_cons, !join_cons_cons, !length_app_string.
  rewrite !fmap_cons in IH. specialize (Hf p). lia.
Qed.

Lemma repeat_nat_length (n : nat) :
  String.length (PyStr.repeat_nat (PyStr.chr 10) n) = n.
Proof.
  induction n as [|n IH]; [done|]. simpl.
  rewrite length_app_string, IH. done.
Qed.

Lemma sub_blank_lines_length run (s : string) :
  String.length (PDFProcessor.sub_blank_lines run s) ≤ run + String.length s.
Proof.
  revert run. induction s as [|c s IH]; intros run; simpl.
  - rewrite repeat_nat_length. lia.
  - destruct (Ascii.eqb c PyStr.newline).
    + specialize (IH (S run)). lia.
    + rewrite length_app_string, repeat_nat_length. simpl.
      specialize (IH 0). lia.
Qed.

(** X3: the text that [_clean_text] returns has no whitespace at its
    start or end (stripping it again changes nothing), holds no soft
    hyphen, and is never longer than the text it was given. *)
Theorem clean_text_spec (text : string) :
  let cleaned := PDFProcessor._clean_text text in
  PyStr.strip cleaned = cleaned
  ∧ PyStr.all_chars not_soft_hyphen cleaned = true
  ∧ PyStr.len cleaned ≤ PyStr.len text.
Proof.
  unfold PDFProcessor._clean_text. split_and!.
  - apply strip_idemp.
  - apply strip_all_chars, remove_char_gone.
  - etransitivity; [apply strip_length|]. unfold PyStr.len.
    etransitivity; [apply remove_char_length|].
    etransitivity;
      [apply join_fmap_length; intros p; apply (strip_length p)|].
    rewrite join_split_on.
    apply (sub_blank_lines_length 0).
Qed.

Example clean_text_ex :
  PDFProcessor._clean_text
    ("  Head" +:+ PyStr.chr 10 +:+ PyStr.chr 10 +:+ PyStr.chr 10
       +:+ PyStr.chr 10 +:+ "  hy" +:+ PyStr.chr 173 +:+ "phen  "
       +:+ PyStr.chr 10 +:+ " ")
  = "Head" +:+ PyStr.chr 10 +:+ PyStr.chr 10 +:+ "hyphen".
Proof. by vm_compute. Qed.

(** ** Reading the pages *)

Lemma extract_loop acc (n : N) (texts : list string) :
  ∃ new,
    foldl PDFProcessor.extract_step (acc, n) texts
    = (acc ++ new, (n + N.of_nat (length texts))%N)
    ∧ StronglySorted N.lt (PDFProcessor.page_number <$> new)
    ∧ Forall (λ p, (n < PDFProcessor.page_number p)%N) new
    ∧ ∀ p, p ∈ new ↔
        ∃ (i : nat) raw,
          texts !! i = Some raw ∧ readable raw
          ∧ p = {| PDFProcessor.text := PDFProcessor._clean_text raw;
                   PDFProcessor.page_number := (n + N.of_nat (S i))%N |}.
Proof.
  revert acc n. induction texts as [|raw texts IH]; intros acc n.
  - exists []. rewrite app_nil_r, N.add_0_r. split_and!; [done|constructor..|].
    intros p. split; [by intros ?%elem_of_nil|]. by intros (i & r & ? & _).
  - cbn [foldl PDFProcessor.extract_step]. case_bool_decide as Hraw.
    + destruct (IH acc (n + 1)%N) as (new & -> & Hs & Hlt & Hin).
      exists new. split_and!.
      * f_equal. simpl length. lia.
      * done.
      * eapply Forall_impl; [done|]. simpl. lia.
      * intros p. rewrite Hin. split.
        -- intros (i & r & Hi & Hr & ->). exists (S i), r.
           split_and!; [done..|]. f_equal. lia.
        -- intros ([|i] & r & Hi & Hr & ->).
           ++ injection Hi as ->. unfold readable in Hr. lia.
           ++ exists i, r. split_and!; [done..|]. f_equal. lia.
    + set (pg := {| PDFProcessor.text := PDFProcessor._clean_text raw;
                    PDFProcessor.page_number := (n + 1)%N |}).
      destruct (IH (acc ++ [pg]) (n + 1)%N) as (new & -> & Hs & Hlt & Hin).
      exists (pg :: new). split_and!.
      * rewrite <- app_assoc. f_equal. simpl length. lia.
      * rewrite fmap_cons. constructor; [done|].
        apply Forall_fmap. eapply Forall_impl; [done|]. done.
      * constructor; [simpl; lia|].
        eapply Forall_impl; [done|]. simpl. lia.
      * intros p. rewrite elem_of_cons, Hin. split.
        -- intros [->|(i & r & Hi & Hr & ->)].
           ++ exists 0, raw. split_and!; [done| |done].
              unfold readable. lia.
           ++ exists (S i), r. split_and!; [done..|]. f_equal. lia.
        -- intros ([|i] & r & Hi & Hr & ->).
           ++ injection Hi as ->. by left.
           ++ right. exists i, r. split_and!; [done..|]. f_equal. lia.
Qed.


(** ** Loading a PDF *)

Section Loading.
Variable split_text : string → list string.



Lemma StronglySorted_imap {A B} (R : relation A) (R' : relation B)
    (f : nat → A → B) (l : list A) :
  (∀ i j x y, R x y → R' (f i x) (f j y)) →
  StronglySorted R l → StronglySorted R' (imap f l).
Proof.
  intros Hf Hl. revert f Hf.
  induction Hl as [|x l Hl IH Hx]; intros f Hf; [constructor|].
  rewrite imap_cons. constructor; [apply IH; intros; by apply Hf|].
  apply Forall_forall. intros y (i & z & -> & Hz)%elem_of_lookup_imap.
  apply Hf. eapply Forall_forall in Hx; [done|].
  by eapply list_elem_of_lookup_2.
Qed.

Lemma kept_fragments_sorted pages :
  StronglySorted N.lt (PDFProcessor.page_number <$> pages) →
  StronglySorted
    (λ a b, (PDFProcessor.page_number a.1 ≤ PDFProcessor.page_number b.1)%N)
    (kept_fragments split_text pages).
Proof.
  induction pages as [|p pages IH]; [constructor|].
  rewrite fmap_cons. intros [Hp Hs]%StronglySorted_cons.
  unfold kept_fragments. rewrite bind_cons.
  fold (kept_fragments split_text pages).
  apply StronglySorted_app_2; [| |by apply IH].
  - intros [p1 c1] [p2 c2] (c & [= -> ->] & _)%list_elem_of_fmap
      (Hp2 & _)%elem_of_kept_fragments. simpl.
    apply N.lt_le_incl. eapply Forall_forall in Hp; [done|].
    by apply list_elem_of_fmap_2.
  - generalize (filter long_enough (split_text (PDFProcessor.text p))).
    intros l. induction l as [|c l IHl]; [constructor|].
    rewrite fmap_cons. constructor; [done|].
    apply Forall_fmap, Forall_true. intros c'. simpl. lia.
Qed.

(** X6: the chunks that [load_and_split] returns name the loaded file as
    their source; each carries the number of a page of the document,
    counted from 1; and the chunks are in the order of the pages, so
    their page numbers never decrease along the list. *)
Theorem load_and_split_documents page_texts pdf_path docs :
  PDFProcessor.load_and_split split_text (PDFProcessor.Opened page_texts)
    pdf_path
  = Returned docs →
  Forall
    (λ d, md_source (metadata d) = Some (PDFProcessor.path_name pdf_path)
          ∧ ∃ n, md_page (metadata d) = Some n
                 ∧ (1 ≤ n ≤ N.of_nat (length page_texts))%N)
    docs
  ∧ StronglySorted
      (λ d1 d2, (page_value (md_page (metadata d1))
                 ≤ page_value (md_page (metadata d2)))%N)
      docs.
Proof.
  unfold PDFProcessor.load_and_split, PDFProcessor._extract_pages.
  destruct (extract_loop [] 0%N page_texts) as (pages & -> & Hs & _ & Hin).
  simpl. destruct pages as [|p0 pages']; [done|].
  set (pages := p0 :: pages') in *. intros [= <-].
  rewrite create_chunks_closed. split.
  - apply Forall_forall.
    intros d (i & [p c] & -> & Hpc)%elem_of_lookup_imap.
    apply list_elem_of_lookup_2, elem_of_kept_fragments in Hpc as (Hp & _).
    apply Hin in Hp as (j & raw & Hj & _ & ->). split; [done|].
    eexists. split; [done|]. simpl.
    apply lookup_lt_Some in Hj. lia.
  - eapply StronglySorted_imap; [|by apply kept_fragments_sorted].
    by intros i j [p1 c1] [p2 c2].
Qed.

End Loading.

Lemma load_and_split_documents_witness :
  let split_text := λ page_text : string, [page_text; "- 7 -"] in
  let page_texts :=
    ["  Cover "; "  A page with enough text to be read: fifty characters. "]
  in
  let pdf_path :=
    {| PDFProcessor.path_str := "/tmp/a.pdf";
       PDFProcessor.path_name := "a.pdf" |} in
  let docs :=
    [ {| page_content :=
           "A page with enough text to be read: fifty characters.";
         metadata :=
           {| md_page := Some 2%N; md_source := Some "a.pdf";
              md_chunk_index := Some 0%N; md_chunk_length := Some 53%N |} |} ]
  in
  PDFProcessor.load_and_split split_text (PDFProcessor.Opened page_texts)
    pdf_path
  = Returned docs
  ∧ Forall
      (λ d, md_source (metadata d) = Some (PDFProcessor.path_name pdf_path)
            ∧ ∃ n, md_page (metadata d) = Some n
                   ∧ (1 ≤ n ≤ N.of_nat (length page_texts))%N)
      docs.
Proof.
  intros split_text page_texts pdf_path docs.
  split; [by vm_compute|].
  apply (load_and_split_documents split_text page_texts pdf_path docs).
  by vm_compute.
Defined.

(** ** Chunk statistics *)

Lemma sum_nat_sum_list (l : list nat) : PDFProcessor.sum_nat l = sum_list l.
Proof.
  unfold PDFProcessor.sum_nat.
  assert (∀ a, foldl Nat.add a l = a + sum_list l) as H; [|apply H].
  induction l as [|x l IH]; intros a; simpl; [lia|]. rewrite IH. lia.
Qed.

Lemma foldl_min_spec (x : nat) (l : list nat) :
  foldl Nat.min x l ∈ x :: l ∧ Forall (λ n, foldl Nat.min x l ≤ n) (x :: l).
Proof.
  revert x. induction l as [|y l IH]; intros x; simpl.
  - split; [by left|]. by repeat constructor.
  - destruct (IH (x `min` y)) as [Hin Hle]. split.
    + apply elem_of_cons in Hin as [Heq|Hin]; [|by do 2 right].
      rewrite Heq. destruct (Nat.min_spec x y) as [[_ ->]|[_ ->]];
        [by left|right; by left].
    + apply Forall_cons in Hle as [Hm Hle].
      repeat constructor; [lia..|done].
Qed.

Lemma foldl_max_spec (x : nat) (l : list nat) :
  foldl Nat.max x l ∈ x :: l ∧ Forall (λ n, n ≤ foldl Nat.max x l) (x :: l).
Proof.
  revert x. induction l as [|y l IH]; intros x; simpl.
  - split; [by left|]. by repeat constructor.
  - destruct (IH (x `max` y)) as [Hin Hle]. split.
    + apply elem_of_cons in Hin as [Heq|Hin]; [|by do 2 right].
      rewrite Heq. destruct (Nat.max_spec x y) as [[_ ->]|[_ ->]];
        [right; by left|by left].
    + apply Forall_cons in Hle as [Hm Hle].
      repeat constructor; [lia..|done].
Qed.

Lemma sum_list_bounds (lo hi : nat) (l : list nat) :
  Forall (λ n, lo ≤ n ≤ hi) l →
  lo * length l ≤ sum_list l ≤ hi * length l.
Proof. induction 1; simpl; lia. Qed.

Lemma size_union_le `{Countable K} (X Y : gset K) :
  size (X ∪ Y) ≤ size X + size Y.
Proof.
  rewrite size_union_alt. apply Nat.add_le_mono_l.
  apply subseteq_size, subseteq_difference_l. done.
Qed.

Lemma size_list_to_set_le `{Countable K} (l : list K) :
  size (list_to_set l : gset K) ≤ length l.
Proof.
  induction l as [|x l IH]; [by rewrite list_to_set_nil, size_empty|].
  rewrite list_to_set_cons. etransitivity; [apply size_union_le|].
  rewrite size_singleton. simpl. lia.
Qed.

(** X7: for a list of documents that is not empty, [get_stats] returns
    the six statistics; the minimum and the maximum are lengths of
    documents of the list and bound every length; the average lies
    between them; and the number of distinct pages is at least 1 and at
    most the number of documents. *)
Theorem get_stats_nonempty doc docs :
  let documents := doc :: docs in
  let lengths := (λ d, PyStr.len (page_content d)) <$> documents in
  ∃ (min_length max_length unique_pages : nat) (avg_length : Q),
    PDFProcessor.get_stats documents
    = {[ "count" := VInt (Z.of_nat (length documents));
         "avg_length" := VFloat avg_length;
         "min_length" := VInt (Z.of_nat min_length);
         "max_length" := VInt (Z.of_nat max_length);
         "total_chars" := VInt (Z.of_nat (sum_list lengths));
         "unique_pages" := VInt (Z.of_nat unique_pages) ]}
    ∧ min_length ∈ lengths ∧ max_length ∈ lengths
    ∧ Forall (λ n, min_length ≤ n ≤ max_length) lengths
    ∧ (inject_Z (Z.of_nat min_length) <= avg_length)%Q
    ∧ (avg_length <= inject_Z (Z.of_nat max_length))%Q
    ∧ 1 ≤ unique_pages ≤ length documents.
Proof.
  intros documents lengths.
  set (first := PyStr.len (page_content doc)).
  set (others := (λ d, PyStr.len (page_content d)) <$> docs).
  destruct (foldl_min_spec first others) as [Hmin_in Hmin].
  destruct (foldl_max_spec first others) as [Hmax_in Hmax].
  assert (Forall (λ n, foldl Nat.min first others ≤ n
                       ≤ foldl Nat.max first others) lengths) as Hb.
  { apply Forall_forall. intros n Hn.
    eapply Forall_forall in Hmin, Hmax; [|exact Hn..]. lia. }
  pose proof (sum_list_bounds _ _ _ Hb) as Hsum.
  assert (length lengths = S (length docs)) as Hlen
    by (unfold lengths, documents; by rewrite length_fmap).
  assert (Z.pos (Pos.of_nat (length lengths)) = Z.of_nat (length lengths))
    as Hpos by (apply Zpos_of_nat; lia).
  exists (foldl Nat.min first others), (foldl Nat.max first others),
    (size (list_to_set
             ((λ d, default 0%N (md_page (metadata d))) <$> documents)
           : gset N)),
    (Z.of_nat (sum_list lengths) # Pos.of_nat (length lengths))%Q.
  split_and!; [|done..| | | |].
  - unfold PDFProcessor.get_stats, documents.
    by rewrite sum_nat_sum_list.
  - unfold Qle. cbn [Qnum Qden inject_Z]. rewrite Hpos. nia.
  - unfold Qle. cbn [Qnum Qden inject_Z]. rewrite Hpos. nia.
  - apply Nat.le_succ_l, Nat.neq_0_lt_0. intros Hz%size_empty_inv.
    apply (not_elem_of_empty (C := gset N)
             (default 0%N (md_page (metadata doc)))).
    rewrite <- Hz. unfold documents.
    rewrite fmap_cons, list_to_set_cons.
    by apply elem_of_union_l, elem_of_singleton.
  - etransitivity; [apply size_list_to_set_le|].
    by rewrite length_fmap.
Qed.

(** ** The index under [add_documents]: what is counted and what is kept *)

Lemma add_batches_count {DB : Type} `{!Chroma DB} (db : DB) docs ids bs
    starts n m db' :
  VectorStore.add_batches db docs ids bs starts n = (Ok m, db') →
  m = n + sum_list ((λ i, length (slice docs i (i + bs))) <$> starts).
Proof.
  revert db n. induction starts as [|i starts IH]; intros db n;
    cbn [VectorStore.add_batches].
  - intros [= <- _]. simpl. lia.
  - destruct (chroma_add_documents db _ _) as [[u|e] db1]; [|by intros [=]].
    intros ->%IH. rewrite fmap_cons. simpl. lia.
Qed.

Lemma take_drop_lengths {A} (l : list A) (b m : nat) :
  length l ≤ m * b →
  sum_list ((λ k, length (take b (drop (k * b) l))) <$> seq 0 m) = length l.
Proof.
  revert l. induction m as [|m IH]; intros l Hl.
  - simpl in *. lia.
  - rewrite <- cons_seq, <- fmap_S_seq, fmap_cons, <- list_fmap_compose.
    simpl sum_list. rewrite drop_0.
    erewrite list_fmap_ext; [rewrite (IH (drop b l))|].
    + rewrite length_take, length_drop. lia.
    + rewrite length_drop. simpl in Hl. lia.
    + intros _ k _. simpl. by rewrite drop_drop.
Qed.

Lemma ceil_div_covers (n bs : Z) :
  (0 < bs)%Z → (n ≤ (n + bs - 1) / bs * bs)%Z.
Proof.
  intros Hbs. pose proof (Z.div_mod (n + bs - 1) bs ltac:(lia)) as Hdm.
  pose proof (Z.mod_pos_bound (n + bs - 1) bs Hbs). lia.
Qed.

Lemma slices_cover {A} (l : list A) (bs : Z) starts :
  (0 < bs)%Z →
  py_range 0 (Z.of_nat (length l)) bs = Ok starts →
  sum_list ((λ i, length (slice l i (i + bs))) <$> starts) = length l.
Proof.
  intros Hbs. unfold py_range.
  rewrite decide_False, decide_True by lia. intros [= <-].
  set (m := Z.to_nat ((Z.of_nat (length l) - 0 + bs - 1) / bs)).
  rewrite <- (take_drop_lengths l (Z.to_nat bs) m).
  - change (map ?f ?x) with (f <$> x). rewrite <- list_fmap_compose.
    f_equal. apply list_fmap_ext. intros _ k _. simpl. unfold slice.
    assert (Z.to_nat (0 + Z.of_nat k * bs) = k * Z.to_nat bs) as ->
      by (rewrite Z.add_0_l, Z2Nat.inj_mul, Nat2Z.id; lia).
    assert (0 ≤ Z.of_nat k * bs)%Z by nia.
    do 2 f_equal. lia.
  - pose proof (ceil_div_covers (Z.of_nat (length l)) bs Hbs) as Hc.
    assert (0 ≤ (Z.of_nat (length l) - 0 + bs - 1) / bs)%Z
      by (apply Z.div_pos; lia).
    unfold m. replace (Z.of_nat (length l) - 0)%Z
      with (Z.of_nat (length l)) by lia. nia.
Qed.

Lemma elem_of_slice {A} (l : list A) (i j : Z) x : x ∈ slice l i j → x ∈ l.
Proof.
  unfold slice. intros Hx.
  eapply elem_of_sublist; [done|].
  etransitivity; [apply sublist_take|apply sublist_drop].
Qed.

Section IndexGrowth.
Variable search :
  gmap string Document → string → Z → result (list (Document * Q)).
Variable add_fault :
  gmap string Document → list Document → list string → option exn.
Variable md5 : string → string.

#[local] Instance store : Chroma (gmap string Document) :=
  Mem.chroma search add_fault.

Local Abbreviation doc_id := (VectorStore._compute_doc_id md5).
Local Abbreviation add_documents := (VectorStore.add_documents md5).

Implicit Types (coll : gmap string Document) (docs : list Document).

Lemma add_batches_dom_le coll docs bs starts n r coll' :
  VectorStore.add_batches coll docs (doc_id <$> docs) bs starts n = (r, coll') →
  dom coll' ⊆ dom coll ∪ list_to_set (doc_id <$> docs).
Proof.
  revert coll n. induction starts as [|i starts IH]; intros coll n;
    cbn [VectorStore.add_batches].
  - intros [= _ <-]. apply union_subseteq_l.
  - rewrite slice_fmap.
    destruct (chroma_add_documents coll (slice docs i (i + bs))
                (doc_id <$> slice docs i (i + bs))) as [r1 coll1] eqn:Hadd.
    apply (chroma_add_documents_cases search add_fault md5) in Hadd
      as [(e & -> & ->)|[-> ->]].
    + intros [= _ <-]. apply union_subseteq_l.
    + intros Hsub%IH. rewrite upsert_dom_ids in Hsub.
      etransitivity; [done|]. apply union_least; [|apply union_subseteq_r].
      apply union_least; [apply union_subseteq_l|].
      intros k (d & -> & Hd%elem_of_slice)%elem_of_list_to_set%list_elem_of_fmap.
      apply elem_of_union_r, elem_of_list_to_set. by apply list_elem_of_fmap_2.
Qed.

Lemma upsert_preserves coll0 coll (pairs : list (string * Document)) :
  (∀ p, p ∈ pairs → p.1 ∉ dom coll0) →
  coll0 ⊆ coll →
  coll0 ⊆ foldl (λ m '(i, d), <[i := d]> m) coll pairs.
Proof.
  revert coll. induction pairs as [|[i d] pairs IH]; intros coll Hnew Hsub;
    simpl; [done|].
  apply IH; [intros p Hp; apply Hnew; by right|].
  apply insert_subseteq_r; [|done].
  apply not_elem_of_dom. apply (Hnew (i, d)). by left.
Qed.

Lemma add_batches_preserves coll0 coll docs bs starts n r coll' :
  (∀ d, d ∈ docs → doc_id d ∉ dom coll0) →
  coll0 ⊆ coll →
  VectorStore.add_batches coll docs (doc_id <$> docs) bs starts n = (r, coll') →
  coll0 ⊆ coll'.
Proof.
  intros Hnew. revert coll n.
  induction starts as [|i starts IH]; intros coll n Hsub;
    cbn [VectorStore.add_batches].
  - by intros [= _ <-].
  - rewrite slice_fmap.
    destruct (chroma_add_documents coll (slice docs i (i + bs))
                (doc_id <$> slice docs i (i + bs))) as [r1 coll1] eqn:Hadd.
    apply (chroma_add_documents_cases search add_fault md5) in Hadd
      as [(e & -> & ->)|[-> ->]]; [by intros [= _ <-]|].
    apply IH. unfold Mem.upsert. apply upsert_preserves; [|done].
    intros [k d]. rewrite zip_fmap_self.
    intros (d' & [= -> ->] & Hd%elem_of_slice)%list_elem_of_fmap. simpl.
    by apply Hnew.
Qed.

Lemma add_documents_dom coll docs bs n coll1 :
  add_documents coll docs bs = (Ok n, coll1) → (0 < bs)%Z →
  let new_docs := filter (λ d, doc_id d ∉ dom coll) docs in
  n = length new_docs
  ∧ dom coll1 = dom coll ∪ list_to_set (doc_id <$> new_docs)
  ∧ dom coll1 = dom coll ∪ list_to_set (doc_id <$> docs).
Proof.
  intros Hadd Hbs new_docs.
  assert (n = length new_docs
          ∧ dom coll1 = dom coll ∪ list_to_set (doc_id <$> new_docs))
    as [Hn Hdom].
  { revert Hadd. unfold VectorStore.add_documents.
    destruct (select_new_spec md5 (VectorStore._get_existing_ids coll) docs)
      as (sk & ->).
    rewrite (get_existing_ids_dom search add_fault). fold new_docs.
    destruct new_docs as [|d0 new] eqn:Hnew.
    { intros [= <- <-]. split; [done|].
      by rewrite fmap_nil, list_to_set_nil, (right_id_L ∅ (∪)). }
    rewrite <- Hnew.
    destruct (py_range 0 (Z.of_nat (length new_docs)) bs)
      as [starts|e] eqn:Hrange; [|done].
    intros Hb. split.
    - apply add_batches_count in Hb as ->.
      by rewrite (slices_cover _ _ _ Hbs Hrange).
    - apply (anti_symm (⊆)).
      + by eapply add_batches_dom_le.
      + apply (add_batches_dom search add_fault md5) in Hb as [Hsub Hcov].
        apply union_least; [done|].
        intros k (d & -> & Hd)%elem_of_list_to_set%list_elem_of_fmap.
        apply list_elem_of_lookup in Hd as [j Hj].
        pose proof (lookup_lt_Some _ _ _ Hj) as Hjlt.
        destruct (py_range_cover (Z.of_nat (length new_docs)) bs starts j Hbs
                    ltac:(lia) Hrange)
          as (i & Hi & Hij & Hji).
        apply (Hcov i d Hi). by apply (slice_lookup _ _ _ j); [lia..|]. }
  split_and!; [done..|].
  rewrite Hdom. apply set_eq. intros k.
  rewrite !elem_of_union, !elem_of_list_to_set, !list_elem_of_fmap.
  split.
  - intros [?|(d & -> & [_ Hd]%list_elem_of_filter)]; [by left|].
    right. by exists d.
  - intros [?|(d & -> & Hd)]; [by left|].
    destruct (decide (doc_id d ∈ dom coll)) as [?|Hnin]; [by left|].
    right. exists d. split; [done|]. by apply list_elem_of_filter.
Qed.

(** X8: a call of [add_documents] with a positive batch size that
    returns has stored an entry for the id of every document it was
    given and for no other id; the number it returns is the number of
    given documents whose id was not stored before the call, each
    counted as often as it was given, so that the index grows by at most
    that number. *)
Theorem add_documents_count coll docs bs n coll1 :
  add_documents coll docs bs = (Ok n, coll1) → (0 < bs)%Z →
  n = length (filter (λ d, doc_id d ∉ dom coll) docs)
  ∧ dom coll1 = dom coll ∪ list_to_set (doc_id <$> docs)
  ∧ size coll1 ≤ size coll + n.
Proof.
  intros Hadd Hbs.
  destruct (add_documents_dom _ _ _ _ _ Hadd Hbs) as (Hn & Hnew & Hdom).
  split_and!; [done..|].
  rewrite <- !size_dom, Hnew, Hn.
  etransitivity; [apply size_union_le|].
  apply Nat.add_le_mono_l.
  etransitivity; [apply size_list_to_set_le|]. by rewrite length_fmap.
Qed.

(** X9: [add_documents] only adds to the index: whatever the documents
    and the batch size, and whether the call returns or raises, every
    entry stored before the call is stored after it with the same
    document. *)
Theorem add_documents_keeps_entries coll docs bs :
  coll ⊆ (add_documents coll docs bs).2.
Proof.
  unfold VectorStore.add_documents.
  destruct (select_new_spec md5 (VectorStore._get_existing_ids coll) docs)
    as (sk & ->).
  rewrite (get_existing_ids_dom search add_fault).
  destruct (filter (λ d, doc_id d ∉ dom coll) docs) as [|d0 new] eqn:Hnew;
    [done|].
  rewrite <- Hnew. set (new_docs := filter _ docs) in *.
  destruct (py_range _ _ _) as [starts|e]; [|done].
  destruct (VectorStore.add_batches _ _ _ _ _ _) as [r coll'] eqn:Hb.
  simpl. eapply add_batches_preserves; [|done|exact Hb].
  by intros d [? _]%list_elem_of_filter.
Qed.

End IndexGrowth.

Lemma add_documents_count_witness :
  let backend := Mem.chroma (ranked_search []) no_fault in
  let a := mk_doc "a" "" 1 in
  let b := mk_doc "b" "" 1 in
  let docs := [a; a; b] in
  let coll1 : gmap string Document := {[ "__a" := a; "__b" := b ]} in
  VectorStore.add_documents (Chroma0 := backend) plain_digest ∅ docs 2
  = (Ok 3, coll1)
  ∧ 3 = length
          (filter
             (λ d, VectorStore._compute_doc_id plain_digest d
                   ∉ dom (∅ : gmap string Document))
             docs)
  ∧ dom coll1
    = dom (∅ : gmap string Document)
      ∪ list_to_set (VectorStore._compute_doc_id plain_digest <$> docs)
  ∧ size coll1 ≤ size (∅ : gmap string Document) + 3.
Proof.
  intros backend a b docs coll1.
  split; [by vm_compute|].
  apply (add_documents_count (ranked_search []) no_fault plain_digest
           ∅ docs 2 3 coll1); [by vm_compute|lia].
Defined.

(** ** Batch sizes that are not positive *)

Section BatchSize.
Context {DB : Type} `{!Chroma DB}.
Variable md5 : string → string.


(** X11: [is_empty] answers true exactly when [get_document_count]
    answers 0; both treat a count that cannot be read as no entry. *)
Theorem is_empty_iff_no_documents (db : DB) :
  VectorStore.is_empty db
  = bool_decide (VectorStore.get_document_count db = 0).
Proof.
  unfold VectorStore.is_empty, VectorStore.get_document_count.
  by destruct (collection_count db).
Qed.

End BatchSize.


(** ** Deduplication: what is left *)

Section DedupResult.
Variable th : Q.

Lemma is_duplicate_false doc kept :
  Retriever.is_duplicate th doc kept = false
  ↔ ∀ e, e ∈ kept →
         (Retriever._jaccard_similarity (page_content doc) (page_content e.1)
          < th)%Q.
Proof.
  rewrite <- not_true_iff_false, is_duplicate_iff. split.
  - intros Hno e He. apply Qnot_le_lt. intros Hle. apply Hno. eauto.
  - intros Hall (e & He & Hle). apply (Qlt_not_le _ _ (Hall e He)), Hle.
Qed.

Lemma dedup_loop_distinct acc l :
  StronglySorted (distinct_text th) acc →
  StronglySorted (distinct_text th) (foldl (Retriever.dedup_step th) acc l).
Proof.
  revert acc. induction l as [|[doc score] l IH]; intros acc Hacc; [done|].
  simpl. apply IH.
  destruct (Retriever.is_duplicate th doc acc) eqn:Hdup; [done|].
  apply StronglySorted_app_2; [|done|by repeat constructor].
  intros e x He ->%list_elem_of_singleton.
  by apply (proj1 (is_duplicate_false doc acc) Hdup).
Qed.

Lemma dedup_loop_fixed acc l :
  StronglySorted (distinct_text th) (acc ++ l) →
  foldl (Retriever.dedup_step th) acc l = acc ++ l.
Proof.
  revert acc. induction l as [|[doc score] l IH]; intros acc Hs.
  - by rewrite app_nil_r.
  - simpl.
    assert (Retriever.is_duplicate th doc acc = false) as ->.
    { apply is_duplicate_false. intros e He.
      apply (StronglySorted_app_1_elem_of _ _ _ e (doc, score) Hs He).
      by left. }
    rewrite IH; [by rewrite <- app_assoc|]. by rewrite <- app_assoc.
Qed.

Lemma deduplicate_distinct (results : list (Document * Q)) :
  StronglySorted (distinct_text th) (Retriever._deduplicate results th).
Proof.
  destruct results as [|first [|second rest]]; [constructor| |].
  - simpl. by repeat constructor.
  - rewrite deduplicate_cons. apply dedup_loop_distinct.
    by repeat constructor.
Qed.

(** X12: in the list that [_deduplicate] returns no result is a
    duplicate of a result before it: the Jaccard similarity of the texts
    of any two kept results is below the threshold.  This holds for every
    list of results and every threshold. *)
Theorem deduplicate_no_duplicates (results : list (Document * Q)) :
  StronglySorted (distinct_text th) (Retriever._deduplicate results th).
Proof. apply deduplicate_distinct. Qed.

(** X13: [_deduplicate] is idempotent: deduplicating its result again
    removes nothing. *)
Theorem deduplicate_idempotent (results : list (Document * Q)) :
  Retriever._deduplicate (Retriever._deduplicate results th) th
  = Retriever._deduplicate results th.
Proof.
  pose proof (deduplicate_distinct results) as Hs.
  destruct (Retriever._deduplicate results th) as [|x [|y kept]]; [done..|].
  rewrite deduplicate_cons. by apply (dedup_loop_fixed [x]).
Qed.

End DedupResult.

(** ** The best score *)

Lemma foldl_max_score (s : Q) (ss : list Q) :
  let top := foldl (λ m x, if Qle_bool m x then x else m) s ss in
  top ∈ s :: ss ∧ Forall (λ x, (x <= top)%Q) (s :: ss).
Proof.
  revert s. induction ss as [|y ss IH]; intros s; simpl.
  - split; [by left|]. repeat constructor. apply Qle_refl.
  - destruct (IH (if Qle_bool s y then y else s)) as [Hin Hle].
    apply Forall_cons in Hle as [Hm Hle]. split.
    + apply elem_of_cons in Hin as [Heq|Hin]; [|by do 2 right].
      rewrite Heq. destruct (Qle_bool s y); [right|]; by left.
    + destruct (Qle_bool s y) eqn:Hsy.
      * apply Qle_bool_iff in Hsy. repeat constructor; [|done..].
        by eapply Qle_trans.
      * repeat constructor; [done| |done].
        eapply Qle_trans; [|done]. apply Qlt_le_weak, Qnot_le_lt.
        intros Hle'%Qle_bool_iff. congruence.
Qed.

(** X14: [top_score] is 0 for a result without scores; for any other it
    is one of the scores of the result and no score of the result is
    above it. *)
Theorem top_score_spec (r : Retriever.RetrievalResult) :
  match Retriever.scores r with
  | [] => Retriever.top_score r = 0%Q
  | _ =>
      Retriever.top_score r ∈ Retriever.scores r
      ∧ Forall (λ s, (s <= Retriever.top_score r)%Q) (Retriever.scores r)
  end.
Proof.
  unfold Retriever.top_score.
  destruct (Retriever.scores r) as [|s ss]; [done|].
  apply foldl_max_score.
Qed.

(** ** What [retrieve] returns *)

Lemma filter_sublist {A} (P : A → bool) (l : list A) :
  List.filter P l `sublist_of` l.
Proof.
  induction l as [|x l IH]; [done|]. simpl.
  destruct (P x); by constructor.
Qed.

Lemma build_context_cons x (l : list (Document * Q)) :
  ∃ rest, Retriever._build_context (x :: l) = String "[" rest.
Proof.
  unfold Retriever._build_context. rewrite imap_cons.
  destruct x as [doc score].
  destruct (imap _ l) as [|p ps]; eexists; reflexivity.
Qed.

Lemma extract_sources_length (results : list (Document * Q)) :
  ∃ srcs, Retriever._extract_sources results = Ok srcs
          ∧ length srcs = length (first_occurrences (citation <$> results)).
Proof.
  eexists. split; [apply extract_sources_sorted|].
  rewrite !length_fmap, (Permutation_length (sort_by_key_perm _)).
  by rewrite !length_fmap.
Qed.

Section Retrieved.
Context {DB : Type} `{!Chroma DB}.
Implicit Types (self : Retriever.Retriever DB) (q : string).

(** The result of [retrieve] when the search returns hits. *)
Lemma retrieve_found self q p raw :
  VectorStore.similarity_search (Retriever.vector_store self) q
    (Retriever.top_k self) (Retriever.min_similarity self)
  = Ok (p :: raw) →
  let kept := Retriever._deduplicate (p :: raw) (90 # 100) in
  ∃ srcs,
    Retriever._extract_sources kept = Ok srcs
    ∧ Retriever.retrieve self q
      = Ok {| Retriever.query := q; Retriever.documents := kept.*1;
              Retriever.scores := kept.*2;
              Retriever.context := Retriever._build_context kept;
              Retriever.sources := srcs |}.
Proof.
  intros Hs kept. unfold Retriever.retrieve. rewrite Hs.
  fold kept. rewrite store_results_unzip.
  destruct (extract_sources_length kept) as (srcs & Hsrcs & _).
  exists srcs. by rewrite Hsrcs.
Qed.

Lemma retrieve_cases self q r :
  Retriever.retrieve self q = Ok r →
  r = empty_result q
  ∨ ∃ p raw,
      VectorStore.similarity_search (Retriever.vector_store self) q
        (Retriever.top_k self) (Retriever.min_similarity self)
      = Ok (p :: raw).
Proof.
  destruct (VectorStore.similarity_search (Retriever.vector_store self) q
              (Retriever.top_k self) (Retriever.min_similarity self))
    as [[|p raw]|e] eqn:Hs.
  - rewrite (retrieve_no_results _ _ Hs). intros [= <-]. by left.
  - right. by exists p, raw.
  - unfold Retriever.retrieve. rewrite Hs.
    destruct (isinstance_RuntimeError e); [|done]. intros [= <-]. by left.
Qed.

Lemma retrieve_not_found self q r :
  Retriever.retrieve self q = Ok r →
  Retriever.found_results r = false → r = empty_result q.
Proof.
  intros Hr Hnone.
  destruct (retrieve_cases _ _ _ Hr) as [->|(p & hits & Hs)]; [done|].
  destruct (retrieve_found _ _ _ _ Hs) as (srcs & _ & Hr').
  assert (Retriever.documents r
          = (Retriever._deduplicate (p :: hits) (90 # 100)).*1) as Hdocs
    by (rewrite Hr' in Hr; by injection Hr as <-).
  destruct (deduplicate_head (90 # 100) p hits) as (tail & Hkept).
  unfold Retriever.found_results in Hnone.
  by rewrite Hdocs, Hkept in Hnone.
Qed.

(** X15: the documents that [retrieve] returns, with their scores, are
    hits of the query of the index, in the order in which the index
    returned them; every score is at least [min_similarity]; and no
    returned document is a duplicate (Jaccard 0.90) of one before it. *)
Theorem retrieve_hits self q r :
  Retriever.retrieve self q = Ok r →
  Retriever.found_results r = true →
  ∃ raw,
    similarity_search_with_relevance_scores (Retriever.vector_store self) q
      (Retriever.top_k self)
    = Ok raw
    ∧ zip (Retriever.documents r) (Retriever.scores r) `sublist_of` raw
    ∧ Forall (λ s, (Retriever.min_similarity self <= s)%Q)
        (Retriever.scores r)
    ∧ StronglySorted (distinct_text (90 # 100))
        (zip (Retriever.documents r) (Retriever.scores r)).
Proof.
  intros Hr Hfound.
  destruct (retrieve_cases _ _ _ Hr) as [->|(p & hits & Hs)]; [done|].
  destruct (retrieve_found _ _ _ _ Hs) as (srcs & _ & Hr').
  rewrite Hr' in Hr. injection Hr as <-.
  cbn [Retriever.documents Retriever.scores]. clear Hfound Hr'.
  apply similarity_search_inv in Hs as (_ & raw & Hraw & Hhits).
  set (kept := Retriever._deduplicate (p :: hits) (90 # 100)).
  assert (kept `sublist_of` p :: hits) as Hsub
    by apply deduplicate_sublist.
  exists raw. rewrite zip_fst_snd. split_and!; [done| | |].
  - etransitivity; [done|]. rewrite Hhits. apply filter_sublist.
  - apply Forall_fmap, Forall_forall. intros x Hx.
    eapply elem_of_sublist in Hx; [|done]. rewrite Hhits in Hx.
    apply list_elem_of_In, List.filter_In in Hx as [_ Hx].
    by apply Qle_bool_iff.
  - apply (deduplicate_distinct (90 # 100) (p :: hits)).
Qed.

Lemma retrieve_parts self q r :
  Retriever.retrieve self q = Ok r →
  (Retriever.found_results r = true ↔ Retriever.context r ≠ "")
  ∧ (Retriever.found_results r = true ↔ Retriever.sources r ≠ [])
  ∧ length (Retriever.sources r) ≤ length (Retriever.documents r).
Proof.
  intros Hr.
  destruct (retrieve_cases _ _ _ Hr) as [->|(p & hits & Hs)].
  { by split_and!. }
  unfold Retriever.retrieve in Hr. rewrite Hs in Hr.
  rewrite store_results_unzip in Hr.
  destruct (deduplicate_head (90 # 100) p hits) as (tail & Hkept).
  rewrite Hkept in Hr.
  destruct (extract_sources_length (p :: tail)) as (srcs & Hsrcs & Hlen).
  rewrite Hsrcs in Hr. injection Hr as <-.
  destruct (build_context_cons p tail) as (rest & Hctx).
  rewrite fmap_cons in Hlen. cbn [first_occurrences length] in Hlen.
  assert (length srcs ≤ S (length tail)) as Hle.
  { rewrite Hlen. apply le_n_S.
    etransitivity; [apply length_filter|].
    etransitivity; [apply sublist_length, first_occurrences_sublist|].
    by rewrite length_fmap. }
  unfold Retriever.found_results.
  cbn [Retriever.documents Retriever.context Retriever.sources].
  rewrite Hctx, length_cons.
  change (list_fmap _ _ fst tail) with (tail.*1). rewrite length_fmap.
  split_and!.
  - split; [done|]. intros _. apply bool_decide_eq_true. lia.
  - split; [|intros _; apply bool_decide_eq_true; lia].
    intros _ ->. simpl in Hlen. lia.
  - done.
Qed.


(** X16: in a result of [retrieve] the parts agree: there is a context
    exactly when there are documents, there are sources exactly when
    there are documents, and there are never more sources than
    documents. *)
Theorem retrieve_consistent self q r :
  Retriever.retrieve self q = Ok r →
  (Retriever.found_results r = true ↔ Retriever.context r ≠ "")
  ∧ (Retriever.found_results r = true ↔ Retriever.sources r ≠ [])
  ∧ length (Retriever.sources r) ≤ length (Retriever.documents r).
Proof. apply retrieve_parts. Qed.

End Retrieved.

Lemma retrieve_hits_witness :
  let hits :=
    [(cat_mat, 9 # 10); (cat_mat_upper, 8 # 10); (quantum, 1 # 10)]%Q in
  let backend := Mem.chroma (ranked_search hits) no_fault in
  let self :=
    {| Retriever.vector_store :=
         ({[ "1" := cat_mat; "2" := cat_mat_upper; "3" := quantum ]}
            : gmap string Document);
       Retriever.top_k := Retriever.TOP_K_RESULTS;
       Retriever.min_similarity := Retriever.MIN_SIMILARITY |} in
  let r :=
    {| Retriever.query := "Where did the cat sit?";
       Retriever.documents := [cat_mat];
       Retriever.scores := [(9 # 10)%Q];
       Retriever.context :=
         "[Abschnitt 1] (Quelle: a.pdf, Seite 1)" +:+ Retriever.nl
           +:+ "The cat sat on the mat.";
       Retriever.sources := ["Seite 1"] |} in
  Retriever.retrieve (Chroma0 := backend) self "Where did the cat sit?" = Ok r
  ∧ Retriever.found_results r = true
  ∧ ∃ raw,
      similarity_search_with_relevance_scores (Chroma := backend)
        (Retriever.vector_store self) "Where did the cat sit?"
        (Retriever.top_k self)
      = Ok raw
      ∧ zip (Retriever.documents r) (Retriever.scores r) `sublist_of` raw
      ∧ Forall (λ s, (Retriever.min_similarity self <= s)%Q)
          (Retriever.scores r)
      ∧ StronglySorted (distinct_text (90 # 100))
          (zip (Retriever.documents r) (Retriever.scores r)).
Proof.
  intros hits backend self r.
  split; [by vm_compute|]. split; [by vm_compute|].
  apply (retrieve_hits (Chroma0 := backend) self "Where did the cat sit?" r);
    by vm_compute.
Defined.

Lemma retrieve_consistent_witness :
  let hits := [(cat_mat, 9 # 10); (quantum, 1 # 10)]%Q in
  let backend := Mem.chroma (ranked_search hits) no_fault in
  let self :=
    {| Retriever.vector_store :=
         ({[ "1" := cat_mat; "3" := quantum ]} : gmap string Document);
       Retriever.top_k := Retriever.TOP_K_RESULTS;
       Retriever.min_similarity := Retriever.MIN_SIMILARITY |} in
  let r :=
    {| Retriever.query := "cat?";
       Retriever.documents := [cat_mat];
       Retriever.scores := [(9 # 10)%Q];
       Retriever.context :=
         "[Abschnitt 1] (Quelle: a.pdf, Seite 1)" +:+ Retriever.nl
           +:+ "The cat sat on the mat.";
       Retriever.sources := ["Seite 1"] |} in
  Retriever.retrieve (Chroma0 := backend) self "cat?" = Ok r
  ∧ (Retriever.found_results r = true ↔ Retriever.context r ≠ "")
  ∧ (Retriever.found_results r = true ↔ Retriever.sources r ≠ [])
  ∧ length (Retriever.sources r) ≤ length (Retriever.documents r).
Proof.
  intros hits backend self r.
  split; [by vm_compute|].
  apply (retrieve_consistent (Chroma0 := backend) self "cat?" r).
  by vm_compute.
Defined.

(** ** Answers of the language model *)

Section Answers.
Context {C : Type} `{!OpenAI C}.
Implicit Types (self : LLMChain.LLMChain C) (r : Retriever.RetrievalResult).

Lemma generate_answer_not_found self r :
  Retriever.found_results r = false →
  LLMChain.generate_answer self r = (Ok no_results_response, self).
Proof. unfold LLMChain.generate_answer. by intros ->. Qed.

(** What a call adds to the token count of the session. *)
Lemma generate_answer_tokens self r res self' :
  LLMChain.generate_answer self r = (res, self') →
  LLMChain.total_tokens_used self'
  = (LLMChain.total_tokens_used self
     + match res with
       | Ok response => LLMChain.total_tokens response
       | Raised _ => 0
       end)%Z.
Proof.
  unfold LLMChain.generate_answer.
  destruct (Retriever.found_results r); simpl.
  - destruct (chat_completions_create _ _) as [[resp| | |str_e|e] c'];
      try (intros [= <- <-]; simpl; lia).
    destruct (choices resp) as [|content rest]; intros [= <- <-]; simpl; lia.
  - intros [= <- <-]. simpl. lia.
Qed.

(** X17: when [generate_answer] raises, it has asked the model, with the
    system prompt and the user message built from the result, and the
    exception tells what happened: a [RuntimeError] for an
    [AuthenticationError], a [RateLimitError] or an [APIError] of the
    client, an [IndexError] for a response without choices, and any other
    exception of the client as it was raised.  The token count and the
    cost of the session are as before the call. *)
Theorem generate_answer_raises self r e self' :
  LLMChain.generate_answer self r = (Raised e, self') →
  Retriever.found_results r = true
  ∧ LLMChain.total_tokens_used self' = LLMChain.total_tokens_used self
  ∧ LLMChain.total_cost_usd self' = LLMChain.total_cost_usd self
  ∧ ∃ request outcome,
      chat_completions_create (LLMChain.client self) request
      = (outcome, LLMChain.client self')
      ∧ req_messages request
        = [("system", LLMChain.SYSTEM_PROMPT);
           ("user", LLMChain._build_user_message r)]
      ∧ match outcome with
        | Completed response =>
            choices response = [] ∧ exc_class e = IndexError
        | OtherError e' => e = e'
        | _ => exc_class e = RuntimeError
        end.
Proof.
  unfold LLMChain.generate_answer.
  destruct (Retriever.found_results r); [|done]. simpl.
  destruct (chat_completions_create _ _) as [outcome c'] eqn:Hcall.
  destruct outcome as [resp| | |str_e|e'].
  - destruct (choices resp) as [|content rest] eqn:Hch; [|done].
    intros [= <- <-]. split_and!; [done..|].
    eexists _, _. split; [exact Hcall|]. by split.
  - intros [= <- <-]. split_and!; [done..|]. eexists _, _. by split.
  - intros [= <- <-]. split_and!; [done..|]. eexists _, _. by split.
  - intros [= <- <-]. split_and!; [done..|]. eexists _, _. by split.
  - intros [= <- <-]. split_and!; [done..|]. eexists _, _. by split.
Qed.

End Answers.

Lemma generate_answer_raises_witness :
  let self :=
    LLMChain.new {| Scripted.script := [RateLimitError];
                    Scripted.requests := [] |} in
  let r :=
    {| Retriever.query := "cat?";
       Retriever.documents := [cat_mat];
       Retriever.scores := [(9 # 10)%Q];
       Retriever.context := "The cat sat on the mat.";
       Retriever.sources := ["Seite 1"] |} in
  let res := LLMChain.generate_answer self r in
  res.1 = Raised LLMChain.rate_limit_reached
  ∧ LLMChain.total_tokens_used res.2 = LLMChain.total_tokens_used self.
Proof.
  intros self r res. split; [by vm_compute|].
  by destruct (generate_answer_raises self r LLMChain.rate_limit_reached res.2)
    as (_ & ? & _); [by vm_compute|].
Defined.

(** ** One question *)

Section Questions.
Context {DB : Type} `{!Chroma DB} {C : Type} `{!OpenAI C}.
Implicit Types (retriever : Retriever.Retriever DB) (s : Main.Session C).

(** X18: on an index without entries a question is answered without
    asking the model: the fixed answer without sources is printed, no
    call of the client is made, and the token count and the cost of the
    session stay as they are. *)
Theorem ask_empty_index retriever s (user_input : string) :
  collection_count (Retriever.vector_store retriever) = Ok 0 →
  Main.ask retriever s user_input
  = {| Main.printed := Main.printed s ++ [Main.PrintAnswer no_results_response];
       Main.question_count := S (Main.question_count s);
       Main.llm_chain := Main.llm_chain s |}.
Proof.
  intros Hcount. unfold Main.ask.
  rewrite (retrieve_caught _ _ VectorStore.empty_db_error);
    [|by apply similarity_search_empty, is_empty_zero|done].
  by rewrite generate_answer_not_found.
Qed.

(** X19: an answer that follows a retrieval cites the sources of the
    retrieval and nothing else, and so never more sources than documents
    were retrieved. *)
Theorem answer_cites_retrieved retriever (chain chain' : LLMChain.LLMChain C)
    (q : string) r response :
  Retriever.retrieve retriever q = Ok r →
  LLMChain.generate_answer chain r = (Ok response, chain') →
  LLMChain.sources response = Retriever.sources r
  ∧ length (LLMChain.sources response) ≤ length (Retriever.documents r).
Proof.
  intros Hr Hanswer.
  assert (LLMChain.sources response = Retriever.sources r) as Heq.
  { destruct (Retriever.found_results r) eqn:Hfound.
    - revert Hanswer. unfold LLMChain.generate_answer. rewrite Hfound. simpl.
      destruct (chat_completions_create _ _) as [[resp| | |str_e|e] c'];
        try done.
      destruct (choices resp) as [|content rest]; [done|].
      by intros [= <- _].
    - rewrite generate_answer_not_found in Hanswer by done.
      injection Hanswer as <- _.
      by rewrite (retrieve_not_found _ _ _ Hr Hfound). }
  split; [done|]. rewrite Heq.
  by destruct (retrieve_parts _ _ _ Hr) as (_ & _ & ?).
Qed.

(** What one question does to the session. *)
Lemma ask_spec retriever s (user_input : string) :
  ∃ o,
    Main.printed (Main.ask retriever s user_input) = Main.printed s ++ [o]
    ∧ Main.question_count (Main.ask retriever s user_input)
      = S (Main.question_count s)
    ∧ LLMChain.total_tokens_used (Main.llm_chain (Main.ask retriever s user_input))
      = (LLMChain.total_tokens_used (Main.llm_chain s)
         + tokens_of (answered [o]))%Z.
Proof.
  unfold Main.ask.
  destruct (Retriever.retrieve retriever user_input) as [r|e].
  - destruct (LLMChain.generate_answer _ _) as [[resp|e] chain'] eqn:Hg;
      apply generate_answer_tokens in Hg; simpl in Hg.
    + eexists. split_and!; [done..|]. simpl. rewrite Hg. lia.
    + exists (if isinstance_RuntimeError e then Main.PrintError e
              else Main.PrintUnexpected e).
      split_and!; [done..|]. simpl. rewrite Hg.
      destruct (isinstance_RuntimeError e); simpl; lia.
  - exists (if isinstance_RuntimeError e then Main.PrintError e
            else Main.PrintUnexpected e).
    split_and!; [done..|]. simpl.
    destruct (isinstance_RuntimeError e); simpl; lia.
Qed.

End Questions.

(** ** The chat loop *)

Lemma answered_app (out1 out2 : list Main.output) :
  answered (out1 ++ out2) = answered out1 ++ answered out2.
Proof. apply omap_app. Qed.

Lemma tokens_of_app (rs1 rs2 : list LLMChain.LLMResponse) :
  tokens_of (rs1 ++ rs2) = (tokens_of rs1 + tokens_of rs2)%Z.
Proof.
  induction rs1 as [|r rs1 IH]; [done|].
  simpl. unfold tokens_of in *. simpl. rewrite IH. lia.
Qed.

Section ChatLoop.
Context {DB : Type} `{!Chroma DB} {C : Type} `{!OpenAI C}.
Implicit Types (retriever : Retriever.Retriever DB) (s : Main.Session C).
Implicit Types (inputs : list Main.input_event).

(** The invariant of the loop: what is printed only grows, the token
    count of the session grows by the tokens of the answers printed, and
    the question count by the questions read. *)
Lemma chat_loop_spec retriever s inputs :
  let s' := final_session (Main.chat_loop retriever s inputs) in
  ∃ out,
    Main.printed s' = Main.printed s ++ out
    ∧ LLMChain.total_tokens_used (Main.llm_chain s')
      = (LLMChain.total_tokens_used (Main.llm_chain s)
         + tokens_of (answered out))%Z
    ∧ Main.question_count s'
      = Main.question_count s
        + length (filter is_question (inputs_read inputs)).
Proof.
  revert s. induction inputs as [|ev inputs IH]; intros s.
  { exists []. simpl. rewrite app_nil_r.
    change (tokens_of (answered [])) with 0%Z.
    by rewrite Z.add_0_r, Nat.add_0_r. }
  destruct ev as [line| |e]; cbn [Main.chat_loop inputs_read].
  - destruct (decide (ends_session (Main.Line line))) as [Hend|Hend];
      simpl in Hend.
    + case_bool_decide as Hblank.
      { rewrite Hblank in Hend. by vm_compute in Hend. }
      rewrite Hend.
      exists [Main.PrintSummary (Main.question_count s)
                (LLMChain.get_session_stats (Main.llm_chain s))].
      simpl. change (tokens_of (answered [_])) with 0%Z.
      by rewrite Z.add_0_r, Nat.add_0_r.
    + apply not_true_is_false in Hend. rewrite Hend.
      case_bool_decide as Hblank; [|case_bool_decide as Hstats].
      * destruct (IH s) as (out & Hp & Ht & Hq). exists out.
        split_and!; [done..|]. rewrite Hq, filter_cons_False; [done|].
        simpl. tauto.
      * destruct (IH (Main.print s
                        (Main.PrintStats
                           (LLMChain.get_session_stats (Main.llm_chain s)))))
          as (out & Hp & Ht & Hq).
        eexists (_ :: out). split_and!.
        -- rewrite Hp. simpl. by rewrite <- app_assoc.
        -- rewrite Ht. done.
        -- rewrite Hq, filter_cons_False; [done|]. simpl. tauto.
      * destruct (IH (Main.ask retriever s (PyStr.strip line)))
          as (out & Hp & Ht & Hq).
        destruct (ask_spec retriever s (PyStr.strip line))
          as (o & Hp1 & Hq1 & Ht1).
        exists (o :: out). split_and!.
        -- rewrite Hp, Hp1. by rewrite <- app_assoc.
        -- rewrite Ht, Ht1.
           change (o :: out) with ([o] ++ out).
           rewrite answered_app, tokens_of_app. lia.
        -- rewrite Hq, Hq1, filter_cons_True by done. simpl. lia.
  - rewrite decide_True by done.
    exists [Main.PrintSummary (Main.question_count s)
              (LLMChain.get_session_stats (Main.llm_chain s));
            Main.PrintInterrupted].
    simpl. rewrite <- app_assoc.
    change (tokens_of (answered [_; _])) with 0%Z.
    by rewrite Z.add_0_r, Nat.add_0_r.
  - rewrite decide_False by (simpl; tauto).
    destruct (IH (Main.report s e)) as (out & Hp & Ht & Hq).
    exists ((if isinstance_RuntimeError e then Main.PrintError e
             else Main.PrintUnexpected e) :: out).
    split_and!.
    + rewrite Hp. simpl. by rewrite <- app_assoc.
    + rewrite Ht. simpl. by destruct (isinstance_RuntimeError e).
    + rewrite Hq, filter_cons_False; [done|]. simpl. tauto.
Qed.


(** X20: at the end of a run of the chat loop the token count of the
    session is the count it started with plus the tokens of the answers
    that were printed: questions that failed, blank lines and commands
    add nothing. *)
Theorem chat_loop_tokens retriever (chain : LLMChain.LLMChain C) inputs :
  let s' := final_session (Main.interactive_chat_loop retriever chain inputs) in
  LLMChain.total_tokens_used (Main.llm_chain s')
  = (LLMChain.total_tokens_used chain
     + tokens_of (answered (Main.printed s')))%Z.
Proof.
  intros s'. unfold s', Main.interactive_chat_loop.
  destruct (chat_loop_spec retriever
              {| Main.printed := []; Main.question_count := 0;
                 Main.llm_chain := chain |} inputs)
    as (out & Hp & Ht & _).
  simpl in Hp. by rewrite Hp, Ht.
Qed.

(** X21: the question count at the end of a run is the number of lines
    read, up to the first exit command or Ctrl+C, that are neither blank
    nor a command; a question counts whether it was answered or failed,
    and an input that raised does not count. *)
Theorem chat_loop_question_count retriever (chain : LLMChain.LLMChain C)
    inputs :
  Main.question_count
    (final_session (Main.interactive_chat_loop retriever chain inputs))
  = length (filter is_question (inputs_read inputs)).
Proof.
  unfold Main.interactive_chat_loop.
  destruct (chat_loop_spec retriever
              {| Main.printed := []; Main.question_count := 0;
                 Main.llm_chain := chain |} inputs)
    as (out & _ & _ & Hq).
  by rewrite Hq.
Qed.


End ChatLoop.

(** A session on an empty index: a blank line, the statistics, an input
    that fails, a question and the exit command; what follows the exit
    command is not read. *)
Example chat_loop_ex :
  let backend := Mem.chroma (ranked_search []) no_fault in
  let retriever :=
    {| Retriever.vector_store := (∅ : gmap string Document);
       Retriever.top_k := Retriever.TOP_K_RESULTS;
       Retriever.min_similarity := Retriever.MIN_SIMILARITY |} in
  let chain :=
    LLMChain.new {| Scripted.script := []; Scripted.requests := [] |} in
  let stats := LLMChain.get_session_stats chain in
  Main.interactive_chat_loop (Chroma0 := backend) retriever chain
    [Main.Line "  "; Main.Line "Stats"; Main.InputError backend_down;
     Main.Line " Where did the cat sit? "; Main.Line " EXIT ";
     Main.Line "What else?"]
  = Main.Finished
      {| Main.printed :=
           [Main.PrintStats stats; Main.PrintUnexpected backend_down;
            Main.PrintAnswer no_results_response;
            Main.PrintSummary 1 stats];
         Main.question_count := 1;
         Main.llm_chain := chain |}.
Proof. by vm_compute. Qed.

Lemma ask_empty_index_witness :
  let backend := Mem.chroma (ranked_search []) no_fault in
  let retriever :=
    {| Retriever.vector_store := (∅ : gmap string Document);
       Retriever.top_k := Retriever.TOP_K_RESULTS;
       Retriever.min_similarity := Retriever.MIN_SIMILARITY |} in
  let chain :=
    LLMChain.new {| Scripted.script := []; Scripted.requests := [] |} in
  let s :=
    {| Main.printed := []; Main.question_count := 0;
       Main.llm_chain := chain |} in
  Main.ask (Chroma0 := backend) retriever s "Where did the cat sit?"
  = {| Main.printed := [Main.PrintAnswer no_results_response];
       Main.question_count := 1;
       Main.llm_chain := chain |}.
Proof.
  intros backend retriever chain s.
  apply (ask_empty_index (Chroma0 := backend) retriever s
           "Where did the cat sit?").
  reflexivity.
Defined.

Lemma answer_cites_retrieved_witness :
  let hits := [(cat_mat, 9 # 10); (quantum, 1 # 10)]%Q in
  let backend := Mem.chroma (ranked_search hits) no_fault in
  let retriever :=
    {| Retriever.vector_store :=
         ({[ "1" := cat_mat; "3" := quantum ]} : gmap string Document);
       Retriever.top_k := Retriever.TOP_K_RESULTS;
       Retriever.min_similarity := Retriever.MIN_SIMILARITY |} in
  let r :=
    {| Retriever.query := "cat?";
       Retriever.documents := [cat_mat];
       Retriever.scores := [(9 # 10)%Q];
       Retriever.context :=
         "[Abschnitt 1] (Quelle: a.pdf, Seite 1)" +:+ Retriever.nl
           +:+ "The cat sat on the mat.";
       Retriever.sources := ["Seite 1"] |} in
  let completion :=
    {| choices := [Some "On the mat. [Abschnitt 1]"];
       usage := Some {| usage_prompt_tokens := 120;
                        usage_completion_tokens := 9;
                        usage_total_tokens := 129 |} |} in
  let chain :=
    LLMChain.new {| Scripted.script := [Completed completion];
                    Scripted.requests := [] |} in
  let answer := LLMChain.generate_answer chain r in
  match answer.1 with
  | Ok response =>
      LLMChain.sources response = ["Seite 1"]
      ∧ LLMChain.total_tokens response = 129%Z
  | Raised _ => False
  end.
Proof.
  intros hits backend retriever r completion chain answer.
  destruct answer as [[response|e] chain'] eqn:Hanswer; [|by vm_compute in Hanswer].
  destruct (answer_cites_retrieved (Chroma0 := backend) retriever chain chain'
              "cat?" r response) as [Hsources _];
    [by vm_compute|exact Hanswer|].
  simpl. split; [by rewrite Hsources|].
  vm_compute in Hanswer. by injection Hanswer as <- _.
Defined.

(** ** The requests of a session *)

Lemma generate_answer_requests (self : LLMChain.LLMChain Scripted.Client)
    (r : Retriever.RetrievalResult) :
  let self' := (LLMChain.generate_answer self r).2 in
  ∃ sent,
    Scripted.requests (LLMChain.client self')
    = Scripted.requests (LLMChain.client self) ++ sent
    ∧ length sent ≤ 1.
Proof.
  unfold LLMChain.generate_answer.
  destruct (Retriever.found_results r); simpl.
  - destruct (Scripted.script (LLMChain.client self)) as [|outcome rest];
      simpl.
    + eexists [_]. split; [done|simpl; lia].
    + destruct outcome as [resp| | |str_e|e];
        try (eexists [_]; split; [done|simpl; lia]).
      destruct (choices resp); eexists [_]; (split; [done|simpl; lia]).
  - exists []. rewrite app_nil_r. split; [done|simpl; lia].
Qed.

Section Requests.
Context {DB : Type} `{!Chroma DB}.
Implicit Types (retriever : Retriever.Retriever DB).
Implicit Types (s : Main.Session Scripted.Client).

Lemma ask_requests retriever s (user_input : string) :
  length (Scripted.requests
            (LLMChain.client (Main.llm_chain (Main.ask retriever s user_input))))
  ≤ S (length (Scripted.requests (LLMChain.client (Main.llm_chain s)))).
Proof.
  unfold Main.ask.
  destruct (Retriever.retrieve retriever user_input) as [r|e].
  - destruct (generate_answer_requests (Main.llm_chain s) r)
      as (sent & Hsent & Hlen).
    destruct (LLMChain.generate_answer _ _) as [[resp|e] chain'];
      simpl in *; rewrite Hsent, length_app; lia.
  - simpl. lia.
Qed.

Lemma chat_loop_requests_from retriever s inputs :
  let s' := final_session (Main.chat_loop retriever s inputs) in
  length (Scripted.requests (LLMChain.client (Main.llm_chain s')))
  + Main.question_count s
  ≤ length (Scripted.requests (LLMChain.client (Main.llm_chain s)))
    + Main.question_count s'.
Proof.
  revert s. induction inputs as [|ev inputs IH]; intros s; [simpl; lia|].
  destruct ev as [line| |e]; cbn [Main.chat_loop].
  - case_bool_decide as Hblank; [apply IH|].
    destruct (Main.is_exit_command (PyStr.strip line)); [simpl; lia|].
    case_bool_decide as Hstats; [apply (IH (Main.print s _))|].
    specialize (IH (Main.ask retriever s (PyStr.strip line))).
    pose proof (ask_requests retriever s (PyStr.strip line)) as Hreq.
    destruct (ask_spec retriever s (PyStr.strip line)) as (o & _ & Hq & _).
    simpl in IH. rewrite Hq in IH. lia.
  - simpl. lia.
  - apply (IH (Main.report s e)).
Qed.

(** X23: the chat loop sends at most one request to the model for each
    question it counts: with a client that records its requests, the
    number of requests recorded at the end of a run is at most the number
    recorded at its start plus the final question count.  Blank lines,
    commands and inputs that raise send nothing. *)
Theorem chat_loop_requests retriever
    (chain : LLMChain.LLMChain Scripted.Client) inputs :
  let s' := final_session (Main.interactive_chat_loop retriever chain inputs) in
  length (Scripted.requests (LLMChain.client (Main.llm_chain s')))
  ≤ length (Scripted.requests (LLMChain.client chain))
    + Main.question_count s'.
Proof.
  intros s'. unfold s', Main.interactive_chat_loop.
  pose proof (chat_loop_requests_from retriever
                {| Main.printed := []; Main.question_count := 0;
                   Main.llm_chain := chain |} inputs) as Hle.
  simpl in Hle. lia.
Qed.

End Requests.

(** ** Setting up the pipeline *)

Lemma get_stats_no_average :
  dict_get (PDFProcessor.get_stats []) "avg_length"
  = Raised (Exc KeyError "avg_length").
Proof. reflexivity. Qed.

Lemma get_stats_keys doc docs :
  ∃ avg pages,
    dict_get (PDFProcessor.get_stats (doc :: docs)) "avg_length" = Ok avg
    ∧ dict_get (PDFProcessor.get_stats (doc :: docs)) "unique_pages"
      = Ok pages.
Proof.
  unfold dict_get, PDFProcessor.get_stats.
  rewrite lookup_insert_ne, lookup_insert_eq by done.
  rewrite !lookup_insert_ne, lookup_singleton_eq by done.
  by eexists _, _.
Qed.

Section Setup.
Context {DB : Type} `{!Chroma DB} {C : Type}.
Variable md5 : string → string.
Variable split_text : string → list string.

Lemma setup_no_chunks (env : Main.Environment DB C) pdf_path top_k reset_db :
  PDFProcessor.load_and_split split_text (Main.fitz env) pdf_path
  = Returned [] →
  Main.setup_rag_pipeline md5 split_text env pdf_path top_k reset_db
  = Raises (Exc KeyError "avg_length").
Proof. unfold Main.setup_rag_pipeline. by intros ->. Qed.

Lemma load_and_split_no_chunks page_texts pdf_path :
  Exists readable page_texts →
  (∀ raw c, raw ∈ page_texts → readable raw →
            c ∈ split_text (PDFProcessor._clean_text raw) →
            ¬ long_enough c) →
  PDFProcessor.load_and_split split_text (PDFProcessor.Opened page_texts)
    pdf_path
  = Returned [].
Proof.
  intros (raw0 & Hraw0 & Hread0)%Exists_exists Hshort.
  unfold PDFProcessor.load_and_split, PDFProcessor._extract_pages.
  destruct (extract_loop [] 0%N page_texts) as (pages & -> & _ & _ & Hin).
  simpl. destruct pages as [|p0 pages'].
  { apply list_elem_of_lookup in Hraw0 as [i Hi].
    exfalso. eapply elem_of_nil, Hin. eauto. }
  set (pages := p0 :: pages') in *. f_equal.
  rewrite create_chunks_closed.
  assert (kept_fragments split_text pages = []) as ->; [|done].
  destruct (kept_fragments split_text pages) as [|[p c] kept] eqn:Hkept;
    [done|].
  assert ((p, c) ∈ kept_fragments split_text pages) as Hpc
    by (rewrite Hkept; by left).
  apply elem_of_kept_fragments in Hpc as (Hp & Hc & Hlong).
  apply Hin in Hp as (i & raw & Hi & Hread & ->).
  exfalso. apply (Hshort raw c); [|done..].
  by eapply list_elem_of_lookup_2.
Qed.

(** X24: when the PDF opens and has a page with 50 characters of text,
    but no fragment that the splitter makes of the cleaned text of such a
    page has 30 characters after stripping, [load_and_split] returns no
    chunk and [setup_rag_pipeline] raises the [KeyError] of the missing
    statistic [avg_length], before the vector store is opened. *)
Theorem setup_without_chunks (env : Main.Environment DB C) pdf_path top_k
    reset_db page_texts :
  Main.fitz env = PDFProcessor.Opened page_texts →
  Exists readable page_texts →
  (∀ raw c, raw ∈ page_texts → readable raw →
            c ∈ split_text (PDFProcessor._clean_text raw) →
            ¬ long_enough c) →
  PDFProcessor.load_and_split split_text (Main.fitz env) pdf_path
  = Returned []
  ∧ Main.setup_rag_pipeline md5 split_text env pdf_path top_k reset_db
    = Raises (Exc KeyError "avg_length").
Proof.
  intros Hfitz Hread Hshort.
  assert (PDFProcessor.load_and_split split_text (Main.fitz env) pdf_path
          = Returned []) as Hload
    by (rewrite Hfitz; by apply load_and_split_no_chunks).
  split; [done|]. by apply setup_no_chunks.
Qed.

End Setup.

Section SetupStored.
Variable search :
  gmap string Document → string → Z → result (list (Document * Q)).
Variable add_fault :
  gmap string Document → list Document → list string → option exn.
Variable md5 : string → string.
Variable split_text : string → list string.
Context {C : Type}.

#[local] Instance setup_store : Chroma (gmap string Document) :=
  Mem.chroma search add_fault.

(** X25: when [setup_rag_pipeline] returns, the PDF gave at least one
    chunk and every chunk has an entry in the index of the returned
    retriever under its id, so the index is not empty; the retriever
    carries the given [top_k] and the default threshold, and the chain
    starts with no tokens used. *)
Theorem setup_pipeline_ready
    (env : Main.Environment (gmap string Document) C) pdf_path top_k reset_db
    retriever chain :
  Main.setup_rag_pipeline md5 split_text env pdf_path top_k reset_db
  = Returned (retriever, chain) →
  (∃ doc docs,
     PDFProcessor.load_and_split split_text (Main.fitz env) pdf_path
     = Returned (doc :: docs)
     ∧ ∀ d, d ∈ doc :: docs →
            VectorStore._compute_doc_id md5 d
            ∈ dom (Retriever.vector_store retriever))
  ∧ VectorStore.is_empty (Retriever.vector_store retriever) = false
  ∧ Retriever.top_k retriever = top_k
  ∧ Retriever.min_similarity retriever = Retriever.MIN_SIMILARITY
  ∧ LLMChain.total_tokens_used chain = 0%Z.
Proof.
  unfold Main.setup_rag_pipeline.
  destruct (PDFProcessor.load_and_split _ _ _) as [[|doc docs]| |];
    [done| |done..].
  destruct (get_stats_keys doc docs) as (avg & pages & Havg & Hpages).
  cbn [mbind outcome_bind]. rewrite Havg, Hpages.
  cbn [of_result mbind outcome_bind].
  destruct (Main.persisted env) as [coll0|e]; [|done].
  cbn [of_result mbind outcome_bind].
  set (opened := if reset_db then _ else _).
  destruct opened as [coll| |]; [|done..].
  cbn [mbind outcome_bind].
  destruct (VectorStore.add_documents md5 coll (doc :: docs)
              VectorStore.default_batch_size) as [[n|e] coll1] eqn:Hadd;
    [|done].
  destruct (Main.new_client env) as [client|e]; [|done].
  cbn [of_result mbind outcome_bind]. intros [= <- <-].
  cbn [Retriever.vector_store Retriever.top_k Retriever.min_similarity].
  apply (add_documents_dom search add_fault md5) in Hadd
    as (_ & _ & Hdom); [|done].
  assert (∀ d, d ∈ doc :: docs → VectorStore._compute_doc_id md5 d ∈ dom coll1)
    as Hstored.
  { intros d Hd. rewrite Hdom.
    apply elem_of_union_r, elem_of_list_to_set. by apply list_elem_of_fmap_2. }
  split_and!; [by eauto| |done..].
  unfold VectorStore.is_empty. simpl. apply bool_decide_eq_false.
  intros Hz%map_size_empty_inv.
  specialize (Hstored doc ltac:(by left)).
  rewrite Hz, dom_empty_L in Hstored. by apply not_elem_of_empty in Hstored.
Qed.

End SetupStored.

Lemma setup_without_chunks_witness :
  let backend := Mem.chroma (ranked_search []) no_fault in
  let page_texts :=
    ["1. 2. 3. 4. 5. 6. 7. 8. 9. 10. 11. 12. 13. 14. 15. 16. 17."] in
  let env : Main.Environment (gmap string Document) Scripted.Client :=
    {| Main.fitz := PDFProcessor.Opened page_texts;
       Main.persisted := Ok ∅;
       Main.emptied := Ok ∅;
       Main.new_client :=
         Ok {| Scripted.script := []; Scripted.requests := [] |} |} in
  let pdf_path :=
    {| PDFProcessor.path_str := "/tmp/a.pdf";
       PDFProcessor.path_name := "a.pdf" |} in
  PDFProcessor.load_and_split PyStr.split (Main.fitz env) pdf_path
  = Returned []
  ∧ Main.setup_rag_pipeline (Chroma0 := backend) plain_digest PyStr.split env
      pdf_path 3 false
    = Raises (Exc KeyError "avg_length").
Proof.
  intros backend page_texts env pdf_path.
  apply (setup_without_chunks (Chroma0 := backend) plain_digest PyStr.split
           env pdf_path 3 false page_texts).
  - reflexivity.
  - apply Exists_cons_hd. unfold readable. vm_compute. lia.
  - intros raw c ->%list_elem_of_singleton _ Hc.
    vm_compute in Hc. unfold long_enough.
    repeat (apply elem_of_cons in Hc as [->|Hc]; [vm_compute; lia|]).
    by apply elem_of_nil in Hc.
Defined.

Lemma setup_pipeline_ready_witness :
  let env : Main.Environment (gmap string Document) Scripted.Client :=
    {| Main.fitz :=
         PDFProcessor.Opened
           ["  Cover ";
            "  A page with enough text to be read: fifty characters. "];
       Main.persisted := Ok ∅;
       Main.emptied := Ok ∅;
       Main.new_client :=
         Ok {| Scripted.script := []; Scripted.requests := [] |} |} in
  let pdf_path :=
    {| PDFProcessor.path_str := "/tmp/a.pdf";
       PDFProcessor.path_name := "a.pdf" |} in
  let split_text := λ page_text : string, [page_text] in
  match
    Main.setup_rag_pipeline
      (Chroma0 := Mem.chroma (ranked_search []) no_fault)
      length_digest split_text env pdf_path 3 false
  with
  | Returned (retriever, chain) =>
      VectorStore.is_empty
        (Chroma0 := Mem.chroma (ranked_search []) no_fault)
        (Retriever.vector_store retriever)
      = false
      ∧ Retriever.top_k retriever = 3%Z
  | _ => False
  end.
Proof.
  intros env pdf_path split_text.
  destruct (Main.setup_rag_pipeline _ _ _ _ _ _)
    as [[retriever chain]|msg|e] eqn:Hsetup;
    [|by vm_compute in Hsetup..].
  by destruct (setup_pipeline_ready (ranked_search []) no_fault length_digest
                 split_text env pdf_path 3 false retriever chain Hsetup)
    as (_ & ? & ? & _).
Defined.
